(** * AION system agent: configuration validation, diagnostics, self-healing

    A shallow embedding of [src/systemagent/systemagent.py] (class
    [AionSystemAgent], version 1.7.0) and the properties its specification
    states about it.

    Conventions of the embedding.
    - JSON-like Python values are the type [pyval].  A [float] is modelled by
      the extended rational it denotes ([pyfloat]: NaN, the two infinities, or
      a finite rational).  Rounding to the nearest double is modelled where
      the behaviour of the code turns on it, in the sleep that ends a turn of
      the supervisor loop ([to_double], [float_of_num], [double_sub]); the
      percentages and rates of the checks are compared as exact rationals.
    - A [str] is a Rocq [string] of bytes; [upper] and [lower] act on the
      ASCII letters only.
    - A Python [dict] with string keys is a [gmap string _].
    - A call that may raise returns a [result]; code that talks to the host
      (subprocesses, the clock, the process table) runs in the monad [M],
      which threads a [world] and records the [event]s it causes. *)

From Stdlib Require Import ZArith QArith Qround Qabs String Ascii List Bool Lia.
From Stdlib Require Import DecimalString.
From stdpp Require Import base option gmap strings list fin_maps.

Close Scope Q_scope.
Open Scope string_scope.
Open Scope Z_scope.

Set Warnings "-register-all".

(** ** Python values *)

Inductive pyfloat :=
| FNan
| FInf (negative : bool)
| FFin (q : Q).

Inductive pyval :=
| VNone
| VBool (b : bool)
| VInt (z : Z)
| VFloat (f : pyfloat)
| VStr (s : string)
| VList (l : list pyval)
| VDict (d : gmap string pyval).

(** The numeric tower: [bool] is a subclass of [int], and both compare with
    [float] by exact value. *)
Inductive num :=
| NBool (b : bool)
| NInt (z : Z)
| NFloat (f : pyfloat).

Definition to_num (v : pyval) : option num :=
  match v with
  | VBool b => Some (NBool b)
  | VInt z => Some (NInt z)
  | VFloat f => Some (NFloat f)
  | _ => None
  end.

Definition num_float (n : num) : pyfloat :=
  match n with
  | NBool b => FFin (inject_Z (Z.b2z b))
  | NInt z => FFin (inject_Z z)
  | NFloat f => f
  end.

Definition Qlt_bool (x y : Q) : bool := negb (Qle_bool y x).

(** [a < b] on floats: false as soon as one side is NaN. *)
Definition float_lt (a b : pyfloat) : bool :=
  match a, b with
  | FNan, _ => false
  | _, FNan => false
  | FInf true, FInf true => false
  | FInf true, _ => true
  | FFin _, FInf neg => negb neg
  | FFin x, FFin y => Qlt_bool x y
  | FInf false, _ => false
  end.

Definition num_lt (a b : num) : bool := float_lt (num_float a) (num_float b).
Definition num_gt (a b : num) : bool := num_lt b a.
Definition num_ge (a b : num) : bool :=
  match num_float a, num_float b with
  | FNan, _ | _, FNan => false
  | x, y => negb (float_lt x y)
  end.

Definition float_mul (a b : pyfloat) : pyfloat :=
  match a, b with
  | FNan, _ | _, FNan => FNan
  | FFin x, FFin y => FFin (x * y)%Q
  | FInf n, FInf n' => FInf (xorb n n')
  | FInf n, FFin y | FFin y, FInf n =>
      if Qeq_bool y 0 then FNan else FInf (xorb n (Qlt_bool y 0))
  end.

Definition float_sub (a b : pyfloat) : pyfloat :=
  match a, b with
  | FNan, _ | _, FNan => FNan
  | FFin x, FFin y => FFin (x - y)%Q
  | FInf n, FInf n' => if Bool.eqb n n' then FNan else FInf n
  | FInf n, FFin _ => FInf n
  | FFin _, FInf n => FInf (negb n)
  end.

(** Truthiness, as [if x:] and [not x] see it. *)
Definition truthy (v : pyval) : bool :=
  match v with
  | VNone => false
  | VBool b => b
  | VInt z => negb (z =? 0)
  | VFloat FNan => true
  | VFloat (FInf _) => true
  | VFloat (FFin q) => negb (Qeq_bool q 0)
  | VStr s => negb (String.eqb s "")
  | VList l => match l with [] => false | _ => true end
  | VDict d => negb (Nat.eqb (size d) 0)
  end.

(** ** Strings *)

Definition upper_ascii (c : ascii) : ascii :=
  let n := nat_of_ascii c in
  if (Nat.leb 97 n && Nat.leb n 122)%bool then ascii_of_nat (n - 32) else c.

Definition lower_ascii (c : ascii) : ascii :=
  let n := nat_of_ascii c in
  if (Nat.leb 65 n && Nat.leb n 90)%bool then ascii_of_nat (n + 32) else c.

Fixpoint upper (s : string) : string :=
  match s with
  | EmptyString => EmptyString
  | String c s' => String (upper_ascii c) (upper s')
  end.

Fixpoint lower (s : string) : string :=
  match s with
  | EmptyString => EmptyString
  | String c s' => String (lower_ascii c) (lower s')
  end.

Definition str_in (s : string) (l : list string) : bool :=
  existsb (String.eqb s) l.

Fixpoint strip_left (s : string) : string :=
  match s with
  | String c s' =>
      if (Ascii.eqb c " " || Ascii.eqb c "009" || Ascii.eqb c "010"
          || Ascii.eqb c "011" || Ascii.eqb c "012" || Ascii.eqb c "013")%bool
      then strip_left s' else s
  | EmptyString => EmptyString
  end.

(** [s.strip()] for ASCII whitespace. *)
Definition strip (s : string) : string :=
  String.rev (strip_left (String.rev (strip_left s))).

(** [str(n)] for an integer. *)
Definition str_of_Z (z : Z) : string := NilZero.string_of_int (Z.to_int z).

(** ** Exceptions *)

Inductive exn :=
| KeyError (k : string)
| TypeError
| AttributeError
| IndexError
| ValueError
| OverflowError
| FileNotFoundError
| TimeoutExpired
| CalledProcessError (rc : Z) (stderr : string)
| OtherError (msg : string)
| NotModelled (what : string).

Inductive result (A : Type) :=
| Ok (a : A)
| Raise (e : exn).
Arguments Ok {A} a.
Arguments Raise {A} e.

#[global] Instance result_ret : MRet result := fun A a => Ok a.
#[global] Instance result_bind : MBind result := fun A B f r =>
  match r with
  | Ok a => f a
  | Raise e => Raise e
  end.

Definition is_Ok {A} (r : result A) : Prop := exists a, r = Ok a.

(** [v < z] and [v > z] against an integer bound: a [TypeError] unless [v] is
    a number. *)
Definition py_lt_num (v : pyval) (n : num) : result bool :=
  match to_num v with
  | Some x => Ok (num_lt x n)
  | None => Raise TypeError
  end.

Definition py_gt_num (v : pyval) (n : num) : result bool :=
  match to_num v with
  | Some x => Ok (num_gt x n)
  | None => Raise TypeError
  end.

(** [str(v)], for the values whose text does not depend on float printing. *)
Definition py_str (v : pyval) : result string :=
  match v with
  | VStr s => Ok s
  | VNone => Ok "None"
  | VBool true => Ok "True"
  | VBool false => Ok "False"
  | VInt z => Ok (str_of_Z z)
  | _ => Raise (NotModelled "str")
  end.

(** ** Configuration schema (CONFIG_SCHEMA) *)

Inductive pytype := TInt | TFloat | TStr | TBool | TList.

Definition isinstance (v : pyval) (t : pytype) : bool :=
  match t, v with
  | TInt, VInt _ => true
  | TInt, VBool _ => true
  | TFloat, VFloat _ => true
  | TStr, VStr _ => true
  | TBool, VBool _ => true
  | TList, VList _ => true
  | _, _ => false
  end.

Record field_schema := mk_schema {
  f_type : pytype;
  f_min : option Z;
  f_max : option Z;
  f_enum : option (list string)
}.

Definition sch (t : pytype) : field_schema := mk_schema t None None None.
Definition sch_min (t : pytype) (m : Z) : field_schema := mk_schema t (Some m) None None.
Definition sch_rng (t : pytype) (m M : Z) : field_schema := mk_schema t (Some m) (Some M) None.

Definition CONFIG_SCHEMA : list (string * field_schema) :=
  [ ("monitor_interval", sch_min TInt 10);
    ("log_level", mk_schema TStr None None
                    (Some ["DEBUG"; "INFO"; "WARNING"; "ERROR"; "CRITICAL"]));
    ("log_file", sch TStr);
    ("cpu_threshold", sch_rng TFloat 0 100);
    ("memory_threshold", sch_rng TFloat 0 100);
    ("disk_threshold", sch_rng TFloat 0 100);
    ("swap_threshold", sch_rng TFloat 0 100);
    ("zombie_threshold", sch_min TInt 0);
    ("temp_alert_threshold", sch TFloat);
    ("network_connectivity_host", sch TStr);
    ("network_connectivity_port", sch_rng TInt 1 65535);
    ("network_connectivity_timeout", sch_min TInt 1);
    ("cpu_permit_man_update", sch_rng TFloat 0 100);
    ("mandb_min_interval_hours", sch_min TInt 1);
    ("email_alerts_enabled", sch TBool);
    ("email_recipient", sch TStr);
    ("email_sender", sch TStr);
    ("smtp_host", sch TStr);
    ("smtp_port", sch_rng TInt 1 65535);
    ("ollama_enabled", sch TBool);
    ("ollama_host", sch TStr);
    ("ollama_model", sch TStr);
    ("ollama_init_timeout_seconds", sch_min TInt 10);
    ("self_healing_enabled", sch TBool);
    ("self_heal_cpu_enabled", sch TBool);
    ("self_heal_cpu_threshold", sch_rng TFloat 0 100);
    ("self_heal_cpu_kill_limit", sch_min TInt 0);
    ("self_heal_cpu_exclude_procs", sch TList);
    ("self_heal_memory_enabled", sch TBool);
    ("self_heal_memory_clear_caches", sch TBool);
    ("self_heal_processes_enabled", sch TBool);
    ("self_heal_processes_cleanup_zombies", sch TBool);
    ("self_heal_disk_enabled", sch TBool);
    ("self_heal_disk_log_path", sch TStr);
    ("self_heal_disk_log_max_age_days", sch_min TInt 1);
    ("self_heal_disk_tmp_path", sch TStr);
    ("self_heal_disk_tmp_max_age_days", sch_min TInt 1);
    ("self_heal_network_enabled", sch TBool);
    ("self_heal_network_service_names", sch TList) ].

Definition vfloat (q : Q) : pyval := VFloat (FFin q).
Definition vstrs (l : list string) : pyval := VList (VStr <$> l).

(** The [defaults] dict of [_load_and_validate_config]; [ollama_available] is
    the module constant [OLLAMA_AVAILABLE]. *)
Definition defaults_list (ollama_available : bool) : list (string * pyval) :=
  [ ("monitor_interval", VInt 60);
    ("log_level", VStr "INFO");
    ("log_file", VStr "/var/log/aion/system_agent.log");
    ("cpu_threshold", vfloat 85);
    ("memory_threshold", vfloat 90);
    ("disk_threshold", vfloat 85);
    ("swap_threshold", vfloat 75);
    ("zombie_threshold", VInt 10);
    ("temp_alert_threshold", vfloat 80);
    ("network_connectivity_host", VStr "8.8.8.8");
    ("network_connectivity_port", VInt 53);
    ("network_connectivity_timeout", VInt 3);
    ("cpu_permit_man_update", vfloat 50);
    ("mandb_min_interval_hours", VInt 6);
    ("email_alerts_enabled", VBool false);
    ("email_recipient", VStr "");
    ("email_sender", VStr "system-agent@aion.chroot.localhost");
    ("smtp_host", VStr "localhost");
    ("smtp_port", VInt 25);
    ("ollama_enabled", VBool ollama_available);
    ("ollama_host", VStr "http://127.0.0.1:11434");
    ("ollama_model", VStr "gemma:2b");
    ("ollama_init_timeout_seconds", VInt 180);
    ("self_healing_enabled", VBool true);
    ("self_heal_cpu_enabled", VBool false);
    ("self_heal_cpu_threshold", vfloat 95);
    ("self_heal_cpu_kill_limit", VInt 2);
    ("self_heal_cpu_exclude_procs",
      vstrs ["systemd"; "kthreadd"; "sshd"; "rsyslogd"; "journald";
             "dbus-daemon"; "login"; "agetty"; "containerd"; "dockerd";
             "kubelet"; "supervisord"; "python"; "aion_system_agent"; "ollama"]);
    ("self_heal_memory_enabled", VBool true);
    ("self_heal_memory_clear_caches", VBool true);
    ("self_heal_processes_enabled", VBool true);
    ("self_heal_processes_cleanup_zombies", VBool true);
    ("self_heal_disk_enabled", VBool true);
    ("self_heal_disk_log_path", VStr "/var/log");
    ("self_heal_disk_log_max_age_days", VInt 30);
    ("self_heal_disk_tmp_path", VStr "/tmp");
    ("self_heal_disk_tmp_max_age_days", VInt 7);
    ("self_heal_network_enabled", VBool false);
    ("self_heal_network_service_names",
      vstrs ["networking"; "NetworkManager"; "systemd-networkd"]) ].

Definition defaults (ollama_available : bool) : gmap string pyval :=
  list_to_map (defaults_list ollama_available).

(** [d.get(key)]: [None] both for a missing key and for a stored [None]. *)
Definition dict_get (d : gmap string pyval) (key : string) : pyval :=
  default VNone (d !! key).

(** [d[key]] *)
Definition dict_item {A} (d : gmap string A) (key : string) : result A :=
  match d !! key with
  | Some v => Ok v
  | None => Raise (KeyError key)
  end.

(** ** Config validator ([_load_and_validate_config]) *)

(** Why a value was rejected (the [reason] text of the log line). *)
Inductive reason :=
| WrongType
| LessThanMin
| GreaterThanMax
| NotInEnum
| ExpectedList
| ElementsNotStrings.

Definition all_str (l : list pyval) : bool :=
  forallb (fun item => isinstance item TStr) l.

(** ["min" in schema and value < schema["min"]] *)
Definition below_min (s : field_schema) (value : pyval) : result bool :=
  match f_min s with
  | Some m => py_lt_num value (NInt m)
  | None => Ok false
  end.

Definition above_max (s : field_schema) (value : pyval) : result bool :=
  match f_max s with
  | Some m => py_gt_num value (NInt m)
  | None => Ok false
  end.

(** ["enum" in schema and str(value).upper() not in schema["enum"]] *)
Definition outside_enum (s : field_schema) (value : pyval) : result bool :=
  match f_enum s with
  | Some allowed => str ← py_str value; Ok (negb (str_in (upper str) allowed))
  | None => Ok false
  end.

Definition is_list (v : pyval) : bool := isinstance v TList.

Definition list_items (v : pyval) : list pyval :=
  match v with VList l => l | _ => [] end.

(** The body of the validation loop for one key, between [valid = True] and
    [if not valid]: [None] when [valid] is still true, the reason otherwise.
    The [elif] chain hangs off the type test, so it runs only for a value
    that is an instance of the expected type itself. *)
Definition check_field (s : field_schema) (value : pyval) : result (option reason) :=
  if negb (isinstance value (f_type s)) then
    match f_type s with
    | TFloat => if isinstance value TInt then Ok None else Ok (Some WrongType)
    | _ => Ok (Some WrongType)
    end
  else
    lt ← below_min s value;
    if lt : bool then Ok (Some LessThanMin) else
    gt ← above_max s value;
    if gt : bool then Ok (Some GreaterThanMax) else
    out ← outside_enum s value;
    if out : bool then Ok (Some NotInEnum) else
    match f_type s with
    | TList =>
        if negb (is_list value) then Ok (Some ExpectedList)
        else if negb (all_str (list_items value)) then Ok (Some ElementsNotStrings)
        else Ok None
    | _ => Ok None
    end.

(** A logged fallback: key, rejected value, reason. *)
Definition warning : Type := string * pyval * reason.

(** The value the loop examines for [key]: [config.get(key)], replaced by the
    default when it is [None]. *)
Definition examined (dflt config : gmap string pyval) (key : string) : pyval :=
  match dict_get config key with
  | VNone => dict_get dflt key
  | value => value
  end.

Definition validate_field (dflt config : gmap string pyval)
    (key : string) (s : field_schema) : result (pyval * list warning) :=
  let value := examined dflt config key in
  why ← check_field s value;
  match why with
  | None => Ok (value, [])
  | Some r => Ok (dict_get dflt key, [(key, value, r)])
  end.

(** [for key, schema in CONFIG_SCHEMA.items(): ... validated_config[key] = value] *)
Fixpoint validate_fields (dflt config : gmap string pyval)
    (schema : list (string * field_schema))
    (validated : gmap string pyval) (log : list warning)
  : result (gmap string pyval * list warning) :=
  match schema with
  | [] => Ok (validated, log)
  | (key, s) :: rest =>
      r ← validate_field dflt config key s;
      validate_fields dflt config rest (<[key := r.1]> validated) (log ++ r.2)
  end.

(** What reading the config file gave: no file; an error that the loader
    catches ([JSONDecodeError], [OSError]); the top-level JSON object; a
    top-level JSON value of another kind (a list, a string, a number, a
    boolean or null); or an exception that the [except] clause does not name
    (a [UnicodeDecodeError] or a [RecursionError], for example), with its
    text. *)
Inductive load_outcome :=
| FileMissing
| LoadFailed
| Loaded (loaded_config : gmap string pyval)
| LoadedOther (loaded : pyval)
| LoadRaised (msg : string).

Definition is_ascii (s : string) : bool :=
  forallb (fun c => (nat_of_ascii c <? 128)%nat) (list_ascii_of_string s).

(** One element of the argument of [dict.update], read as a key and a value:
    a sequence of length two.  A two-character string gives its characters; a
    JSON object with two keys would give its keys in the order of the file,
    which a [gmap] does not record. *)
Definition pair_of (item : pyval) : result (pyval * pyval) :=
  match item with
  | VList [k; v] => Ok (k, v)
  | VList _ => Raise ValueError
  | VStr s =>
      if negb (is_ascii s) then Raise (NotModelled "text outside ASCII")
      else match s with
           | String a (String b EmptyString) =>
               Ok (VStr (String a EmptyString), VStr (String b EmptyString))
           | _ => Raise ValueError
           end
  | VDict d =>
      if (size d =? 2)%nat then Raise (NotModelled "key order of a JSON object")
      else Raise ValueError
  | VNone | VBool _ | VInt _ | VFloat _ => Raise TypeError
  end.

(** [config[k] = v]: a list or a dict is not hashable.  A key that is not a
    string is stored under a key that no lookup of the loader uses (its
    lookups are by the strings of the schema): the entry is left out of the
    string-keyed dict. *)
Definition set_item (config : gmap string pyval) (k v : pyval)
  : result (gmap string pyval) :=
  match k with
  | VStr key => Ok (<[key := v]> config)
  | VList _ | VDict _ => Raise TypeError
  | VNone | VBool _ | VInt _ | VFloat _ => Ok config
  end.

Fixpoint update_pairs (config : gmap string pyval) (items : list pyval)
  : result (gmap string pyval) :=
  match items with
  | [] => Ok config
  | item :: rest =>
      kv ← pair_of item;
      config' ← set_item config kv.1 kv.2;
      update_pairs config' rest
  end.

(** [config.update(loaded)]: a dict is merged; any other value is iterated
    as a sequence of key/value pairs.  A number, a boolean and [None] are not
    iterable; the elements of a string are its characters, each of length
    one. *)
Definition dict_update (config : gmap string pyval) (loaded : pyval)
  : result (gmap string pyval) :=
  match loaded with
  | VDict d => Ok (d ∪ config)
  | VList items => update_pairs config items
  | VStr "" => Ok config
  | VStr _ => Raise ValueError
  | VNone | VBool _ | VInt _ | VFloat _ => Raise TypeError
  end.

(** Lines 157-169: [config = defaults.copy()], then the [try] block that
    reads the file and calls [config.update(loaded_config)].  The [except]
    clause names [JSONDecodeError] and [OSError] only: the [TypeError] or
    [ValueError] of [config.update] on a value that is not an object, and any
    other exception of the read, leave the loader. *)
Definition merged_config (ollama_available : bool) (f : load_outcome)
  : result (gmap string pyval) :=
  match f with
  | FileMissing | LoadFailed => Ok (defaults ollama_available)
  | Loaded loaded_config => Ok (loaded_config ∪ defaults ollama_available)
  | LoadedOther loaded => dict_update (defaults ollama_available) loaded
  | LoadRaised msg => Raise (OtherError msg)
  end.

(** Lines 171-198: the validation against the schema. *)
Definition validate_config (ollama_available : bool) (f : load_outcome)
  : result (gmap string pyval * list warning) :=
  config ← merged_config ollama_available f;
  validate_fields (defaults ollama_available) config CONFIG_SCHEMA ∅ [].

Fixpoint lower_all (l : list pyval) : result (list pyval) :=
  match l with
  | [] => Ok []
  | VStr p :: rest => rest' ← lower_all rest; Ok (VStr (lower p) :: rest')
  | _ :: _ => Raise AttributeError
  end.

(** The post-validation adjustments (lines 200-210). *)
Definition post_validate (ollama_available : bool) (validated_config : gmap string pyval)
  : result (gmap string pyval) :=
  alerts ← dict_item validated_config "email_alerts_enabled";
  no_recipient ← (if truthy alerts
                  then recipient ← dict_item validated_config "email_recipient";
                       Ok (negb (truthy recipient))
                  else Ok false);
  let c1 := if no_recipient : bool
            then <["email_alerts_enabled" := VBool false]> validated_config
            else validated_config in
  unusable ← (if negb ollama_available
              then ollama ← dict_item c1 "ollama_enabled"; Ok (truthy ollama)
              else Ok false);
  let c2 := if unusable : bool
            then <["ollama_enabled" := VBool false]> c1
            else c1 in
  match dict_get c2 "self_heal_cpu_exclude_procs" with
  | VList l => l' ← lower_all l; Ok (<["self_heal_cpu_exclude_procs" := VList l']> c2)
  | _ => Ok c2
  end.

Definition _load_and_validate_config (ollama_available : bool) (f : load_outcome)
  : result (gmap string pyval) :=
  r ← validate_config ollama_available f;
  post_validate ollama_available r.1.

(** ** What the specification asks of a validated field *)

(** Membership in a declared type.  As in Python, a [bool] is an [int]. *)
Inductive has_type : pyval -> pytype -> Prop :=
| ht_int z : has_type (VInt z) TInt
| ht_bool_int b : has_type (VBool b) TInt
| ht_float f : has_type (VFloat f) TFloat
| ht_str s : has_type (VStr s) TStr
| ht_bool b : has_type (VBool b) TBool
| ht_list l : has_type (VList l) TList.

(** The declared type, an integer being accepted where a real is expected. *)
Definition has_declared_type (v : pyval) (t : pytype) : Prop :=
  has_type v t \/ (t = TFloat /\ has_type v TInt).

(** The rational a finite number stands for. *)
Definition finite_value (v : pyval) : option Q :=
  match v with
  | VBool b => Some (inject_Z (Z.b2z b))
  | VInt z => Some (inject_Z z)
  | VFloat (FFin q) => Some q
  | _ => None
  end.

Definition within_min (s : field_schema) (v : pyval) : Prop :=
  forall m, f_min s = Some m ->
    exists q, finite_value v = Some q /\ (inject_Z m <= q)%Q.

Definition within_max (s : field_schema) (v : pyval) : Prop :=
  forall m, f_max s = Some m ->
    exists q, finite_value v = Some q /\ (q <= inject_Z m)%Q.

Definition within_enum (s : field_schema) (v : pyval) : Prop :=
  forall allowed, f_enum s = Some allowed ->
    exists str, v = VStr str /\ In str allowed.

(** The property as the specification words it: declared type, min, max and
    enum all hold of the validated value. *)
Definition within_schema (s : field_schema) (v : pyval) : Prop :=
  has_declared_type v (f_type s) /\ within_min s v /\ within_max s v /\ within_enum s v.

(** What the validator establishes.  The bounds are promised for a finite
    value of the declared type itself; the enum is matched on the upper-cased
    text; a list holds strings only. *)
Definition conforms (s : field_schema) (v : pyval) : Prop :=
  has_declared_type v (f_type s) /\
  (has_type v (f_type s) -> forall q, finite_value v = Some q ->
     (forall m, f_min s = Some m -> (inject_Z m <= q)%Q) /\
     (forall m, f_max s = Some m -> (q <= inject_Z m)%Q)) /\
  (forall allowed, f_enum s = Some allowed ->
     exists str, v = VStr str /\ In (upper str) allowed) /\
  (f_type s = TList -> exists l, v = vstrs l).

(** A schema entry the checks can run on without a [TypeError]: bounds only
    on numeric fields, an enum only on a string field. *)
Definition schema_wf (s : field_schema) : bool :=
  (match f_type s with
   | TInt | TFloat | TBool => true
   | _ => match f_min s, f_max s with None, None => true | _, _ => false end
   end)
  && (match f_enum s with
      | None => true
      | Some _ => match f_type s with TStr => true | _ => false end
      end).

Definition default_ok (dflt : gmap string pyval) (entry : string * field_schema) : bool :=
  match dflt !! entry.1 with
  | Some d =>
      match check_field entry.2 d with
      | Ok None => match d with VNone => false | _ => true end
      | _ => false
      end
  | None => false
  end.

(** The validated value of one key and the warnings logged, for reading off
    concrete runs. *)
Definition validated_value (ollama_available : bool) (f : load_outcome) (key : string)
  : option pyval :=
  match validate_config ollama_available f with
  | Ok r => r.1 !! key
  | Raise _ => None
  end.

Definition validation_log (ollama_available : bool) (f : load_outcome) : list warning :=
  match validate_config ollama_available f with
  | Ok r => r.2
  | Raise _ => []
  end.

(** ** The validated configuration, as the rest of the agent reads it

    After validation every field has its declared type, so the code that
    follows reads numbers, flags, strings and string lists. *)
Record config := mk_config {
  monitor_interval : num;
  cpu_threshold : num;
  memory_threshold : num;
  disk_threshold : num;
  swap_threshold : num;
  zombie_threshold : num;
  temp_alert_threshold : num;
  network_connectivity_host : string;
  network_connectivity_port : num;
  network_connectivity_timeout : num;
  self_healing_enabled : bool;
  self_heal_cpu_enabled : bool;
  self_heal_cpu_threshold : num;
  self_heal_cpu_kill_limit : num;
  self_heal_cpu_exclude_procs : list string;
  self_heal_memory_enabled : bool;
  self_heal_memory_clear_caches : bool;
  self_heal_processes_enabled : bool;
  self_heal_processes_cleanup_zombies : bool;
  self_heal_disk_enabled : bool;
  self_heal_disk_log_path : string;
  self_heal_disk_log_max_age_days : num;
  self_heal_disk_tmp_path : string;
  self_heal_disk_tmp_max_age_days : num;
  self_heal_network_enabled : bool;
  self_heal_network_service_names : list string;
  cpu_permit_man_update : num;
  mandb_min_interval_hours : num
}.

Definition get_num (c : gmap string pyval) (key : string) : option num :=
  v ← c !! key; to_num v.

Definition get_bool (c : gmap string pyval) (key : string) : option bool :=
  v ← c !! key; match v with VBool b => Some b | _ => None end.

Definition get_str (c : gmap string pyval) (key : string) : option string :=
  v ← c !! key; match v with VStr s => Some s | _ => None end.

Fixpoint strs_of (l : list pyval) : option (list string) :=
  match l with
  | [] => Some []
  | VStr s :: rest => rest' ← strs_of rest; Some (s :: rest')
  | _ :: _ => None
  end.

Definition get_strs (c : gmap string pyval) (key : string) : option (list string) :=
  v ← c !! key; match v with VList l => strs_of l | _ => None end.

(** Reading [self.config] off the dict that [_load_and_validate_config]
    returns. *)
Definition config_of (c : gmap string pyval) : option config :=
  a1 ← get_num c "monitor_interval";
  a2 ← get_num c "cpu_threshold";
  a3 ← get_num c "memory_threshold";
  a4 ← get_num c "disk_threshold";
  a5 ← get_num c "swap_threshold";
  a6 ← get_num c "zombie_threshold";
  a7 ← get_num c "temp_alert_threshold";
  a8 ← get_str c "network_connectivity_host";
  a9 ← get_num c "network_connectivity_port";
  a10 ← get_num c "network_connectivity_timeout";
  a11 ← get_bool c "self_healing_enabled";
  a12 ← get_bool c "self_heal_cpu_enabled";
  a13 ← get_num c "self_heal_cpu_threshold";
  a14 ← get_num c "self_heal_cpu_kill_limit";
  a15 ← get_strs c "self_heal_cpu_exclude_procs";
  a16 ← get_bool c "self_heal_memory_enabled";
  a17 ← get_bool c "self_heal_memory_clear_caches";
  a18 ← get_bool c "self_heal_processes_enabled";
  a19 ← get_bool c "self_heal_processes_cleanup_zombies";
  a20 ← get_bool c "self_heal_disk_enabled";
  a21 ← get_str c "self_heal_disk_log_path";
  a22 ← get_num c "self_heal_disk_log_max_age_days";
  a23 ← get_str c "self_heal_disk_tmp_path";
  a24 ← get_num c "self_heal_disk_tmp_max_age_days";
  a25 ← get_bool c "self_heal_network_enabled";
  a26 ← get_strs c "self_heal_network_service_names";
  a27 ← get_num c "cpu_permit_man_update";
  a28 ← get_num c "mandb_min_interval_hours";
  Some (mk_config a1 a2 a3 a4 a5 a6 a7 a8 a9 a10 a11 a12 a13 a14 a15 a16 a17
          a18 a19 a20 a21 a22 a23 a24 a25 a26 a27 a28).

(** ** Health check results *)

(** The pieces of an f-string: literal text and interpolated values. *)
Inductive fpart :=
| FLit (s : string)
| FNum (n : num)
| FVal (v : pyval)
| FExn (e : exn).

Record issue := mk_issue {
  i_type : string;
  i_value : option pyval;
  i_description : list fpart
}.

Record health := mk_health {
  status : string;
  issues : list issue
}.

Definition _create_health_result (st : string) (iss : list issue) : health :=
  mk_health st iss.

Definition sev_map : gmap string Z :=
  list_to_map [("NOMINAL", 0); ("WARNING", 1); ("CRITICAL", 2); ("ERROR", 3)].

(** [sev_map.get(s, 0)] *)
Definition sev_rank (s : string) : Z := default 0 (sev_map !! s).

Definition _add_issue (h : health) (type : string) (val : pyval)
    (desc : list fpart) (sev : string) : health :=
  let issues' := (issues h ++ [mk_issue type (Some val) desc])%list in
  let cs := status h in
  if sev_rank sev >? sev_rank cs then mk_health sev issues' else mk_health cs issues'.

(** The four severities, and the three below ERROR. *)
Definition level (s : string) : Prop :=
  s = "NOMINAL" \/ s = "WARNING" \/ s = "CRITICAL" \/ s = "ERROR".

Definition below_error (s : string) : Prop :=
  s = "NOMINAL" \/ s = "WARNING" \/ s = "CRITICAL".

(** ** Domain checks *)

(** [s.get(key, dflt)] on a value that should be a dict. *)
Definition py_get (s : pyval) (key : string) (dflt : pyval) : result pyval :=
  match s with
  | VDict d => Ok (default dflt (d !! key))
  | _ => Raise AttributeError
  end.

(** [s[key]] for a string key. *)
Definition py_item (s : pyval) (key : string) : result pyval :=
  match s with
  | VDict d => dict_item d key
  | _ => Raise TypeError
  end.

(** [x[0]] *)
Definition py_index0 (x : pyval) : result pyval :=
  match x with
  | VList (a :: _) => Ok a
  | VList [] => Raise IndexError
  | VStr (String c _) => Ok (VStr (String c EmptyString))
  | VStr EmptyString => Raise IndexError
  | VDict _ => Raise (KeyError "0")
  | _ => Raise TypeError
  end.

(** [c * 1.5] *)
Definition py_mul_float (c : pyval) (k : Q) : result num :=
  match to_num c with
  | Some n => Ok (NFloat (float_mul (num_float n) (FFin k)))
  | None => Raise TypeError
  end.

Definition Qround_half_even (q : Q) : Z :=
  let fl := Qfloor q in
  match Qcompare (q - inject_Z fl) (1 # 2) with
  | Lt => fl
  | Gt => fl + 1
  | Eq => if Z.even fl then fl else fl + 1
  end.

(** [round(l, 2)] on a number. *)
Definition py_round2 (n : num) : pyval :=
  match n with
  | NBool b => VInt (Z.b2z b)
  | NInt z => VInt z
  | NFloat (FFin q) => VFloat (FFin (inject_Z (Qround_half_even (q * 100)) / 100)%Q)
  | NFloat f => VFloat f
  end.

(** The number a value stands for, as [round] needs it. *)
Definition as_number (v : pyval) : result num :=
  match to_num v with
  | Some n => Ok n
  | None => Raise TypeError
  end.

Definition _diagnose_cpu (cfg : config) (s : pyval) : result health :=
  let h := _create_health_result "NOMINAL" [] in
  let t := cpu_threshold cfg in
  if negb (truthy s) then Ok (_add_issue h "MISSING" (VInt 0) [FLit "CPU data"] "ERROR") else
  percent ← py_get s "percent" (VInt 0);
  high ← py_gt_num percent t;
  h ← (if high : bool
       then v ← py_item s "percent";
            Ok (_add_issue h "HIGH_CPU" v [FLit "> "; FNum t; FLit "%"] "CRITICAL")
       else Ok h);
  c ← py_get s "cores_logical" VNone;
  la ← py_get s "load_avg_1m_5m_15m" (VList [VInt 0]);
  l ← py_index0 la;
  if truthy c then
    bound ← py_mul_float c (3 # 2);
    over ← py_gt_num l bound;
    if over : bool
    then n ← as_number l;
         Ok (_add_issue h "HIGH_LOAD" (py_round2 n) [FLit "Load > 1.5x cores"] "WARNING")
    else Ok h
  else Ok h.

Definition _diagnose_memory (cfg : config) (s : pyval) : result health :=
  let h := _create_health_result "NOMINAL" [] in
  let vt := memory_threshold cfg in
  let st := swap_threshold cfg in
  if negb (truthy s) then Ok (_add_issue h "MISSING" (VInt 0) [FLit "Mem data"] "ERROR") else
  vp ← py_get s "virtual_percent" (VInt 0);
  high ← py_gt_num vp vt;
  h ← (if high : bool
       then v ← py_item s "virtual_percent";
            Ok (_add_issue h "HIGH_MEM" v [FLit "> "; FNum vt; FLit "%"] "CRITICAL")
       else Ok h);
  sp ← py_get s "swap_percent" (VInt 0);
  swap ← py_gt_num sp st;
  if swap : bool
  then v ← py_item s "swap_percent";
       Ok (_add_issue h "HIGH_SWAP" v [FLit "> "; FNum st; FLit "%"] "WARNING")
  else Ok h.

Definition _diagnose_disk (cfg : config) (s : pyval) : result health :=
  let h := _create_health_result "NOMINAL" [] in
  let t := disk_threshold cfg in
  if negb (truthy s) then Ok (_add_issue h "MISSING" (VInt 0) [FLit "Disk data"] "ERROR") else
  p ← py_get s "percent" (VInt 0);
  high ← py_gt_num p t;
  if high : bool
  then v ← py_item s "percent";
       path ← py_get s "path" (VStr "?");
       Ok (_add_issue h "LOW_DISK" v
             [FLit "Disk '"; FVal path; FLit "' > "; FNum t; FLit "%"] "CRITICAL")
  else Ok h.

Definition _diagnose_processes (cfg : config) (s : pyval) : result health :=
  let h := _create_health_result "NOMINAL" [] in
  let t := zombie_threshold cfg in
  if negb (truthy s) then Ok (_add_issue h "MISSING" (VInt 0) [FLit "Proc data"] "ERROR") else
  z ← py_get s "zombie" (VInt 0);
  many ← py_gt_num z t;
  if many : bool
  then v ← py_item s "zombie";
       Ok (_add_issue h "ZOMBIES" v [FLit "> "; FNum t; FLit " zombies"] "WARNING")
  else Ok h.

(** What the checks ask of the host: the outcome of
    [socket.create_connection((host, port), timeout)] (the name of the
    exception it raised, if any) and [hasattr(psutil, "sensors_temperatures")]. *)
Record probes := mk_probes {
  create_connection : string -> num -> num -> option string;
  sensors_supported : bool
}.

(** [counters.get(a, 0) > limit or counters.get(b, 0) > limit] *)
Definition either_above (counters : pyval) (a b : string) (limit : Z) : result bool :=
  x ← py_get counters a (VInt 0);
  xa ← py_gt_num x (NInt limit);
  if xa : bool then Ok true else
  y ← py_get counters b (VInt 0);
  py_gt_num y (NInt limit).

(** [{"in": counters.get(a), "out": counters.get(b)}] *)
Definition in_out (counters : pyval) (a b : string) : result pyval :=
  x ← py_get counters a VNone;
  y ← py_get counters b VNone;
  Ok (VDict (<["in" := x]> (<["out" := y]> ∅))).

Definition _diagnose_network (env : probes) (cfg : config) (s : pyval) : result health :=
  let h := _create_health_result "NOMINAL" [] in
  match s with
  | VNone =>
      Ok (_add_issue h "MISSING" (VInt 0) [FLit "Net data(Collection Error)"] "ERROR")
  | _ =>
      let ch := network_connectivity_host cfg in
      let cp := network_connectivity_port cfg in
      let ct := network_connectivity_timeout cfg in
      let h := match create_connection env ch cp ct with
               | None => h
               | Some e =>
                   _add_issue h "NET_CONNECT" (VInt 0)
                     [FLit "No reach "; FLit ch; FLit ":"; FNum cp; FLit " ("; FLit e; FLit ")"]
                     "CRITICAL"
               end in
      counters ← py_get s "network_counters" (VDict ∅);
      let err_thresh := 100 in
      let drop_thresh := 1000 in
      errs ← either_above counters "errin" "errout" err_thresh;
      h ← (if errs : bool
           then v ← in_out counters "errin" "errout";
                Ok (_add_issue h "NET_ERRORS" v [FLit "High NIC errors"] "WARNING")
           else Ok h);
      drops ← either_above counters "dropin" "dropout" drop_thresh;
      if drops : bool
      then v ← in_out counters "dropin" "dropout";
           Ok (_add_issue h "NET_DROPS" v [FLit "High NIC drops"] "WARNING")
      else Ok h
  end.

(** [[{"s": n, "t": tv} for n, tv in s.items() if tv > t]]; the sensors come
    in the map's order. *)
Fixpoint hot_sensors (items : list (string * pyval)) (t : num) : result (list pyval) :=
  match items with
  | [] => Ok []
  | (n, tv) :: rest =>
      hot ← py_gt_num tv t;
      rest' ← hot_sensors rest t;
      Ok (if hot : bool
          then VDict (<["s" := VStr n]> (<["t" := tv]> ∅)) :: rest'
          else rest')
  end.

Definition py_items (s : pyval) : result (list (string * pyval)) :=
  match s with
  | VDict d => Ok (map_to_list d)
  | _ => Raise AttributeError
  end.

Definition _diagnose_temperature (env : probes) (cfg : config) (s : pyval) : result health :=
  let h := _create_health_result "NOMINAL" [] in
  let t := temp_alert_threshold cfg in
  match s with
  | VNone =>
      Ok (_add_issue h "MISSING" (VInt 0) [FLit "Temp data(Collection Error)"] "ERROR")
  | _ =>
      if (negb (truthy s) && sensors_supported env)%bool
      then Ok (_add_issue h "MISSING" (VInt 0) [FLit "Temp read failed"] "WARNING")
      else if negb (truthy s) then Ok h
      else
        items ← py_items s;
        ht ← hot_sensors items t;
        match ht with
        | [] => Ok h
        | _ => Ok (_add_issue h "HIGH_TEMP" (VList ht)
                     [FLit "Sensor(s) > "; FNum t; FLit "°C"] "CRITICAL")
        end
  end.

(** ** Diagnostic engine ([diagnose_system]) *)

Record diagnostics := mk_diagnostics {
  overall_status : string;
  checks : gmap string health
}.

(** [diag_funcs], in the order of the dict literal. *)
Definition diag_funcs (env : probes) (cfg : config)
  : list (string * (pyval -> result health)) :=
  [ ("cpu", _diagnose_cpu cfg);
    ("memory", _diagnose_memory cfg);
    ("disk", _diagnose_disk cfg);
    ("processes", _diagnose_processes cfg);
    ("network", _diagnose_network env cfg);
    ("temperature", _diagnose_temperature env cfg) ].

(** The issue the [except] clause records for a check that raised. *)
Definition diag_error (e : exn) : health :=
  _create_health_result "ERROR" [mk_issue "DIAG_ERROR" None [FExn e]].

(** The [for key, func in diag_funcs.items()] loop.  The result carries the
    [issues] flag; [break] is the branch that does not recurse. *)
Fixpoint diagnose_loop (state : gmap string pyval)
    (funcs : list (string * (pyval -> result health)))
    (d : diagnostics) (any_issue : bool) : diagnostics * bool :=
  match funcs with
  | [] => (d, any_issue)
  | (key, func) :: rest =>
      match func (dict_get state key) with
      | Ok h =>
          let recorded := <[key := h]> (checks d) in
          if String.eqb (status h) "ERROR"
          then (mk_diagnostics "ERROR" recorded, true)
          else if String.eqb (status h) "CRITICAL"
          then diagnose_loop state rest (mk_diagnostics "CRITICAL" recorded) true
          else if (String.eqb (status h) "WARNING"
                   && String.eqb (overall_status d) "NOMINAL")%bool
          then diagnose_loop state rest (mk_diagnostics "WARNING" recorded) true
          else diagnose_loop state rest (mk_diagnostics (overall_status d) recorded) any_issue
      | Raise e =>
          diagnose_loop state rest
            (mk_diagnostics "ERROR" (<[key := diag_error e]> (checks d))) true
      end
  end.

Definition diagnose_system (env : probes) (cfg : config) (state : gmap string pyval)
  : diagnostics * bool :=
  diagnose_loop state (diag_funcs env cfg) (mk_diagnostics "NOMINAL" ∅) false.

(** [self.config] when no configuration file is present. *)
Definition default_config : config :=
  {| monitor_interval := NInt 60;
     cpu_threshold := NFloat (FFin 85);
     memory_threshold := NFloat (FFin 90);
     disk_threshold := NFloat (FFin 85);
     swap_threshold := NFloat (FFin 75);
     zombie_threshold := NInt 10;
     temp_alert_threshold := NFloat (FFin 80);
     network_connectivity_host := "8.8.8.8";
     network_connectivity_port := NInt 53;
     network_connectivity_timeout := NInt 3;
     self_healing_enabled := true;
     self_heal_cpu_enabled := false;
     self_heal_cpu_threshold := NFloat (FFin 95);
     self_heal_cpu_kill_limit := NInt 2;
     self_heal_cpu_exclude_procs :=
       ["systemd"; "kthreadd"; "sshd"; "rsyslogd"; "journald"; "dbus-daemon";
        "login"; "agetty"; "containerd"; "dockerd"; "kubelet"; "supervisord";
        "python"; "aion_system_agent"; "ollama"];
     self_heal_memory_enabled := true;
     self_heal_memory_clear_caches := true;
     self_heal_processes_enabled := true;
     self_heal_processes_cleanup_zombies := true;
     self_heal_disk_enabled := true;
     self_heal_disk_log_path := "/var/log";
     self_heal_disk_log_max_age_days := NInt 30;
     self_heal_disk_tmp_path := "/tmp";
     self_heal_disk_tmp_max_age_days := NInt 7;
     self_heal_network_enabled := false;
     self_heal_network_service_names :=
       ["networking"; "NetworkManager"; "systemd-networkd"];
     cpu_permit_man_update := NFloat (FFin 50);
     mandb_min_interval_hours := NInt 6 |}.

(** A host on which the connectivity probe succeeds and [psutil] has no
    temperature sensors. *)
Definition quiet_host : probes := mk_probes (fun _ _ _ => None) false.

(** ** The host: subprocesses, clock, process table

    Every question put to the host is answered by an oracle indexed by the
    number of questions asked so far ([w_tick]), so that the same command can
    meet different answers at different times. *)

Record launch := mk_launch {
  l_argv : list string;
  l_stdin : option string;
  l_shell : bool;
  l_timeout : num
}.

(** What became of a launched child by the time [communicate] returns or
    raises: it exited; the timeout expired; [Popen] raised
    [FileNotFoundError]; or something else was raised. *)
Inductive outcome :=
| Exited (rc : Z) (stdout stderr : string)
| TimedOut
| NotFound
| Crashed (msg : string).

(** What one [psutil] call gave: a value, a [psutil.Error], or another
    exception. *)
Inductive reading (A : Type) :=
| Got (a : A)
| PsutilError (msg : string)
| OtherFailure (msg : string).
Arguments Got {A} a.
Arguments PsutilError {A} msg.
Arguments OtherFailure {A} msg.

Record cpu_details := mk_cpu_details {
  cd_user : Q;
  cd_system : Q;
  cd_idle : Q;
  cd_iowait : option Q;
  cd_cores_logical : option Z;
  cd_cores_physical : option Z;
  cd_loadavg : Q * Q * Q
}.

Record mem_reading := mk_mem_reading {
  mem_total : Z;
  mem_available : Z;
  mem_percent : Q;
  swap_total : Z;
  swap_used : Z;
  swap_percent : Q
}.

Record disk_io := mk_disk_io {
  read_count : Z;
  write_count : Z;
  read_bytes : Z;
  write_bytes : Z
}.

Record disk_reading := mk_disk_reading {
  disk_total : Z;
  disk_used : Z;
  disk_free : Z;
  disk_percent : Q;
  disk_io_counters : option disk_io
}.

Record net_io := mk_net_io {
  bytes_sent : Z;
  bytes_recv : Z;
  packets_sent : Z;
  packets_recv : Z;
  errin : Z;
  errout : Z;
  dropin : Z;
  dropout : Z
}.

Inductive connections :=
| Connections (listening established : Z)
| AccessDenied
| ConnectionsError (msg : string).

(** Everything one call of [get_system_state] reads from the host. *)
Record telemetry := mk_telemetry {
  t_timestamp : string;
  t_cpu_percent : reading Q;
  t_cpu_details : reading cpu_details;
  t_memory : reading mem_reading;
  t_disk : reading disk_reading;
  t_monotonic : Q;
  t_net_io : reading net_io;
  t_net_connections : connections;
  t_pids : reading Z;
  t_zombies : reading Z;
  t_temperatures : gmap string pyval;
  t_uptime : reading Q
}.

(** [p.info] of a [psutil] process; a field the agent may not read is [None]. *)
Record proc := mk_proc {
  pid : Z;
  name : option string;
  p_cpu_percent : option Q;
  username : option string;
  create_time : option Q;
  is_zombie : bool
}.

Record host := mk_host {
  geteuid : Z;
  which : string -> option string;
  popen : nat -> launch -> outcome;
  drain : nat -> launch -> string * string;
  time_time : nat -> Q;
  process_iter : nat -> result (list proc);
  isdir : string -> bool;
  sample : nat -> telemetry;
  cpu_percent_now : nat -> reading Q;
  ollama_client : bool
}.

(** What the agent does to the world, in order: children launched and
    killed, processes chosen for termination (the "CPU Heal: Terminate PID"
    warning), sleeps, alerts, and the two error lines of the main loop. *)
Inductive event :=
| Launched (l : launch)
| ChildKilled (l : launch)
| Selected (p : proc)
| Slept (seconds : pyfloat)
| InterruptibleSleep (seconds : pyfloat)
| AlertRaised (overall : string)
| AdviceRequested
| CollectionError (msg : pyval)
| UnhandledLoopError (e : exn).

(** The host's clock of questions, the events so far, and the state the
    agent carries from one cycle to the next. *)
Record world := mk_world {
  w_tick : nat;
  w_events : list event;
  last_net_io_counters : option net_io;
  last_net_collection_time : option Q;
  last_mandb_run_time : Q
}.

Definition M (A : Type) : Type := world -> result A * world.

#[global] Instance M_ret : MRet M := fun A a w => (Ok a, w).
#[global] Instance M_bind : MBind M := fun A B f m w =>
  match m w with
  | (Ok a, w') => f a w'
  | (Raise e, w') => (Raise e, w')
  end.

Definition raise {A} (e : exn) : M A := fun w => (Raise e, w).
Definition lift {A} (r : result A) : M A := fun w => (r, w).

(** [try: body except Exception as e: handler(e)] *)
Definition try_except {A} (body : M A) (handler : exn -> M A) : M A := fun w =>
  match body w with
  | (Ok a, w') => (Ok a, w')
  | (Raise e, w') => handler e w'
  end.

Definition emit (ev : event) : M unit := fun w =>
  (Ok tt, mk_world (w_tick w) (w_events w ++ [ev]) (last_net_io_counters w)
            (last_net_collection_time w) (last_mandb_run_time w)).

Definition ask {A} (oracle : nat -> A) : M A := fun w =>
  (Ok (oracle (w_tick w)),
   mk_world (S (w_tick w)) (w_events w) (last_net_io_counters w)
     (last_net_collection_time w) (last_mandb_run_time w)).

Definition initial_world : world := mk_world 0 [] None None 0.

Definition newline : string := String "010" EmptyString.

(** [subprocess.Popen(...)] followed by [communicate(input, timeout)]:
    the exit code and the two output texts, or the exception raised. *)
Definition communicate (env : host) (l : launch) : M (Z * string * string) :=
  _ ← emit (Launched l);
  o ← ask (fun n => popen env n l);
  match o with
  | Exited rc stdout_output stderr_output => mret (rc, stdout_output, stderr_output)
  | TimedOut => raise TimeoutExpired
  | NotFound => raise FileNotFoundError
  | Crashed msg => raise (OtherError msg)
  end.

(** ** Command executor ([_run_subprocess]) *)

(** The [try] block: launch, wait, and judge the exit code.  With [check] a
    non-zero exit code raises [CalledProcessError]. *)
Definition run_child (env : host) (l : launch) (check : bool) : M (bool * string) :=
  r ← communicate env l;
  let '(rc, stdout_output, stderr_output) := r in
  let combined_output := strip (strip stdout_output ++ newline ++ strip stderr_output) in
  if rc =? 0 then mret (true, combined_output)
  else if check then raise (CalledProcessError rc stderr_output)
  else mret (false, combined_output).

(** [str(e)] in the last handler; only [OtherError] reaches it. *)
Definition exn_text (e : exn) : string :=
  match e with
  | OtherError msg => msg
  | _ => ""
  end.

(** The [except] clauses that follow the [try] block.  On a timeout the
    child is killed and [communicate] is called again; its stdout is dropped
    ([_, stderr = process.communicate()]). *)
Definition run_child_handler (env : host) (l : launch) (c0 : string) (e : exn)
  : M (bool * string) :=
  match e with
  | FileNotFoundError => mret (false, "Cmd not found: " ++ c0)
  | TimeoutExpired =>
      _ ← emit (ChildKilled l);
      rest ← ask (fun n => drain env n l);
      let stderr := rest.2 in
      mret (false, "Cmd timed out. Stderr: " ++ strip stderr)
  | CalledProcessError rc stderr => mret (false, strip stderr)
  | e => mret (false, exn_text e)
  end.

(** What the lines before the [try] block decide: an early failure, or the
    command line to launch ([sudo] put in front if needed, the command
    replaced by its full path unless a shell is asked for). *)
Inductive prepared :=
| Refused (msg : string)
| Ready (c0 : string) (args : list string).

Definition prepare (env : host) (command_list : list string) (use_sudo shell : bool)
  : result prepared :=
  let with_sudo :=
    if (use_sudo && negb (geteuid env =? 0))%bool
    then match which env "sudo" with
         | None => None
         | Some sudo_path => Some (sudo_path :: command_list)
         end
    else Some command_list in
  match with_sudo with
  | None => Ok (Refused "sudo not found")
  | Some [] => Raise IndexError
  | Some (c0 :: args) =>
      match which env c0, shell with
      | None, false => Ok (Refused ("Command not found: " ++ c0))
      | Some cmd_path, false => Ok (Ready cmd_path args)
      | _, true => Ok (Ready c0 args)
      end
  end.

Definition _run_subprocess (env : host) (command_list : list string)
    (check use_sudo shell : bool) (input_str : option string) (timeout_sec : num)
  : M (bool * string) :=
  p ← lift (prepare env command_list use_sudo shell);
  match p with
  | Refused msg => mret (false, msg)
  | Ready c0 args =>
      let l := mk_launch (c0 :: args) input_str shell timeout_sec in
      try_except (run_child env l check) (run_child_handler env l c0)
  end.


(** ** Self-healing *)

(** One entry of the [details] list of the disk action. *)
Record disk_detail := mk_disk_detail {
  dd_path : string;
  dd_age_days : string;
  dd_success : bool;
  dd_output : string
}.

(** The dicts the healing methods return. *)
Inductive action :=
| MitigateCpu (killed_pids : list Z) (killed_count : Z)
| ClearMemoryCaches (succeeded : bool) (details : string)
| CleanupZombies (st : string) (zombies_found : list Z) (sigchld_sent : option bool)
| ManageDiskSpace (st : string) (details : list disk_detail)
| RestartNetworking (st : string) (services_attempted : list string)
    (success_service : option string) (last_error : string)
| HealFailed (what : string) (error : exn).

(** [next((i['value'] for i in issues if i['type'] == wanted), 0)] *)
Fixpoint first_value (wanted : string) (iss : list issue) : result pyval :=
  match iss with
  | [] => Ok (VInt 0)
  | i :: rest =>
      if String.eqb (i_type i) wanted
      then match i_value i with
           | Some v => Ok v
           | None => Raise (KeyError "value")
           end
      else first_value wanted rest
  end.

(** [sorted(..., key=cpu_percent, reverse=True)]: stable, descending. *)
Definition cpu_share (p : proc) : Q := default 0%Q (p_cpu_percent p).

Fixpoint insert_desc (p : proc) (sorted : list proc) : list proc :=
  match sorted with
  | [] => [p]
  | q :: rest =>
      if Qlt_bool (cpu_share p) (cpu_share q)
      then q :: insert_desc p rest
      else p :: q :: rest
  end.

Definition sort_desc (l : list proc) : list proc := foldr insert_desc [] l.

(** [(pinfo['name'] or 'unknown').lower()] *)
Definition pname (p : proc) : string :=
  lower (match name p with
         | Some n => if String.eqb n "" then "unknown" else n
         | None => "unknown"
         end).

(** [pinfo['username'] != 'root'] *)
Definition not_root (p : proc) : bool :=
  match username p with
  | Some u => negb (String.eqb u "root")
  | None => true
  end.

(** [(time.time() - pinfo['create_time']) > 10]; the clock is read only when
    the conjuncts before it hold. *)
Definition older_than_grace (env : host) (p : proc) : M bool :=
  now ← ask (time_time env);
  match create_time p with
  | Some born => mret (Qlt_bool 10 (now - born))
  | None => raise TypeError
  end.

(** The condition under which a ranked process is terminated. *)
Definition eligible (env : host) (cfg : config) (exclude : list string) (p : proc) : M bool :=
  if (num_gt (NFloat (FFin (cpu_share p))) (cpu_threshold cfg)
      && negb (str_in (pname p) exclude)
      && not_root p)%bool
  then older_than_grace env p
  else mret false.

(** The [for proc in procs] loop of [_heal_cpu]. *)
Fixpoint heal_cpu_loop (env : host) (cfg : config) (exclude : list string)
    (procs : list proc) (killed_pids : list Z) (killed_count : Z) : M (list Z * Z) :=
  match procs with
  | [] => mret (killed_pids, killed_count)
  | p :: rest =>
      if num_ge (NInt killed_count) (self_heal_cpu_kill_limit cfg)
      then mret (killed_pids, killed_count)
      else
        go ← eligible env cfg exclude p;
        if go : bool then
          _ ← emit (Selected p);
          r ← _run_subprocess env ["kill"; str_of_Z (pid p)] false true false None (NInt 60);
          if r.1 : bool then
            _ ← emit (Slept (FFin (1 # 2)));
            heal_cpu_loop env cfg exclude rest (killed_pids ++ [pid p]) (killed_count + 1)
          else heal_cpu_loop env cfg exclude rest killed_pids killed_count
        else heal_cpu_loop env cfg exclude rest killed_pids killed_count
  end.

Definition has_cpu_share (p : proc) : bool :=
  match p_cpu_percent p with Some _ => true | None => false end.

Definition _heal_cpu (env : host) (cfg : config) (cpu_diag : health) : M (option action) :=
  if negb (self_heal_cpu_enabled cfg) then mret None else
  cpu_percent ← lift (first_value "HIGH_CPU_USAGE" (issues cpu_diag));
  below ← lift (py_lt_num cpu_percent (self_heal_cpu_threshold cfg));
  if below : bool then mret None else
  let exclude := lower <$> self_heal_cpu_exclude_procs cfg in
  try_except
    (ps ← ask (process_iter env);
     all ← lift ps;
     let procs := sort_desc (filter (fun p => has_cpu_share p = true) all) in
     r ← heal_cpu_loop env cfg exclude procs [] 0;
     mret (Some (MitigateCpu r.1 r.2)))
    (fun e => mret (Some (HealFailed "MITIGATE_CPU_PRESSURE" e))).

Definition _heal_memory (env : host) (cfg : config) : M (option action) :=
  if (negb (self_heal_memory_enabled cfg) || negb (self_heal_memory_clear_caches cfg))%bool
  then mret None else
  r ← _run_subprocess env ["sh"; "-c"; "sync && echo 3 > /proc/sys/vm/drop_caches"]
        false true true None (NInt 60);
  mret (Some (ClearMemoryCaches r.1 (if r.1 then "Caches dropped." else r.2))).

Definition _heal_processes (env : host) (cfg : config) : M (option action) :=
  if (negb (self_heal_processes_enabled cfg)
      || negb (self_heal_processes_cleanup_zombies cfg))%bool
  then mret None else
  try_except
    (ps ← ask (process_iter env);
     all ← lift ps;
     let zombies := filter (fun p => is_zombie p = true) all in
     match zombies with
     | [] => mret (Some (CleanupZombies "NO_ACTION_NEEDED" [] None))
     | _ =>
         let pids := pid <$> zombies in
         r ← _run_subprocess env ["kill"; "-s"; "SIGCHLD"; "1"] false true false None (NInt 60);
         mret (Some (CleanupZombies "SUCCESS" pids (Some r.1)))
     end)
    (fun e => mret (Some (HealFailed "CLEANUP_ZOMBIE_PROCESSES" e))).

(** [str(age)] of a validated age in days. *)
Definition str_of_num (n : num) : string :=
  match n with
  | NInt z => str_of_Z z
  | NBool true => "True"
  | NBool false => "False"
  | NFloat _ => ""
  end.

(** One turn of the [for item in items] loop of [_heal_disk]. *)
Definition heal_disk_item (env : host) (path age kind tf : string)
  : M (disk_detail * bool) :=
  if isdir env path then
    r ← _run_subprocess env
          ["find"; path; "-type"; "f"; tf; "+" ++ age; "-print"; "-delete"]
          false true false None (NInt 60);
    mret (mk_disk_detail path age r.1
            (if r.1 then "Deleted old " ++ kind ++ " files found." else r.2),
          r.1)
  else mret (mk_disk_detail path age false "Path does not exist/skipped.", false).

Definition _heal_disk (env : host) (cfg : config) : M (option action) :=
  if negb (self_heal_disk_enabled cfg) then mret None else
  try_except
    (a ← heal_disk_item env (self_heal_disk_log_path cfg)
           (str_of_num (self_heal_disk_log_max_age_days cfg)) "log" "-mtime";
     b ← heal_disk_item env (self_heal_disk_tmp_path cfg)
           (str_of_num (self_heal_disk_tmp_max_age_days cfg)) "tmp" "-atime";
     let success_overall := (a.2 && b.2)%bool in
     mret (Some (ManageDiskSpace (if success_overall then "SUCCESS" else "PARTIAL_FAILURE")
                   [a.1; b.1])))
    (fun e => mret (Some (HealFailed "MANAGE_DISK_SPACE" e))).

(** The [for service in services] loop of [_heal_network]. *)
Fixpoint restart_services (env : host) (services attempted : list string)
    (last_error : string) : M action :=
  match services with
  | [] => mret (RestartNetworking "FAILED" attempted None last_error)
  | service :: rest =>
      let attempted := (attempted ++ [service])%list in
      r ← _run_subprocess env ["systemctl"; "restart"; service] false true false None (NInt 60);
      if r.1 : bool
      then mret (RestartNetworking "SUCCESS" attempted (Some service) last_error)
      else restart_services env rest attempted r.2
  end.

Definition _heal_network (env : host) (cfg : config) : M (option action) :=
  if negb (self_heal_network_enabled cfg) then mret None else
  match self_heal_network_service_names cfg with
  | [] => mret None
  | services => a ← restart_services env services [] ""; mret (Some a)
  end.

(** [checks[key]["status"] != "NOMINAL"] *)
Definition abnormal (checks : gmap string health) (key : string) : M (option health) :=
  h ← lift (dict_item checks key);
  mret (if String.eqb (status h) "NOMINAL" then None else Some h).

(** [perform_self_healing]: [None] when self-healing is off, otherwise the
    actions it logs ([[a for a in actions if a]]). *)
Definition perform_self_healing (env : host) (cfg : config) (d : diagnostics)
  : M (option (list action)) :=
  if negb (self_healing_enabled cfg) then mret None else
  let checks := checks d in
  cpu ← abnormal checks "cpu";
  a1 ← match cpu with Some h => _heal_cpu env cfg h | None => mret None end;
  memory ← abnormal checks "memory";
  a2 ← match memory with Some _ => _heal_memory env cfg | None => mret None end;
  processes ← abnormal checks "processes";
  a3 ← match processes with Some _ => _heal_processes env cfg | None => mret None end;
  disk ← abnormal checks "disk";
  a4 ← match disk with Some _ => _heal_disk env cfg | None => mret None end;
  network ← abnormal checks "network";
  a5 ← match network with Some _ => _heal_network env cfg | None => mret None end;
  mret (Some (omap id [a1; a2; a3; a4; a5])).

(** ** Data collection ([get_system_state]) *)

(** [round(x, 2)] on a finite float. *)
Definition Qround2 (q : Q) : Q := (inject_Z (Qround_half_even (q * 100)) / 100)%Q.

(** [round(n / 1024**3, 2)] and [round(n / 1024**2, 2)] *)
Definition gb (n : Z) : pyval := vfloat (Qround2 (inject_Z n / inject_Z (1024 ^ 3))).
Definition mb (n : Z) : pyval := vfloat (Qround2 (inject_Z n / inject_Z (1024 ^ 2))).

Definition vopt_int (o : option Z) : pyval :=
  match o with Some z => VInt z | None => VNone end.

Definition cpu_dict (percent : Q) (cd : cpu_details) : gmap string pyval :=
  list_to_map
    [ ("percent", vfloat percent);
      ("percent_user", vfloat (cd_user cd));
      ("percent_system", vfloat (cd_system cd));
      ("percent_idle", vfloat (cd_idle cd));
      ("percent_wait", vfloat (default 0%Q (cd_iowait cd)));
      ("cores_logical", vopt_int (cd_cores_logical cd));
      ("cores_physical", vopt_int (cd_cores_physical cd));
      ("load_avg_1m_5m_15m",
        VList [vfloat (cd_loadavg cd).1.1; vfloat (cd_loadavg cd).1.2; vfloat (cd_loadavg cd).2]) ].

Definition memory_dict (m : mem_reading) : gmap string pyval :=
  list_to_map
    [ ("virtual_total_gb", gb (mem_total m));
      ("virtual_available_gb", gb (mem_available m));
      ("virtual_percent", vfloat (mem_percent m));
      ("swap_total_gb", gb (swap_total m));
      ("swap_used_gb", gb (swap_used m));
      ("swap_percent", vfloat (swap_percent m)) ].

Definition disk_dict (d : disk_reading) : gmap string pyval :=
  list_to_map
    [ ("path", VStr "/");
      ("total_gb", gb (disk_total d));
      ("used_gb", gb (disk_used d));
      ("free_gb", gb (disk_free d));
      ("percent", vfloat (disk_percent d));
      ("io_read_count",
        match disk_io_counters d with Some io => VInt (read_count io) | None => VStr "N/A" end);
      ("io_write_count",
        match disk_io_counters d with Some io => VInt (write_count io) | None => VStr "N/A" end);
      ("io_read_mb", mb (match disk_io_counters d with Some io => read_bytes io | None => 0 end));
      ("io_write_mb", mb (match disk_io_counters d with Some io => write_bytes io | None => 0 end)) ].

(** [net_io._asdict()] *)
Definition net_io_dict (n : net_io) : gmap string pyval :=
  list_to_map
    [ ("bytes_sent", VInt (bytes_sent n)); ("bytes_recv", VInt (bytes_recv n));
      ("packets_sent", VInt (packets_sent n)); ("packets_recv", VInt (packets_recv n));
      ("errin", VInt (errin n)); ("errout", VInt (errout n));
      ("dropin", VInt (dropin n)); ("dropout", VInt (dropout n)) ].

Definition rate_dict (sent recv : Q) : pyval :=
  VDict (list_to_map [("sent", vfloat sent); ("recv", vfloat recv)]).

(** [state["network_rate_kBs"]]: zero unless an earlier sample exists and
    time has passed since. *)
Definition network_rate (last : option net_io) (last_time : option Q)
    (current_time : Q) (n : net_io) : pyval :=
  match last, last_time with
  | Some l, Some lt =>
      let interval := (current_time - lt)%Q in
      if (negb (Qeq_bool lt 0) && Qlt_bool 0 interval)%bool
      then rate_dict
             (Qround2 (inject_Z (bytes_sent n - bytes_sent l) / interval / 1024))
             (Qround2 (inject_Z (bytes_recv n - bytes_recv l) / interval / 1024))
      else rate_dict 0 0
  | _, _ => rate_dict 0 0
  end.

Definition connections_dict (c : connections) : pyval :=
  match c with
  | Connections listening established =>
      VDict (list_to_map [("listening", VInt listening); ("established", VInt established)])
  | AccessDenied => VDict (list_to_map [("error", VStr "Access Denied")])
  | ConnectionsError msg => VDict (list_to_map [("error", VStr msg)])
  end.

Definition processes_dict (total zombie : Z) : pyval :=
  VDict (list_to_map [("total", VInt total); ("zombie", VInt zombie)]).

(** The two outer [except] clauses: the state built so far, plus ["error"]. *)
Definition with_error (state : gmap string pyval) (psutil_error : bool) (msg : string)
  : gmap string pyval :=
  <["error" := VStr ((if psutil_error then "psutil error: " else "General error: ") ++ msg)]>
    state.

(** Continue with a reading, or stop with the state built so far. *)
Definition on_reading {A B} (r : reading A) (state : gmap string pyval)
    (stop : gmap string pyval -> B) (k : A -> B) : B :=
  match r with
  | Got a => k a
  | PsutilError msg => stop (with_error state true msg)
  | OtherFailure msg => stop (with_error state false msg)
  end.

(** The snapshot, and the network sample to carry to the next cycle (if the
    collection got that far). *)
Definition collect (t : telemetry) (last : option net_io) (last_time : option Q)
  : gmap string pyval * option (net_io * Q) :=
  let state : gmap string pyval := {["timestamp" := VStr (t_timestamp t)]} in
  on_reading (t_cpu_percent t) state (fun s => (s, None)) (fun percent =>
  let state := <["cpu" := VDict {["percent" := vfloat percent]}]> state in
  on_reading (t_cpu_details t) state (fun s => (s, None)) (fun cd =>
  let state := <["cpu" := VDict (cpu_dict percent cd)]> state in
  on_reading (t_memory t) state (fun s => (s, None)) (fun m =>
  let state := <["memory" := VDict (memory_dict m)]> state in
  on_reading (t_disk t) state (fun s => (s, None)) (fun d =>
  let state := <["disk" := VDict (disk_dict d)]> state in
  let current_time := t_monotonic t in
  on_reading (t_net_io t) state (fun s => (s, None)) (fun n =>
  let carried := Some (n, current_time) in
  let state := <["network_rate_kBs" := network_rate last last_time current_time n]> state in
  let state := <["network_counters" := VDict (net_io_dict n)]> state in
  let state := <["network_connections" := connections_dict (t_net_connections t)]> state in
  on_reading (t_pids t) state (fun s => (s, carried)) (fun total =>
  let state := <["processes" := processes_dict total 0]> state in
  let after_zombies :=
    match t_zombies t with
    | Got z => Got (<["processes" := processes_dict total z]> state)
    | PsutilError _ => Got state
    | OtherFailure msg => OtherFailure msg
    end in
  on_reading after_zombies state (fun s => (s, carried)) (fun state =>
  let state := <["temperature_celsius" := VDict (t_temperatures t)]> state in
  on_reading (t_uptime t) state (fun s => (s, carried)) (fun uptime =>
  let state := <["uptime_seconds" := vfloat uptime]> state in
  (state, carried))))))))).

Definition get_system_state (env : host) : M (gmap string pyval) := fun w =>
  let t := sample env (w_tick w) in
  let r := collect t (last_net_io_counters w) (last_net_collection_time w) in
  (Ok r.1,
   mk_world (S (w_tick w)) (w_events w)
     (match r.2 with Some c => Some c.1 | None => last_net_io_counters w end)
     (match r.2 with Some c => Some c.2 | None => last_net_collection_time w end)
     (last_mandb_run_time w)).

(** ** Periodic task ([_update_man_db_if_needed]) *)

Definition set_last_mandb_run_time (now : Q) : M unit := fun w =>
  (Ok tt, mk_world (w_tick w) (w_events w) (last_net_io_counters w)
            (last_net_collection_time w) now).

Definition _update_man_db_if_needed (env : host) (cfg : config) : M unit :=
  let interval := float_mul (FFin 3600) (num_float (mandb_min_interval_hours cfg)) in
  now ← ask (time_time env);
  last ← (fun w => (Ok (last_mandb_run_time w), w));
  if float_lt (FFin (now - last)) interval then mret tt else
  try_except
    (r ← ask (cpu_percent_now env);
     match r with
     | Got cpu_usage =>
         if num_lt (NFloat (FFin cpu_usage)) (cpu_permit_man_update cfg) then
           out ← _run_subprocess env ["mandb"; "-q"] false true false None (NInt 60);
           if out.1 : bool
           then now' ← ask (time_time env); set_last_mandb_run_time now'
           else mret tt
         else mret tt
     | PsutilError msg | OtherFailure msg => raise (OtherError msg)
     end)
    (fun _ => mret tt).

(** ** Doubles

    Where the code mixes an integer of any size with a [float], the result
    depends on the conversion of the integer to a double: it rounds to the
    nearest double, ties to even, and raises [OverflowError] beyond the range
    of the doubles. *)

(** [2 ** e] as a rational. *)
Definition pow2 (e : Z) : Q :=
  match e with
  | Z0 => 1%Q
  | Zpos p => inject_Z (2 ^ Zpos p)
  | Zneg p => (1 # (2 ^ p))%Q
  end.

(** For a positive rational, the [e] with [2 ** e <= q < 2 ** (e + 1)]. *)
Definition floor_log2 (q : Q) : Z :=
  let e0 := Z.log2 (Qnum q) - Z.log2 (Zpos (Qden q)) in
  if Qle_bool (pow2 e0) q then e0 else e0 - 1.

(** The binary64 number nearest to a rational, ties to even: 53 bits of
    precision down to the exponent of the subnormal numbers, an infinity from
    [2 ** 1024 - 2 ** 970] on.  The result is a fraction in lowest terms. *)
Definition to_double (q : Q) : pyfloat :=
  if Qeq_bool q 0 then FFin 0 else
  let a := Qabs q in
  let e := Z.max (floor_log2 a - 52) (-1074) in
  let r := (inject_Z (Qround_half_even (a / pow2 e)) * pow2 e)%Q in
  if Qle_bool (pow2 1024) r then FInf (Qlt_bool q 0)
  else FFin (Qred (if Qlt_bool q 0 then - r else r)%Q).

(** [float(z)], as the arithmetic of an [int] with a [float] applies it. *)
Definition float_of_int (z : Z) : result pyfloat :=
  match to_double (inject_Z z) with
  | FInf _ => Raise OverflowError
  | f => Ok f
  end.

Definition float_of_num (n : num) : result pyfloat :=
  match n with
  | NBool b => float_of_int (Z.b2z b)
  | NInt z => float_of_int z
  | NFloat f => Ok f
  end.

(** [a - b] on two floats. *)
Definition double_sub (a b : pyfloat) : pyfloat :=
  match float_sub a b with
  | FFin q => to_double q
  | f => f
  end.

(** ** Supervisor loop ([run]) *)

Definition float_max (a b : pyfloat) : pyfloat :=
  if float_lt a b then b else a.

(** What [time.sleep(secs)] raises, if anything.  CPython turns the length
    into a signed 64-bit count of nanoseconds, a float being multiplied by
    [1e9] and rounded away from zero: a length outside that range (an
    infinity included) raises [OverflowError], NaN and a negative length
    raise [ValueError]. *)
Definition sleep_refused (secs : num) : option exn :=
  match secs with
  | NBool _ => None
  | NInt z =>
      if ((z <? -9223372036) || (9223372036 <? z))%bool then Some OverflowError
      else if z <? 0 then Some ValueError
      else None
  | NFloat FNan => Some ValueError
  | NFloat (FInf _) => Some OverflowError
  | NFloat (FFin q) =>
      match to_double (q * inject_Z (10 ^ 9)) with
      | FFin ns =>
          if (Qlt_bool ns (- inject_Z (2 ^ 63)) || Qle_bool (inject_Z (2 ^ 63)) ns)%bool
          then Some OverflowError
          else if Qlt_bool q 0 then Some ValueError
          else None
      | _ => Some OverflowError
      end
  end.

Definition time_sleep (secs : num) : M unit :=
  match sleep_refused secs with
  | Some e => raise e
  | None => emit (Slept (num_float secs))
  end.

(** The [try] block of the loop after the snapshot is taken; the answer is
    whether the turn ended in [continue].  On a collection error the
    [continue] follows [time.sleep]: when that call raises, the exception
    goes to the handler of the loop, like any other of the block. *)
Definition after_collection (env : host) (net : probes) (cfg : config)
    (system_state : gmap string pyval) : M bool :=
  match system_state !! "error" with
  | Some msg =>
      _ ← emit (CollectionError msg);
      _ ← time_sleep (monitor_interval cfg);
      mret true
  | None =>
      let r := diagnose_system net cfg system_state in
      let diagnostics := r.1 in
      _ ← (if r.2 : bool then emit (AlertRaised (overall_status diagnostics)) else mret tt);
      _ ← (if ollama_client env then emit AdviceRequested else mret tt);
      _ ← (if negb (String.eqb (overall_status diagnostics) "NOMINAL")
           then _ ← perform_self_healing env cfg diagnostics; mret tt
           else mret tt);
      _ ← _update_man_db_if_needed env cfg;
      mret false
  end.

(** [except Exception as e: self.logger.critical(...)] *)
Definition loop_handler (e : exn) : M bool :=
  _ ← emit (UnhandledLoopError e); mret false.

(** [max(1.0, self.config['monitor_interval'] - cycle_duration)] (line 560):
    what is left of the interval, at least one second.  The subtraction
    converts an integer interval to a double first, which raises
    [OverflowError] for an integer beyond the doubles; the line stands after
    the [try] block of the loop, so that exception leaves [run]. *)
Definition end_of_cycle_sleep (cfg : config) (cycle_duration : pyfloat) : result pyfloat :=
  interval ← float_of_num (monitor_interval cfg);
  Ok (float_max (FFin 1) (double_sub interval cycle_duration)).

(** One turn of [while self.running].  The sleep that ends it is polled
    every half second for a shutdown request. *)
Definition run_cycle (env : host) (net : probes) (cfg : config) : M unit :=
  start_time ← ask (time_time env);
  continued ←
    try_except
      (system_state ← get_system_state env;
       after_collection env net cfg system_state)
      loop_handler;
  if continued : bool then mret tt else
  now ← ask (time_time env);
  let cycle_duration := double_sub (FFin now) (FFin start_time) in
  sleep_duration ← lift (end_of_cycle_sleep cfg cycle_duration);
  emit (InterruptibleSleep sleep_duration).

(** ** Concrete hosts and snapshots, for running the model *)

Definition calm_telemetry : telemetry :=
  {| t_timestamp := "2025-01-01T00:00:00";
     t_cpu_percent := Got 5%Q;
     t_cpu_details := Got (mk_cpu_details 3 2 95 (Some 0%Q) (Some 4) (Some 2) (1 # 2, 1 # 2, 1 # 2)%Q);
     t_memory := Got (mk_mem_reading (8 * 1024 ^ 3) (6 * 1024 ^ 3) 25 (2 * 1024 ^ 3) 0 0);
     t_disk := Got (mk_disk_reading (100 * 1024 ^ 3) (40 * 1024 ^ 3) (60 * 1024 ^ 3) 40 None);
     t_monotonic := 1000;
     t_net_io := Got (mk_net_io 1000 2000 10 20 0 0 0 0);
     t_net_connections := Connections 3 5;
     t_pids := Got 120;
     t_zombies := Got 0;
     t_temperatures := ∅;
     t_uptime := Got 86400%Q |}.

(** A host run by root on which every command is found, children behave as
    [child] says, and the process table is [procs]. *)
Definition host_with (child : launch -> outcome) (after_kill : string * string)
    (procs : list proc) (t : telemetry) : host :=
  {| geteuid := 0;
     which := fun c => Some ("/usr/bin/" ++ c);
     popen := fun _ l => child l;
     drain := fun _ _ => after_kill;
     time_time := fun _ => 100000%Q;
     process_iter := fun _ => Ok procs;
     isdir := fun _ => true;
     sample := fun _ => t;
     cpu_percent_now := fun _ => Got 5%Q;
     ollama_client := false |}.

(** A snapshot whose cpu reading is not a number, while memory is critical. *)
Definition faulty_snapshot : gmap string pyval :=
  list_to_map
    [ ("cpu", VDict (list_to_map [("percent", VStr "n/a")]));
      ("memory", VDict (list_to_map [("virtual_percent", vfloat 99)]));
      ("disk", VDict (list_to_map [("percent", VInt 10)]));
      ("processes", VDict (list_to_map [("zombie", VInt 0)]));
      ("network", VDict ∅);
      ("temperature", VDict ∅) ].

(** The outcome of the six checks, by domain, and the domains evaluated. *)
Definition status_of (d : diagnostics) (key : string) : option string :=
  status <$> checks d !! key.

Definition domains : list string :=
  ["cpu"; "memory"; "disk"; "processes"; "network"; "temperature"].

(** A configuration with the two self-healing switches and the exclusion
    list set. *)
Definition set_healing (healing cpu_healing : bool) (exclude : list string)
    (cfg : config) : config :=
  {| monitor_interval := monitor_interval cfg;
     cpu_threshold := cpu_threshold cfg;
     memory_threshold := memory_threshold cfg;
     disk_threshold := disk_threshold cfg;
     swap_threshold := swap_threshold cfg;
     zombie_threshold := zombie_threshold cfg;
     temp_alert_threshold := temp_alert_threshold cfg;
     network_connectivity_host := network_connectivity_host cfg;
     network_connectivity_port := network_connectivity_port cfg;
     network_connectivity_timeout := network_connectivity_timeout cfg;
     self_healing_enabled := healing;
     self_heal_cpu_enabled := cpu_healing;
     self_heal_cpu_threshold := self_heal_cpu_threshold cfg;
     self_heal_cpu_kill_limit := self_heal_cpu_kill_limit cfg;
     self_heal_cpu_exclude_procs := exclude;
     self_heal_memory_enabled := self_heal_memory_enabled cfg;
     self_heal_memory_clear_caches := self_heal_memory_clear_caches cfg;
     self_heal_processes_enabled := self_heal_processes_enabled cfg;
     self_heal_processes_cleanup_zombies := self_heal_processes_cleanup_zombies cfg;
     self_heal_disk_enabled := self_heal_disk_enabled cfg;
     self_heal_disk_log_path := self_heal_disk_log_path cfg;
     self_heal_disk_log_max_age_days := self_heal_disk_log_max_age_days cfg;
     self_heal_disk_tmp_path := self_heal_disk_tmp_path cfg;
     self_heal_disk_tmp_max_age_days := self_heal_disk_tmp_max_age_days cfg;
     self_heal_network_enabled := self_heal_network_enabled cfg;
     self_heal_network_service_names := self_heal_network_service_names cfg;
     cpu_permit_man_update := cpu_permit_man_update cfg;
     mandb_min_interval_hours := mandb_min_interval_hours cfg |}.

(** A configuration with another monitoring interval. *)
Definition set_interval (interval : num) (cfg : config) : config :=
  {| monitor_interval := interval;
     cpu_threshold := cpu_threshold cfg;
     memory_threshold := memory_threshold cfg;
     disk_threshold := disk_threshold cfg;
     swap_threshold := swap_threshold cfg;
     zombie_threshold := zombie_threshold cfg;
     temp_alert_threshold := temp_alert_threshold cfg;
     network_connectivity_host := network_connectivity_host cfg;
     network_connectivity_port := network_connectivity_port cfg;
     network_connectivity_timeout := network_connectivity_timeout cfg;
     self_healing_enabled := self_healing_enabled cfg;
     self_heal_cpu_enabled := self_heal_cpu_enabled cfg;
     self_heal_cpu_threshold := self_heal_cpu_threshold cfg;
     self_heal_cpu_kill_limit := self_heal_cpu_kill_limit cfg;
     self_heal_cpu_exclude_procs := self_heal_cpu_exclude_procs cfg;
     self_heal_memory_enabled := self_heal_memory_enabled cfg;
     self_heal_memory_clear_caches := self_heal_memory_clear_caches cfg;
     self_heal_processes_enabled := self_heal_processes_enabled cfg;
     self_heal_processes_cleanup_zombies := self_heal_processes_cleanup_zombies cfg;
     self_heal_disk_enabled := self_heal_disk_enabled cfg;
     self_heal_disk_log_path := self_heal_disk_log_path cfg;
     self_heal_disk_log_max_age_days := self_heal_disk_log_max_age_days cfg;
     self_heal_disk_tmp_path := self_heal_disk_tmp_path cfg;
     self_heal_disk_tmp_max_age_days := self_heal_disk_tmp_max_age_days cfg;
     self_heal_network_enabled := self_heal_network_enabled cfg;
     self_heal_network_service_names := self_heal_network_service_names cfg;
     cpu_permit_man_update := cpu_permit_man_update cfg;
     mandb_min_interval_hours := mandb_min_interval_hours cfg |}.

(** The default configuration with CPU self-healing switched on, and with
    self-healing switched off altogether. *)
Definition cpu_healing_config : config :=
  set_healing true true (self_heal_cpu_exclude_procs default_config) default_config.
Definition healing_off_config : config :=
  set_healing false false (self_heal_cpu_exclude_procs default_config) default_config.

(** Three busy processes: an excluded one, one owned by root, and a hog. *)
Definition busy_processes : list proc :=
  [ mk_proc 301 (Some "hog") (Some 97%Q) (Some "bob") (Some 5000%Q) false;
    mk_proc 302 (Some "Python") (Some 99%Q) (Some "bob") (Some 5000%Q) false;
    mk_proc 303 (Some "rootd") (Some 98%Q) (Some "root") (Some 5000%Q) false ].

Definition busy_host : host :=
  host_with (fun _ => Exited 0 "" "") ("", "") busy_processes calm_telemetry.

(** A busy process whose name is the empty string. *)
Definition nameless_hog : proc :=
  mk_proc 404 (Some "") (Some 99%Q) (Some "bob") (Some 5000%Q) false.

(** A cpu check result as an earlier version of the agent named it. *)
Definition legacy_cpu_diag : health :=
  mk_health "CRITICAL" [mk_issue "HIGH_CPU_USAGE" (Some (vfloat 99)) []].

(** The cpu part of a snapshot showing 99% utilisation. *)
Definition cpu_at_99 : pyval := VDict (list_to_map [("percent", vfloat 99)]).

(** ** The aggregation rule, in the words of the specification

    Walk the domain results in order; stop after the first ERROR; the overall
    status is ERROR if there is one, and the most severe status otherwise. *)

Definition is_error (r : string * health) : bool := String.eqb (status r.2) "ERROR".

Fixpoint until_error (rs : list (string * health)) : list (string * health) :=
  match rs with
  | [] => []
  | r :: rest => if is_error r then [r] else r :: until_error rest
  end.

Definition sev_max (a b : string) : string :=
  if sev_rank b >? sev_rank a then b else a.

Definition max_severity (statuses : list string) : string :=
  foldl sev_max "NOMINAL" statuses.

Definition record_all (m : gmap string health) (rs : list (string * health))
  : gmap string health :=
  foldl (fun m r => <[r.1 := r.2]> m) m rs.

Definition aggregate (rs : list (string * health)) : diagnostics :=
  mk_diagnostics
    (if existsb is_error rs then "ERROR" else max_severity ((fun r => status r.2) <$> rs))
    (record_all ∅ (until_error rs)).

(** No check of [funcs] returns ERROR on [state]. *)
Definition never_error (state : gmap string pyval)
    (funcs : list (string * (pyval -> result health))) : Prop :=
  Forall (fun e => forall h, e.2 (dict_get state e.1) = Ok h -> status h <> "ERROR") funcs.



(** A host whose first [psutil] call fails. *)
Definition failing_telemetry : telemetry :=
  {| t_timestamp := t_timestamp calm_telemetry;
     t_cpu_percent := PsutilError "no such process";
     t_cpu_details := t_cpu_details calm_telemetry;
     t_memory := t_memory calm_telemetry;
     t_disk := t_disk calm_telemetry;
     t_monotonic := t_monotonic calm_telemetry;
     t_net_io := t_net_io calm_telemetry;
     t_net_connections := t_net_connections calm_telemetry;
     t_pids := t_pids calm_telemetry;
     t_zombies := t_zombies calm_telemetry;
     t_temperatures := t_temperatures calm_telemetry;
     t_uptime := t_uptime calm_telemetry |}.

Definition failing_host : host :=
  host_with (fun _ => Exited 0 "" "") ("", "") [] failing_telemetry.

(** ** Predicates on events and issues *)

(** New events all satisfy [P]. *)
Definition adds (P : event -> Prop) (w w' : world) : Prop :=
  exists new, w_events w' = (w_events w ++ new)%list /\ Forall P new.

(** The events of the command executor. *)
Definition process_event (ev : event) : Prop :=
  match ev with
  | Launched _ | ChildKilled _ => True
  | _ => False
  end.

(** A process may be chosen for termination only if its lower-cased name
    (["unknown"] for a process without a name) is not in the exclusion set. *)
Definition spares (exclude : list string) (ev : event) : Prop :=
  forall p, ev = Selected p -> str_in (pname p) exclude = false.

(** No issue recorded under [wanted]: the search falls through to 0. *)
Definition none_typed (wanted : string) (h : health) : Prop :=
  Forall (fun i => String.eqb (i_type i) wanted = false) (issues h).


(** Every schema field is present with a value that conforms to its entry. *)
Definition well_typed (c : gmap string pyval) : Prop :=
  forall key s, (key, s) ∈ CONFIG_SCHEMA -> exists v, c !! key = Some v /\ conforms s v.


(** ** Further definitions: series of issues, sensors, alerts *)

(** A series of [h = self._add_issue(h, type, val, desc, sev)] calls. *)
Definition issue_args : Type := string * pyval * list fpart * string.

Definition add_issues (h : health) (l : list issue_args) : health :=
  foldl (fun h a => _add_issue h a.1.1.1 a.1.1.2 a.1.2 a.2) h l.

(** A host run by root with an empty process table, on which every command
    is found and exits with code 0 without output. *)
Definition quiet_root_host : host :=
  host_with (fun _ => Exited 0 "" "") ("", "") [] calm_telemetry.

(** What [_heal_cpu] asks of a process before choosing it, besides the
    exclusion list: busier than [cpu_threshold], not owned by root, and born
    more than ten seconds before some reading of the clock. *)
Definition may_terminate (env : host) (cfg : config) (p : proc) : Prop :=
  num_gt (NFloat (FFin (cpu_share p))) (cpu_threshold cfg) = true /\
  not_root p = true /\
  exists tick born,
    create_time p = Some born /\ Qlt_bool 10 (time_time env tick - born) = true.

(** The keys of a snapshot that [get_system_state] completed. *)
Definition snapshot_keys : list string :=
  ["timestamp"; "cpu"; "memory"; "disk"; "network_rate_kBs"; "network_counters";
   "network_connections"; "processes"; "temperature_celsius"; "uptime_seconds"].

(** A host whose counters and clock advance from one sample to the next:
    at the [n]-th question the monotonic clock reads [1000 + 10 n] seconds
    and [20480 n] more bytes have been sent. *)
Definition ticking_telemetry (n : nat) : telemetry :=
  {| t_timestamp := t_timestamp calm_telemetry;
     t_cpu_percent := t_cpu_percent calm_telemetry;
     t_cpu_details := t_cpu_details calm_telemetry;
     t_memory := t_memory calm_telemetry;
     t_disk := t_disk calm_telemetry;
     t_monotonic := inject_Z (1000 + 10 * Z.of_nat n);
     t_net_io := Got (mk_net_io (1000 + 20480 * Z.of_nat n) 2000 10 20 0 0 0 0);
     t_net_connections := t_net_connections calm_telemetry;
     t_pids := t_pids calm_telemetry;
     t_zombies := t_zombies calm_telemetry;
     t_temperatures := t_temperatures calm_telemetry;
     t_uptime := t_uptime calm_telemetry |}.

Definition ticking_host : host :=
  {| geteuid := 0;
     which := fun c => Some ("/usr/bin/" ++ c);
     popen := fun _ _ => Exited 0 "" "";
     drain := fun _ _ => ("", "");
     time_time := fun _ => 100000%Q;
     process_iter := fun _ => Ok [];
     isdir := fun _ => true;
     sample := ticking_telemetry;
     cpu_percent_now := fun _ => Got 5%Q;
     ollama_client := false |}.

(** The snapshot a call of [get_system_state] returns. *)
Definition snapshot_of (r : result (gmap string pyval) * world) : gmap string pyval :=
  match r.1 with
  | Ok state => state
  | Raise _ => ∅
  end.




(** A state in which the six domains all have data and only a temperature
    sensor is above its threshold. *)
Definition overheated_state : gmap string pyval :=
  list_to_map
    [ ("cpu", VDict (list_to_map [("percent", vfloat 10)]));
      ("memory", VDict (list_to_map [("virtual_percent", vfloat 10)]));
      ("disk", VDict (list_to_map [("percent", vfloat 10)]));
      ("processes", VDict (list_to_map [("zombie", VInt 0)]));
      ("network", VDict ∅);
      ("temperature", VDict (list_to_map [("coretemp_0_sensor", vfloat 95)])) ].

(** ** Temperature sensors ([_get_temperatures]) *)

(** An entry of [psutil.sensors_temperatures()]: its label and its current
    reading. *)
Record sensor_entry := mk_sensor_entry {
  se_label : string;
  se_current : pyval
}.

(** [round(x, 1)] on a number. *)
Definition py_round1 (n : num) : pyval :=
  match n with
  | NBool b => VInt (Z.b2z b)
  | NInt z => VInt z
  | NFloat (FFin q) => VFloat (FFin (inject_Z (Qround_half_even (q * 10)) / 10)%Q)
  | NFloat f => VFloat f
  end.

(** [f"{name}_{i}_{entry.label or 'sensor'}"] *)
Definition sensor_key (name : string) (i : nat) (entry : sensor_entry) : string :=
  name ++ "_" ++ str_of_Z (Z.of_nat i) ++ "_"
    ++ (if String.eqb (se_label entry) "" then "sensor" else se_label entry).

(** [for i, entry in enumerate(entries): ...], from index [i] on. *)
Fixpoint sensor_entries (name : string) (i : nat) (entries : list sensor_entry)
    (temps : gmap string pyval) : gmap string pyval :=
  match entries with
  | [] => temps
  | entry :: rest =>
      let key := sensor_key name i entry in
      let temps :=
        match to_num (se_current entry) with
        | Some current => <[key := py_round1 current]> temps
        | None => temps
        end in
      sensor_entries name (S i) rest temps
  end.

(** [supported] is [hasattr(psutil, "sensors_temperatures")]; [sensors] is
    what [psutil.sensors_temperatures()] gave, in the order of its items.  A
    failure of the call is caught and leaves the dict empty. *)
Definition _get_temperatures (supported : bool)
    (sensors : reading (list (string * list sensor_entry))) : gmap string pyval :=
  if negb supported then ∅ else
  match sensors with
  | Got psutil_temps =>
      foldl (fun temps item => sensor_entries item.1 0 item.2 temps) ∅ psutil_temps
  | PsutilError _ | OtherFailure _ => ∅
  end.

(** ** Alerting ([_send_email_alert], [_alert_if_needed]) *)

Definition AGENT_VERSION : string := "1.7.0".

(** What is handed to [server.sendmail]: the envelope sender, the list of
    recipients, and the subject and body of the message. *)
Record email := mk_email {
  e_from : string;
  e_to : list string;
  e_subject : string;
  e_body : string
}.

Inductive mail_outcome :=
| AlertsOff
| NoRecipient
| Sent (msg : email)
| SendFailed (msg : email).

(** [sendmail host port msg] tells whether the [with smtplib.SMTP(...)]
    block ran without an exception.  Header values that are not strings are
    not modelled. *)
Definition _send_email_alert (c : gmap string pyval) (hostname : string)
    (sendmail : pyval -> pyval -> email -> bool) (subject body : string)
  : result mail_outcome :=
  if negb (truthy (dict_get c "email_alerts_enabled")) then Ok AlertsOff else
  let recipient := dict_get c "email_recipient" in
  let sender := dict_get c "email_sender" in
  let host := dict_get c "smtp_host" in
  let port := dict_get c "smtp_port" in
  if negb (truthy recipient) then Ok NoRecipient else
  let full_body := body ++ newline ++ newline ++ "--" ++ newline
                     ++ "AION Agent v" ++ AGENT_VERSION ++ " on " ++ hostname in
  match sender, recipient with
  | VStr sender, VStr recipient =>
      let msg := mk_email sender [recipient] ("[AION Agent] " ++ subject) full_body in
      Ok (if sendmail host port msg then Sent msg else SendFailed msg)
  | _, _ => Raise (NotModelled "message headers")
  end.

(** [dumps] stands for [json.dumps(..., indent=2)]. *)
Definition _alert_if_needed (c : gmap string pyval) (hostname : string)
    (sendmail : pyval -> pyval -> email -> bool) (dumps : gmap string health -> string)
    (d : diagnostics) : result (option mail_outcome) :=
  if negb (String.eqb (overall_status d) "NOMINAL") then
    o ← _send_email_alert c hostname sendmail
          ("System Status " ++ overall_status d)
          ("Diagnostics detected issues." ++ newline ++ "Overall: " ++ overall_status d
             ++ newline ++ newline ++ "Details:" ++ newline ++ dumps (checks d));
    Ok (Some o)
  else Ok None.

(** ** Logging level ([_configure_logging]) *)

(** [self.config.get('log_level', 'INFO').upper()] *)
Definition log_level_str (c : gmap string pyval) : result string :=
  match default (VStr "INFO") (c !! "log_level") with
  | VStr s => Ok (upper s)
  | _ => Raise AttributeError
  end.

(** [getattr(logging, name, logging.INFO)] for the names of the five
    levels of the schema; the other attributes of the module are not
    modelled. *)
Definition logging_level (name : string) : result Z :=
  if String.eqb name "DEBUG" then Ok 10
  else if String.eqb name "INFO" then Ok 20
  else if String.eqb name "WARNING" then Ok 30
  else if String.eqb name "ERROR" then Ok 40
  else if String.eqb name "CRITICAL" then Ok 50
  else Raise (NotModelled "logging attribute").

(** * Properties *)

(** ** Config validator *)

Lemma isinstance_has_type v t : isinstance v t = true <-> has_type v t.
Proof.
  split.
  - destruct t, v; simpl; intros H; try discriminate; constructor.
  - destruct 1; reflexivity.
Qed.

Lemma Qlt_bool_false_le x y : Qlt_bool x y = false -> (y <= x)%Q.
Proof.
  unfold Qlt_bool. intros H. apply Qle_bool_iff.
  destruct (Qle_bool y x); [reflexivity | discriminate].
Qed.

Lemma finite_value_num v q :
  finite_value v = Some q -> exists n, to_num v = Some n /\ num_float n = FFin q.
Proof.
  destruct v as [| b | z | [| n | q'] | | |]; simpl; intros H; try discriminate;
    injection H as <-; eexists; split; reflexivity.
Qed.

Lemma below_min_false s v q m :
  below_min s v = Ok false -> finite_value v = Some q -> f_min s = Some m ->
  (inject_Z m <= q)%Q.
Proof.
  unfold below_min, py_lt_num. intros H Hq Hm. rewrite Hm in H.
  destruct (finite_value_num _ _ Hq) as (n & Hn & Hf). rewrite Hn in H.
  injection H as H. unfold num_lt in H. rewrite Hf in H. simpl in H.
  by apply Qlt_bool_false_le.
Qed.

Lemma above_max_false s v q m :
  above_max s v = Ok false -> finite_value v = Some q -> f_max s = Some m ->
  (q <= inject_Z m)%Q.
Proof.
  unfold above_max, py_gt_num. intros H Hq Hm. rewrite Hm in H.
  destruct (finite_value_num _ _ Hq) as (n & Hn & Hf). rewrite Hn in H.
  injection H as H. unfold num_gt, num_lt in H. rewrite Hf in H. simpl in H.
  by apply Qlt_bool_false_le.
Qed.

Lemma str_in_In s l : str_in s l = true -> In s l.
Proof.
  unfold str_in. intros H. apply existsb_exists in H as (x & Hx & He).
  apply String.eqb_eq in He. by subst.
Qed.

Lemma all_str_vstrs l : all_str l = true -> exists l', VList l = vstrs l'.
Proof.
  induction l as [| v l IH]; simpl; intros H.
  - by exists [].
  - apply andb_true_iff in H as [Hv Hl]. destruct (IH Hl) as [l' Hl'].
    destruct v; try discriminate. exists (s :: l'). unfold vstrs in *.
    simpl. by injection Hl' as ->.
Qed.

(** On a well-formed schema entry the checks never raise. *)
Lemma check_field_total s v : schema_wf s = true -> is_Ok (check_field s v).
Proof.
  unfold schema_wf, check_field, below_min, above_max, outside_enum, py_lt_num, py_gt_num, is_Ok.
  destruct s as [t mn mx en]. simpl. intros H.
  destruct t, v, mn, mx, en; simpl in *; try discriminate;
    repeat (match goal with
            | |- context [if ?b then _ else _] => destruct b
            | |- context [match ?l with [] => _ | _ => _ end] => destruct l
            end; simpl); eauto.
Qed.

Ltac unbind := cbv beta iota zeta delta [mbind result_bind mret result_ret] in *.
Lemma check_field_conforms s v :
  schema_wf s = true -> check_field s v = Ok None -> conforms s v.
Proof.
  intros Hwf H. unfold check_field in H. unbind.
  destruct (isinstance v (f_type s)) eqn:Hty; cbn [negb] in H; unbind.
  - apply isinstance_has_type in Hty.
    destruct (below_min s v) as [[|] |] eqn:Hmin; unbind; try discriminate.
    destruct (above_max s v) as [[|] |] eqn:Hmax; unbind; try discriminate.
    destruct (outside_enum s v) as [[|] |] eqn:Hen; unbind; try discriminate.
    repeat split.
    + by left.
    + intros m Hm. eapply below_min_false; eauto.
    + intros m Hm. eapply above_max_false; eauto.
    + intros allowed Ha. unfold outside_enum in Hen. rewrite Ha in Hen. unbind.
      unfold schema_wf in Hwf. rewrite Ha in Hwf.
      destruct (f_type s) eqn:Ht; try (by rewrite andb_false_r in Hwf).
      inversion Hty; subst. simpl in Hen.
      assert (Hn : negb (str_in (upper s0) allowed) = false) by congruence.
      eexists; split; [reflexivity |]. apply str_in_In.
      by destruct (str_in _ _).
    + intros Ht. rewrite Ht in H, Hty. inversion Hty; subst. simpl in H.
      destruct (all_str l) eqn:Hl; simpl in H; [| discriminate].
      by apply all_str_vstrs.
  - destruct (f_type s) eqn:Ht; try discriminate.
    destruct (isinstance v TInt) eqn:Hi; [| discriminate].
    apply isinstance_has_type in Hi.
    unfold conforms. rewrite Ht.
    split; [right; by split |].
    split; [intros Hc; inversion Hi; subst; inversion Hc |].
    split; [| intros Hl; discriminate Hl].
    intros allowed Ha. unfold schema_wf in Hwf. rewrite Ha, Ht in Hwf.
    by rewrite andb_false_r in Hwf.
Qed.

Lemma validate_field_total dflt config key s :
  schema_wf s = true -> is_Ok (validate_field dflt config key s).
Proof.
  intros Hwf. unfold validate_field.
  destruct (check_field_total s (examined dflt config key) Hwf) as [why ->].
  unbind. destruct why; eexists; reflexivity.
Qed.

(** The loop stores, for each key of the schema, what [validate_field]
    computes for it, and logs its warnings. *)
Lemma validate_fields_spec dflt config schema :
  Forall (fun e => schema_wf e.2 = true) schema ->
  NoDup schema.*1 ->
  forall validated log,
  exists vc log',
    validate_fields dflt config schema validated log = Ok (vc, log') /\
    (forall key s, (key, s) ∈ schema ->
       exists r, validate_field dflt config key s = Ok r /\
                 vc !! key = Some r.1 /\ (forall w, w ∈ r.2 -> w ∈ log')) /\
    (forall key, key ∉ schema.*1 -> vc !! key = validated !! key) /\
    (forall w, w ∈ log -> w ∈ log').
Proof.
  induction schema as [| [k sk] rest IH]; intros Hwf Hnd validated log.
  - exists validated, log. simpl. split; [reflexivity |].
    split; [intros key s Hin; by apply elem_of_nil in Hin |]. by split.
  - apply Forall_cons in Hwf as [Hk Hrest].
    rewrite fmap_cons in Hnd. apply NoDup_cons in Hnd as [Hnotin Hnd].
    simpl in Hk, Hnotin.
    destruct (validate_field_total dflt config k sk Hk) as [r Hr].
    destruct (IH Hrest Hnd (<[k := r.1]> validated) (log ++ r.2)%list)
      as (vc & log' & Hrun & Hkeys & Hother & Hlog).
    exists vc, log'. simpl. rewrite Hr. unbind.
    split; [exact Hrun |]. split; [| split].
    + intros key s Hin. apply elem_of_cons in Hin as [Heq | Hin].
      * injection Heq as -> ->. exists r. split; [exact Hr |]. split.
        -- rewrite (Hother k Hnotin). apply lookup_insert_eq.
        -- intros w Hw. apply Hlog. apply elem_of_app. by right.
      * by apply Hkeys.
    + intros key Hkey.
      apply not_elem_of_cons in Hkey as [Hne Hkey]. simpl in Hne.
      rewrite (Hother key Hkey). by apply lookup_insert_ne.
    + intros w Hw. apply Hlog. apply elem_of_app. by left.
Qed.

Lemma CONFIG_SCHEMA_wf : Forall (fun e => schema_wf e.2 = true) CONFIG_SCHEMA.
Proof.
  apply Forall_forall. intros e He. apply list_elem_of_In in He.
  revert e He. apply forallb_forall. vm_compute. reflexivity.
Qed.

Lemma CONFIG_SCHEMA_keys_NoDup : NoDup CONFIG_SCHEMA.*1.
Proof. apply (bool_decide_unpack _). vm_compute. reflexivity. Qed.

(** Each default passes the checks of its own field. *)
Lemma defaults_ok ollama_available e :
  e ∈ CONFIG_SCHEMA -> default_ok (defaults ollama_available) e = true.
Proof.
  intros He. apply list_elem_of_In in He. revert e He. apply forallb_forall.
  destruct ollama_available; vm_compute; reflexivity.
Qed.

(** The three outcomes of the amended claim reach the validation loop. *)
Lemma merged_config_returns ollama_available f :
  f = FileMissing \/ f = LoadFailed \/ (exists loaded_config, f = Loaded loaded_config) ->
  is_Ok (merged_config ollama_available f).
Proof. intros [-> | [-> | [d ->]]]; by eexists. Qed.

(** What the validation loop stores for one field of the schema. *)
Lemma validate_config_field (ollama_available : bool) (f : load_outcome)
    (config : gmap string pyval) (key : string) (s : field_schema) :
  merged_config ollama_available f = Ok config ->
  (key, s) ∈ CONFIG_SCHEMA ->
  exists vc log,
    validate_config ollama_available f = Ok (vc, log) /\
    exists v, vc !! key = Some v /\ conforms s v /\
      let value := examined (defaults ollama_available) config key in
      (check_field s value = Ok None -> v = value) /\
      (forall why, check_field s value = Ok (Some why) ->
         defaults ollama_available !! key = Some v /\ (key, value, why) ∈ log).
Proof.
  intros Hmerged Hin.
  destruct (validate_fields_spec (defaults ollama_available) config CONFIG_SCHEMA
              CONFIG_SCHEMA_wf CONFIG_SCHEMA_keys_NoDup ∅ [])
    as (vc & log & Hrun & Hkeys & _ & _).
  exists vc, log. split; [unfold validate_config; rewrite Hmerged; exact Hrun |].
  destruct (Hkeys key s Hin) as (r & Hr & Hlook & Hlog).
  exists r.1. split; [exact Hlook |].
  assert (Hwf : schema_wf s = true).
  { pose proof CONFIG_SCHEMA_wf as Hall. rewrite Forall_forall in Hall.
    exact (Hall (key, s) Hin). }
  pose proof (defaults_ok ollama_available (key, s) Hin) as Hd.
  unfold default_ok in Hd. cbn [fst snd] in Hd.
  destruct (defaults ollama_available !! key) as [d |] eqn:Hdk; [| discriminate Hd].
  destruct (check_field s d) as [[why |] |] eqn:Hcd; try discriminate Hd.
  assert (Hget : dict_get (defaults ollama_available) key = d)
    by (unfold dict_get; by rewrite Hdk).
  unfold validate_field in Hr. rewrite Hget in Hr.
  destruct r as [rv rw]. cbn [fst snd] in *.
  destruct (check_field s (examined _ _ key)) as [[why |] |] eqn:Hc;
    unbind; try discriminate Hr.
  - injection Hr as <- <-.
    split; [by apply check_field_conforms |].
    split; [intros Hn; discriminate Hn |].
    intros why' Hwhy. injection Hwhy as <-.
    split; [reflexivity |]. apply Hlog. apply list_elem_of_here.
  - injection Hr as <- <-.
    split; [by apply check_field_conforms |].
    split; [reflexivity | intros why Hn; discriminate Hn].
Qed.

(** C2 (amended).  For every load outcome that reaches the validation loop
    with a merged configuration (no file, a load error, or any JSON object,
    whatever its values, all do), the loop returns a configuration in which
    every schema field has a value of the declared type (a [bool] counting as
    an [int], an [int] accepted for a real); when that value is a finite
    number of the declared type itself it lies within the declared min and
    max; an enumerated field holds a string whose upper-casing is an allowed
    value; a list field holds strings only.  A value that passes the checks
    is kept, and a value that fails one is replaced by the field's default,
    with a warning logged. *)
Theorem validated_fields_conform (ollama_available : bool) (f : load_outcome)
    (config : gmap string pyval) (key : string) (s : field_schema) :
  merged_config ollama_available f = Ok config ->
  (key, s) ∈ CONFIG_SCHEMA ->
  exists vc log,
    validate_config ollama_available f = Ok (vc, log) /\
    exists v, vc !! key = Some v /\ conforms s v /\
      let value := examined (defaults ollama_available) config key in
      (check_field s value = Ok None -> v = value) /\
      (forall why, check_field s value = Ok (Some why) ->
         defaults ollama_available !! key = Some v /\ (key, value, why) ∈ log).
Proof. exact (validate_config_field ollama_available f config key s). Qed.

Lemma validated_fields_conform_witness :
  exists vc log,
    validate_config true (Loaded {["cpu_threshold" := vfloat 150]}) = Ok (vc, log) /\
    exists v, vc !! "cpu_threshold" = Some v /\ conforms (sch_rng TFloat 0 100) v /\
      let value := examined (defaults true)
                     ({["cpu_threshold" := vfloat 150]} ∪ defaults true)
                     "cpu_threshold" in
      (check_field (sch_rng TFloat 0 100) value = Ok None -> v = value) /\
      (forall why, check_field (sch_rng TFloat 0 100) value = Ok (Some why) ->
         defaults true !! "cpu_threshold" = Some v /\
         ("cpu_threshold", value, why) ∈ log).
Proof.
  apply (validated_fields_conform true (Loaded {["cpu_threshold" := vfloat 150]})
           ({["cpu_threshold" := vfloat 150]} ∪ defaults true)
           "cpu_threshold" (sch_rng TFloat 0 100)).
  - reflexivity.
  - apply list_elem_of_In. simpl. tauto.
Defined.

(** C2 as the specification words it fails: the enum test upper-cases the
    value, so the lower-case level ["debug"] is kept, although it is not one
    of the enumerated values of the field. *)
Lemma lowercase_log_level_kept :
  let s := mk_schema TStr None None
             (Some ["DEBUG"; "INFO"; "WARNING"; "ERROR"; "CRITICAL"]) in
  ("log_level", s) ∈ CONFIG_SCHEMA /\
  validated_value true (Loaded {["log_level" := VStr "debug"]}) "log_level"
    = Some (VStr "debug") /\
  ~ within_schema s (VStr "debug").
Proof.
  split; [apply list_elem_of_In; simpl; tauto |].
  split; [vm_compute; reflexivity |].
  intros (_ & _ & _ & Henum).
  destruct (Henum _ eq_refl) as (str & Hstr & Hmem).
  injection Hstr as <-. simpl in Hmem.
  repeat (destruct Hmem as [Hmem | Hmem]; [discriminate Hmem |]). exact Hmem.
Qed.

(** An integer given for a real field enters the special case of the type
    test and so never reaches the [elif] chain: its bounds are not checked. *)
Example int_for_real_skips_bounds :
  validated_value true (Loaded {["cpu_threshold" := VInt 500]}) "cpu_threshold"
    = Some (VInt 500) /\
  validation_log true (Loaded {["cpu_threshold" := VInt 500]}) = [] /\
  ~ within_max (sch_rng TFloat 0 100) (VInt 500).
Proof.
  split; [vm_compute; reflexivity |]. split; [vm_compute; reflexivity |].
  intros H. destruct (H 100 eq_refl) as (q & Hq & Hle).
  injection Hq as <-. revert Hle. unfold Qle. simpl. lia.
Qed.

(** The same number given as a real is rejected. *)
Example real_above_max_rejected :
  validated_value true (Loaded {["cpu_threshold" := vfloat 500]}) "cpu_threshold"
    = Some (vfloat 85) /\
  validation_log true (Loaded {["cpu_threshold" := vfloat 500]})
    = [("cpu_threshold", vfloat 500, GreaterThanMax)].
Proof. split; vm_compute; reflexivity. Qed.

Lemma default_config_validated :
  forall ollama_available,
    (c ← match _load_and_validate_config ollama_available FileMissing with
         | Ok c => Some c
         | Raise _ => None
         end; config_of c) = Some default_config.
Proof. intros []; vm_compute; reflexivity. Qed.

(** ** Health check results *)

Lemma add_issue_issues h type val desc sev :
  issues (_add_issue h type val desc sev)
    = (issues h ++ [mk_issue type (Some val) desc])%list.
Proof. unfold _add_issue. by destruct (_ >? _). Qed.

(** C9.  Appending an issue through [_add_issue], with any severity text,
    never lowers the severity of a health check result: the rank of the new
    status is at least the rank of the old one.  The issue is appended at the
    end and the earlier issues are kept. *)
Theorem add_issue_monotone (h : health) (type : string) (val : pyval)
    (desc : list fpart) (sev : string) :
  sev_rank (status (_add_issue h type val desc sev)) >= sev_rank (status h) /\
  issues (_add_issue h type val desc sev)
    = (issues h ++ [mk_issue type (Some val) desc])%list.
Proof.
  unfold _add_issue.
  destruct (sev_rank sev >? sev_rank (status h)) eqn:Hgt; simpl.
  - split; [| reflexivity]. apply Z.gtb_lt in Hgt. lia.
  - split; [lia | reflexivity].
Qed.

(** The new status is the more severe of the old status and the severity of
    the issue. *)
Lemma add_issue_status h type val desc sev :
  status (_add_issue h type val desc sev)
    = if sev_rank sev >? sev_rank (status h) then sev else status h.
Proof. unfold _add_issue. by destruct (_ >? _). Qed.

Lemma add_issue_rank h type val desc sev :
  sev_rank (status (_add_issue h type val desc sev))
    = Z.max (sev_rank (status h)) (sev_rank sev).
Proof.
  rewrite add_issue_status.
  destruct (sev_rank sev >? sev_rank (status h)) eqn:Hgt.
  - apply Z.gtb_lt in Hgt. lia.
  - assert (~ sev_rank (status h) < sev_rank sev) by (rewrite <- Z.gtb_lt; congruence).
    lia.
Qed.

Example add_issue_raises :
  status (_add_issue (mk_health "WARNING" []) "HIGH_CPU" (VInt 99) [] "CRITICAL") = "CRITICAL".
Proof. reflexivity. Qed.

Example add_issue_keeps :
  status (_add_issue (mk_health "CRITICAL" []) "HIGH_LOAD" (VInt 7) [] "WARNING") = "CRITICAL".
Proof. reflexivity. Qed.

Example add_issue_unknown_severity :
  status (_add_issue (mk_health "WARNING" []) "X" (VInt 0) [] "FATAL") = "WARNING".
Proof. reflexivity. Qed.

(** ** Domain checks *)

Lemma below_error_level s : below_error s -> level s.
Proof. unfold below_error, level. tauto. Qed.

Lemma below_error_not_error s : below_error s -> s <> "ERROR".
Proof. intros [-> | [-> | ->]]; discriminate. Qed.

Lemma add_issue_below_error h type val desc sev :
  below_error (status h) -> sev = "WARNING" \/ sev = "CRITICAL" ->
  below_error (status (_add_issue h type val desc sev)).
Proof.
  intros Hh Hsev. rewrite add_issue_status. destruct (_ >? _); [| exact Hh].
  unfold below_error. tauto.
Qed.

(** Case analysis on every test and call of a check that returned. *)
Ltac run_check :=
  unbind;
  repeat match goal with
    | H : context [match ?r with Ok _ => _ | Raise _ => _ end] |- _ =>
        destruct r eqn:?; try discriminate H
    | H : context [if ?b then _ else _] |- _ =>
        destruct b eqn:?; try discriminate H
    | H : context [match ?o with Some _ => _ | None => _ end] |- _ =>
        destruct o eqn:?; try discriminate H
    | H : context [match ?l with [] => _ | _ :: _ => _ end] |- _ =>
        destruct l eqn:?; try discriminate H
    | H : Ok _ = Ok _ |- _ => injection H as <-
    end.

Ltac solve_level :=
  repeat (apply add_issue_below_error; [| (by left) || (by right)]);
  by left.

Section domain_checks.
Context (net : probes) (cfg : config).

(** A domain check that is handed data and returns never reports ERROR;
    handed nothing, it reports ERROR with a MISSING issue. *)
Lemma diagnose_cpu_status s h :
  _diagnose_cpu cfg s = Ok h ->
  if truthy s then below_error (status h)
  else h = mk_health "ERROR" [mk_issue "MISSING" (Some (VInt 0)) [FLit "CPU data"]].
Proof.
  unfold _diagnose_cpu. intros H.
  destruct (truthy s); cbn [negb] in H; [| by injection H as <-].
  run_check; solve_level.
Qed.

Lemma diagnose_memory_status s h :
  _diagnose_memory cfg s = Ok h ->
  if truthy s then below_error (status h)
  else h = mk_health "ERROR" [mk_issue "MISSING" (Some (VInt 0)) [FLit "Mem data"]].
Proof.
  unfold _diagnose_memory. intros H.
  destruct (truthy s); cbn [negb] in H; [| by injection H as <-].
  run_check; solve_level.
Qed.

Lemma diagnose_disk_status s h :
  _diagnose_disk cfg s = Ok h ->
  if truthy s then below_error (status h)
  else h = mk_health "ERROR" [mk_issue "MISSING" (Some (VInt 0)) [FLit "Disk data"]].
Proof.
  unfold _diagnose_disk. intros H.
  destruct (truthy s); cbn [negb] in H; [| by injection H as <-].
  run_check; solve_level.
Qed.

Lemma diagnose_processes_status s h :
  _diagnose_processes cfg s = Ok h ->
  if truthy s then below_error (status h)
  else h = mk_health "ERROR" [mk_issue "MISSING" (Some (VInt 0)) [FLit "Proc data"]].
Proof.
  unfold _diagnose_processes. intros H.
  destruct (truthy s); cbn [negb] in H; [| by injection H as <-].
  run_check; solve_level.
Qed.

Lemma diagnose_network_status s h :
  _diagnose_network net cfg s = Ok h ->
  match s with
  | VNone => h = mk_health "ERROR"
                   [mk_issue "MISSING" (Some (VInt 0)) [FLit "Net data(Collection Error)"]]
  | _ => below_error (status h)
  end.
Proof.
  unfold _diagnose_network. intros H.
  destruct s; [by injection H as <- | ..]; run_check; solve_level.
Qed.

Lemma diagnose_temperature_status s h :
  _diagnose_temperature net cfg s = Ok h ->
  match s with
  | VNone => h = mk_health "ERROR"
                   [mk_issue "MISSING" (Some (VInt 0)) [FLit "Temp data(Collection Error)"]]
  | _ => below_error (status h)
  end.
Proof.
  unfold _diagnose_temperature. intros H.
  destruct s; [by injection H as <- | ..]; run_check; solve_level.
Qed.

End domain_checks.

(** ** Command executor *)

Ltac unM :=
  cbv beta iota zeta delta
    [mbind mret M_bind M_ret raise lift try_except emit ask result_bind result_ret] in *.

Ltac runM :=
  repeat (progress (unM;
                    cbn [w_tick w_events last_net_io_counters last_net_collection_time
                         last_mandb_run_time fst snd] in *)).




(** New events, composed. *)
Lemma adds_refl P w : adds P w w.
Proof. exists []. by rewrite app_nil_r. Qed.

Lemma adds_trans P w1 w2 w3 : adds P w1 w2 -> adds P w2 w3 -> adds P w1 w3.
Proof.
  intros (n1 & H1 & F1) (n2 & H2 & F2). exists (n1 ++ n2)%list.
  split; [by rewrite H2, H1, app_assoc | by apply Forall_app].
Qed.

Lemma adds_weaken (P Q : event -> Prop) w w' :
  (forall ev, P ev -> Q ev) -> adds P w w' -> adds Q w w'.
Proof.
  intros HPQ (new & Hnew & HF). exists new. split; [exact Hnew |].
  eapply Forall_impl; eauto.
Qed.

Section executor.
Context (env : host).

(** The executor raises only for an empty command line. *)
Lemma run_subprocess_returns command_list check use_sudo shell input_str timeout_sec w :
  command_list <> [] ->
  exists r w', _run_subprocess env command_list check use_sudo shell input_str timeout_sec w
               = (Ok r, w').
Proof.
  intros Hne. unfold _run_subprocess, prepare.
  destruct command_list as [| c args]; [done |].
  destruct (use_sudo && negb (geteuid env =? 0))%bool.
  - destruct (which env "sudo") as [sudo |]; unM; [| eauto].
    destruct (which env sudo), shell; unM; eauto;
      unfold run_child, communicate, run_child_handler; unM;
      destruct (popen _ _ _); unM; cbn [w_tick w_events];
      repeat (match goal with |- context [if ?b then _ else _] => destruct b end); eauto.
  - destruct (which env c), shell; unM; eauto;
      unfold run_child, communicate, run_child_handler; unM;
      destruct (popen _ _ _); unM; cbn [w_tick w_events];
      repeat (match goal with |- context [if ?b then _ else _] => destruct b end); eauto.
Qed.

(** C7 (amended).  For every invocation with [check] requested that gets as
    far as launching the child, and whose child exits: exit code zero gives
    success with the combined output; a non-zero exit code raises
    [CalledProcessError] inside the executor's own [try] block, where the
    executor catches it and returns the soft failure [(False, stderr)] to
    the caller.  Nothing is propagated. *)
Theorem checked_exit_code_is_soft (command_list : list string)
    (use_sudo shell : bool) (input_str : option string) (timeout_sec : num)
    (w : world) (c0 : string) (args : list string) (rc : Z) (out err : string) :
  prepare env command_list use_sudo shell = Ok (Ready c0 args) ->
  popen env (w_tick w) (mk_launch (c0 :: args) input_str shell timeout_sec)
    = Exited rc out err ->
  (run_child env (mk_launch (c0 :: args) input_str shell timeout_sec) true w).1
    = (if rc =? 0 then Ok (true, strip (strip out ++ newline ++ strip err))
       else Raise (CalledProcessError rc err)) /\
  (_run_subprocess env command_list true use_sudo shell input_str timeout_sec w).1
    = Ok (if rc =? 0 then (true, strip (strip out ++ newline ++ strip err))
          else (false, strip err)).
Proof.
  intros Hprep Hexit. unfold _run_subprocess. rewrite Hprep.
  unfold run_child, communicate. unM. cbn [w_tick w_events]. rewrite Hexit.
  unM. destruct (rc =? 0); split; reflexivity.
Qed.


(** The executor only launches and kills children. *)
Lemma run_subprocess_events command_list check use_sudo shell input_str timeout_sec w :
  adds process_event w
    (_run_subprocess env command_list check use_sudo shell input_str timeout_sec w).2.
Proof.
  unfold _run_subprocess. destruct (prepare _ _ _ _) as [[msg | c0 args] | e]; runM;
    try apply adds_refl.
  unfold run_child, communicate. runM.
  destruct (popen _ _ _) as [rc out err | | |]; runM.
  - exists [Launched (mk_launch (c0 :: args) input_str shell timeout_sec)].
    destruct (rc =? 0); [| destruct check]; runM; (split; [reflexivity | by repeat constructor]).
  - unfold run_child_handler. runM.
    exists [Launched (mk_launch (c0 :: args) input_str shell timeout_sec);
            ChildKilled (mk_launch (c0 :: args) input_str shell timeout_sec)].
    split; [by rewrite <- app_assoc | by repeat constructor].
  - exists [Launched (mk_launch (c0 :: args) input_str shell timeout_sec)].
    split; [reflexivity | by repeat constructor].
  - exists [Launched (mk_launch (c0 :: args) input_str shell timeout_sec)].
    split; [reflexivity | by repeat constructor].
Qed.

End executor.

Lemma checked_exit_code_is_soft_witness :
  let env := host_with (fun _ => Exited 1 "" "boom") ("", "") [] calm_telemetry in
  (run_child env (mk_launch ["/usr/bin/false"] None false (NInt 60)) true initial_world).1
    = (if 1 =? 0 then Ok (true, strip (strip "" ++ newline ++ strip "boom"))
       else Raise (CalledProcessError 1 "boom")) /\
  (_run_subprocess env ["false"] true false false None (NInt 60) initial_world).1
    = Ok (if 1 =? 0 then (true, strip (strip "" ++ newline ++ strip "boom"))
          else (false, strip "boom")).
Proof.
  intros env.
  apply (checked_exit_code_is_soft env ["false"] false false None (NInt 60)
           initial_world "/usr/bin/false" [] 1 "" "boom"); reflexivity.
Defined.

(** C7 as the specification words it fails: with [check] requested, a child
    that exits with code 1 gives the caller the returned pair
    [(False, "boom")]; no exception reaches the caller. *)
Lemma checked_nonzero_exit_is_returned :
  let env := host_with (fun _ => Exited 1 "" "boom") ("", "") [] calm_telemetry in
  let r := (_run_subprocess env ["false"] true false false None (NInt 60) initial_world).1 in
  r = Ok (false, "boom") /\ forall e, r <> Raise e.
Proof. split; [vm_compute; reflexivity | intros e; vm_compute; discriminate]. Qed.



(** ** CPU mitigation *)

Section cpu_mitigation.
Context (env : host) (cfg : config).

Lemma process_event_spares exclude ev : process_event ev -> spares exclude ev.
Proof. intros H p ->. destruct H. Qed.

Lemma eligible_true exclude p w w' :
  eligible env cfg exclude p w = (Ok true, w') ->
  str_in (pname p) exclude = false /\ w_events w' = w_events w.
Proof.
  unfold eligible, older_than_grace.
  destruct (num_gt _ _); cbn [andb]; [| runM; congruence].
  destruct (str_in (pname p) exclude); cbn [negb andb]; [runM; congruence |].
  destruct (not_root p); runM; [| congruence].
  destruct (create_time p); runM; intros H; [| congruence].
  split; [reflexivity |]. by injection H as _ <-.
Qed.

Lemma eligible_events exclude p w :
  w_events (eligible env cfg exclude p w).2 = w_events w.
Proof.
  unfold eligible, older_than_grace.
  destruct (_ && _ && _)%bool; runM; [| reflexivity].
  destruct (create_time p); reflexivity.
Qed.

Lemma heal_cpu_loop_spares exclude procs :
  forall killed_pids killed_count w,
    adds (spares exclude) w
      (heal_cpu_loop env cfg exclude procs killed_pids killed_count w).2.
Proof.
  induction procs as [| p rest IH]; intros killed_pids killed_count w; simpl.
  - apply adds_refl.
  - destruct (num_ge _ _); [apply adds_refl |].
    unM. destruct (eligible env cfg exclude p w) as [[[|] | e] w1] eqn:Hel.
    + apply eligible_true in Hel as [Hex Hev].
      set (w2 := mk_world (w_tick w1) (w_events w1 ++ [Selected p])
                   (last_net_io_counters w1) (last_net_collection_time w1)
                   (last_mandb_run_time w1)).
      assert (H12 : adds (spares exclude) w w2).
      { exists [Selected p]. subst w2. cbn [w_events]. rewrite Hev.
        split; [reflexivity |]. constructor; [| constructor].
        intros q Hq. by injection Hq as <-. }
      pose proof (run_subprocess_events env ["kill"; str_of_Z (pid p)]
                    false true false None (NInt 60) w2) as Hrun.
      apply (adds_weaken _ (spares exclude)) in Hrun;
        [| apply process_event_spares].
      destruct (_run_subprocess env _ false true false None (NInt 60) w2)
        as [[[ok out] | e] w3] eqn:Hr; cbn [fst snd] in *.
      * destruct ok; cbn [fst].
        -- eapply adds_trans; [exact H12 |]. eapply adds_trans; [exact Hrun |].
           eapply adds_trans; [| apply IH].
           exists [Slept (FFin (1 # 2))]. split; [reflexivity |].
           constructor; [| constructor]. intros q Hq. discriminate Hq.
        -- eapply adds_trans; [exact H12 |]. eapply adds_trans; [exact Hrun |]. apply IH.
      * eapply adds_trans; [exact H12 | exact Hrun].
    + pose proof (eligible_events exclude p w) as Hev. rewrite Hel in Hev.
      eapply adds_trans; [| apply IH]. exists []. cbn [snd] in Hev.
      rewrite Hev, app_nil_r. by split.
    + pose proof (eligible_events exclude p w) as Hev. rewrite Hel in Hev.
      exists []. cbn [snd] in *. rewrite Hev, app_nil_r. by split.
Qed.

Lemma str_in_false s l entry : str_in s l = false -> entry ∈ l -> s <> entry.
Proof.
  unfold str_in. intros H Hin ->.
  assert (existsb (String.eqb entry) l = true); [| congruence].
  apply existsb_exists. exists entry. split; [by apply list_elem_of_In |].
  apply String.eqb_refl.
Qed.

Lemma pname_named p n : name p = Some n -> n <> "" -> pname p = lower n.
Proof.
  unfold pname. intros -> Hn. destruct (String.eqb_spec n ""); [done | reflexivity].
Qed.

(** C10 (amended).  Whatever the configuration, the diagnosis handed in and
    the process table, every process that CPU mitigation chooses for
    termination has a name whose lower-casing differs from the lower-casing of
    every entry of the configured exclusion list, the name being the one the
    code compares: the process name, or ["unknown"] for a process whose name
    is missing or empty.  In particular a process with a non-empty name that
    matches an entry case-insensitively is never chosen, whatever its CPU
    share. *)
Theorem cpu_mitigation_spares_excluded (cpu_diag : health) (w : world) :
  exists new,
    w_events (_heal_cpu env cfg cpu_diag w).2 = (w_events w ++ new)%list /\
    forall p, Selected p ∈ new ->
      forall entry, entry ∈ self_heal_cpu_exclude_procs cfg ->
        pname p <> lower entry /\
        (forall n, name p = Some n -> n <> "" -> lower n <> lower entry).
Proof.
  assert (Hadds : adds (spares (lower <$> self_heal_cpu_exclude_procs cfg)) w
                    (_heal_cpu env cfg cpu_diag w).2).
  { unfold _heal_cpu. destruct (self_heal_cpu_enabled cfg); cbn [negb]; runM;
      [| apply adds_refl].
    destruct (first_value _ _) as [v |]; runM; [| apply adds_refl].
    destruct (py_lt_num _ _) as [[|] |]; runM; try apply adds_refl.
    destruct (process_iter env (w_tick w)) as [all | e]; runM;
      [| exists []; cbn [w_events]; rewrite app_nil_r; by split].
    match goal with
    | |- context [heal_cpu_loop ?a ?b ?c ?d ?e ?f ?g] =>
        pose proof (heal_cpu_loop_spares c d e f g) as Hloop;
        destruct (heal_cpu_loop a b c d e f g) as [[r | e'] w'] eqn:Hr
    end; cbn [snd] in *;
      (eapply adds_trans; [| exact Hloop]); exists []; cbn [w_events];
      by rewrite app_nil_r. }
  destruct Hadds as (new & Hnew & Hall). exists new. split; [exact Hnew |].
  intros p Hp entry Hentry. rewrite Forall_forall in Hall.
  pose proof (Hall _ Hp p eq_refl) as Hex.
  assert (Hne : pname p <> lower entry).
  { eapply str_in_false; [exact Hex |]. by apply list_elem_of_fmap_2. }
  split; [exact Hne |]. intros n Hn Hnon. by rewrite <- (pname_named p n Hn Hnon).
Qed.

End cpu_mitigation.

Lemma cpu_mitigation_spares_excluded_witness :
  exists new,
    w_events (_heal_cpu busy_host cpu_healing_config legacy_cpu_diag initial_world).2
      = (w_events initial_world ++ new)%list /\
    forall p, Selected p ∈ new ->
      forall entry, entry ∈ self_heal_cpu_exclude_procs cpu_healing_config ->
        pname p <> lower entry /\
        (forall n, name p = Some n -> n <> "" -> lower n <> lower entry).
Proof.
  apply (cpu_mitigation_spares_excluded busy_host cpu_healing_config legacy_cpu_diag
           initial_world).
Defined.

(** C10 as worded fails for an empty name: the code reads an empty process
    name as ["unknown"], so a process named [""] is chosen although [""] is an
    entry of the exclusion list. *)
Lemma empty_name_not_spared :
  let cfg := set_healing true true [""] default_config in
  let env := host_with (fun _ => Exited 0 "" "") ("", "") [nameless_hog] calm_telemetry in
  "" ∈ self_heal_cpu_exclude_procs cfg /\
  name nameless_hog = Some "" /\
  lower "" = lower "" /\
  w_events (_heal_cpu env cfg legacy_cpu_diag initial_world).2
    = [ Selected nameless_hog;
        Launched (mk_launch ["/usr/bin/kill"; "404"] None false (NInt 60));
        Slept (FFin (1 # 2)) ].
Proof.
  split; [apply list_elem_of_here |]. split; [reflexivity |]. split; [reflexivity |].
  vm_compute. reflexivity.
Qed.

(** On a table with an excluded process at 99%, a root process at 98% and
    a hog at 97%, only the hog is chosen and killed. *)
Example cpu_mitigation_run :
  let r := _heal_cpu busy_host cpu_healing_config legacy_cpu_diag initial_world in
  r.1 = Ok (Some (MitigateCpu [301] 1)) /\
  w_events r.2 =
    [ Selected (mk_proc 301 (Some "hog") (Some 97%Q) (Some "bob") (Some 5000%Q) false);
      Launched (mk_launch ["/usr/bin/kill"; "301"] None false (NInt 60));
      Slept (FFin (1 # 2)) ].
Proof. split; vm_compute; reflexivity. Qed.

Lemma none_typed_first_value wanted h :
  none_typed wanted h -> first_value wanted (issues h) = Ok (VInt 0).
Proof.
  unfold none_typed. induction (issues h) as [| i l IH]; simpl; intros H; [reflexivity |].
  apply Forall_cons in H as [Hi Hl]. rewrite Hi. by apply IH.
Qed.

Lemma add_issue_none_typed wanted h type val desc sev :
  none_typed wanted h -> String.eqb type wanted = false ->
  none_typed wanted (_add_issue h type val desc sev).
Proof.
  unfold none_typed. intros Hh Ht.
  rewrite add_issue_issues.
  apply Forall_app. split; [exact Hh |]. by repeat constructor.
Qed.

(** [_diagnose_cpu] records its issues as MISSING, HIGH_CPU and HIGH_LOAD,
    never as HIGH_CPU_USAGE. *)
Lemma diagnose_cpu_no_legacy_type cfg s h :
  _diagnose_cpu cfg s = Ok h -> none_typed "HIGH_CPU_USAGE" h.
Proof.
  unfold _diagnose_cpu. intros H.
  destruct (truthy s); cbn [negb] in H;
    [| injection H as <-; apply add_issue_none_typed; [constructor | reflexivity]].
  run_check;
    repeat (apply add_issue_none_typed; [| reflexivity]); constructor.
Qed.

(** With a positive self-heal threshold, CPU mitigation does nothing on any
    result of [_diagnose_cpu]: no process is ranked, none is terminated. *)
Lemma heal_cpu_idle_on_diagnosed env cfg s h w :
  _diagnose_cpu cfg s = Ok h ->
  num_lt (NInt 0) (self_heal_cpu_threshold cfg) = true ->
  _heal_cpu env cfg h w = (Ok None, w).
Proof.
  intros Hd Hpos. unfold _heal_cpu.
  destruct (self_heal_cpu_enabled cfg); cbn [negb]; [| reflexivity].
  rewrite (none_typed_first_value _ _ (diagnose_cpu_no_legacy_type _ _ _ Hd)).
  runM. unfold py_lt_num. cbn [to_num]. by rewrite Hpos.
Qed.

(** C3 at the failing input: CPU self-healing is enabled, the cpu check
    reports utilisation 99 under the type HIGH_CPU, 99 exceeds the self-heal
    threshold 95, and [_heal_cpu] returns no action and touches nothing,
    although a hog is running.  It looks for the type HIGH_CPU_USAGE. *)
Theorem high_cpu_issue_not_recognised :
  self_heal_cpu_enabled cpu_healing_config = true /\
  _diagnose_cpu cpu_healing_config cpu_at_99
    = Ok (mk_health "CRITICAL"
            [mk_issue "HIGH_CPU" (Some (vfloat 99))
               [FLit "> "; FNum (NFloat (FFin 85)); FLit "%"]]) /\
  py_gt_num (vfloat 99) (self_heal_cpu_threshold cpu_healing_config) = Ok true /\
  _heal_cpu busy_host cpu_healing_config
    (mk_health "CRITICAL"
       [mk_issue "HIGH_CPU" (Some (vfloat 99))
          [FLit "> "; FNum (NFloat (FFin 85)); FLit "%"]])
    initial_world
    = (Ok None, initial_world).
Proof. repeat split; vm_compute; reflexivity. Qed.

(** ** Diagnostic engine *)

Lemma diag_funcs_order net cfg : (diag_funcs net cfg).*1 = domains.
Proof. reflexivity. Qed.


(** Checks that do not return ERROR are all run; each leaves an entry. *)
Lemma diagnose_loop_app state pre post d b :
  never_error state pre ->
  exists d' b',
    diagnose_loop state (pre ++ post) d b = diagnose_loop state post d' b' /\
    (forall k, k ∉ pre.*1 -> checks d' !! k = checks d !! k) /\
    (forall k, k ∈ pre.*1 -> is_Some (checks d' !! k)) /\
    (forall k h, checks d' !! k = Some h -> k ∈ pre.*1 ->
       exists func, (k, func) ∈ pre /\
         (func (dict_get state k) = Ok h \/
          exists e, func (dict_get state k) = Raise e /\ h = diag_error e)).
Proof.
  revert d b. induction pre as [| [key func] pre IH]; intros d b Hne.
  - exists d, b. simpl. split; [reflexivity |]. split; [done |].
    split; intros k; [| intros h _]; intros Hk; by apply elem_of_nil in Hk.
  - apply Forall_cons in Hne as [Hhead Hne]. simpl in Hhead.
    assert (Hstep : exists d1 b1,
              diagnose_loop state (((key, func) :: pre) ++ post) d b
                = diagnose_loop state (pre ++ post) d1 b1 /\
              exists h1, checks d1 = <[key := h1]> (checks d) /\
                (func (dict_get state key) = Ok h1 \/
                 exists e, func (dict_get state key) = Raise e /\ h1 = diag_error e)).
    { simpl. destruct (func (dict_get state key)) as [h | e] eqn:Hf.
      - specialize (Hhead h eq_refl). apply String.eqb_neq in Hhead. rewrite Hhead.
        destruct (String.eqb (status h) "CRITICAL");
          [| destruct (_ && _)%bool]; eexists _, _; (split; [reflexivity |]);
          exists h; split; eauto.
      - eexists _, _. split; [reflexivity |]. exists (diag_error e). split; eauto. }
    destruct Hstep as (d1 & b1 & Hrun & h1 & Hchecks & Horigin).
    destruct (IH d1 b1 Hne) as (d' & b' & Hrest & Hout & Hin & Hfrom).
    exists d', b'. split; [by rewrite Hrun |]. split; [| split].
    + intros k Hk. rewrite fmap_cons in Hk. apply not_elem_of_cons in Hk as [Hne1 Hk].
      rewrite (Hout k Hk), Hchecks. by apply lookup_insert_ne.
    + intros k Hk. rewrite fmap_cons in Hk. apply elem_of_cons in Hk as [Hk | Hk].
      * simpl in Hk. subst k.
        destruct (decide (key ∈ pre.*1)) as [Hd | Hd]; [by apply Hin |].
        rewrite (Hout _ Hd), Hchecks. rewrite lookup_insert_eq. eauto.
      * by apply Hin.
    + intros k h Hlook Hk.
      destruct (decide (k ∈ pre.*1)) as [Hd | Hd].
      * destruct (Hfrom k h Hlook Hd) as (f' & Hf' & Hor). exists f'.
        split; [by apply elem_of_cons; right | exact Hor].
      * rewrite fmap_cons in Hk. apply elem_of_cons in Hk as [Hk | Hk]; [| done].
        simpl in Hk. subst k.
        rewrite (Hout _ Hd), Hchecks in Hlook.
        rewrite lookup_insert_eq in Hlook. injection Hlook as <-.
        exists func. split; [apply list_elem_of_here | exact Horigin].
Qed.

(** When every check returns, the loop computes the aggregation rule. *)
Lemma diagnose_loop_no_fault state funcs rs :
  Forall2 (fun e r => e.1 = r.1 /\ e.2 (dict_get state e.1) = Ok r.2 /\ level (status r.2))
    funcs rs ->
  forall d b, below_error (overall_status d) ->
  (diagnose_loop state funcs d b).1
    = mk_diagnostics
        (if existsb is_error rs then "ERROR"
         else foldl sev_max (overall_status d) ((fun r => status r.2) <$> rs))
        (record_all (checks d) (until_error rs)).
Proof.
  induction 1 as [| [key func] [key' h] funcs rs (Hk & Hf & Hl) Hrest IH];
    intros d b Hd.
  - destruct d. reflexivity.
  - simpl in Hk, Hf, Hl. subst key'. cbn [diagnose_loop]. rewrite Hf.
    cbn [existsb until_error fmap list_fmap foldl]. unfold is_error at 1 3. cbn [snd].
    destruct Hl as [Hs | [Hs | [Hs | Hs]]]; rewrite Hs; cbn [String.eqb Ascii.eqb Bool.eqb orb andb].
    + rewrite IH by exact Hd. cbn [overall_status checks].
      replace (sev_max (overall_status d) "NOMINAL") with (overall_status d)
        by (destruct Hd as [-> | [-> | ->]]; reflexivity).
      reflexivity.
    + destruct Hd as [Ho | [Ho | Ho]]; rewrite Ho;
        cbn [String.eqb Ascii.eqb Bool.eqb andb];
        (rewrite IH by (cbn [overall_status]; unfold below_error; tauto));
        reflexivity.
    + rewrite IH by (cbn [overall_status]; unfold below_error; tauto).
      cbn [overall_status checks].
      replace (sev_max (overall_status d) "CRITICAL") with "CRITICAL"
        by (destruct Hd as [-> | [-> | ->]]; reflexivity).
      reflexivity.
    + reflexivity.
Qed.

Lemma status_level_of_checks net cfg state key func h :
  (key, func) ∈ diag_funcs net cfg -> func (dict_get state key) = Ok h -> level (status h).
Proof.
  intros Hin Hf. unfold diag_funcs in Hin.
  apply elem_of_cons in Hin as [Hin | Hin]; [injection Hin as -> -> |].
  2: apply elem_of_cons in Hin as [Hin | Hin]; [injection Hin as -> -> |].
  3: apply elem_of_cons in Hin as [Hin | Hin]; [injection Hin as -> -> |].
  4: apply elem_of_cons in Hin as [Hin | Hin]; [injection Hin as -> -> |].
  5: apply elem_of_cons in Hin as [Hin | Hin]; [injection Hin as -> -> |].
  6: apply elem_of_cons in Hin as [Hin | Hin];
       [injection Hin as -> -> | by apply elem_of_nil in Hin].
  - apply diagnose_cpu_status in Hf. destruct (truthy _);
      [by apply below_error_level | subst h; unfold level; tauto].
  - apply diagnose_memory_status in Hf. destruct (truthy _);
      [by apply below_error_level | subst h; unfold level; tauto].
  - apply diagnose_disk_status in Hf. destruct (truthy _);
      [by apply below_error_level | subst h; unfold level; tauto].
  - apply diagnose_processes_status in Hf. destruct (truthy _);
      [by apply below_error_level | subst h; unfold level; tauto].
  - apply diagnose_network_status in Hf. destruct (dict_get state "network");
      try (by apply below_error_level); subst h; unfold level; tauto.
  - apply diagnose_temperature_status in Hf. destruct (dict_get state "temperature");
      try (by apply below_error_level); subst h; unfold level; tauto.
Qed.

(** The aggregation rule holds on the snapshots on which no check raises:
    the six domains are taken in the order cpu, memory, disk, processes,
    network, temperature; the first ERROR ends the evaluation with overall
    status ERROR, the later domains leaving no entry; without an ERROR the
    overall status is the most severe of the six. *)
Theorem diagnose_system_without_faults (net : probes) (cfg : config)
    (state : gmap string pyval) (hc hm hd hp hn ht : health) :
  _diagnose_cpu cfg (dict_get state "cpu") = Ok hc ->
  _diagnose_memory cfg (dict_get state "memory") = Ok hm ->
  _diagnose_disk cfg (dict_get state "disk") = Ok hd ->
  _diagnose_processes cfg (dict_get state "processes") = Ok hp ->
  _diagnose_network net cfg (dict_get state "network") = Ok hn ->
  _diagnose_temperature net cfg (dict_get state "temperature") = Ok ht ->
  (diagnose_system net cfg state).1
    = aggregate [("cpu", hc); ("memory", hm); ("disk", hd); ("processes", hp);
                 ("network", hn); ("temperature", ht)].
Proof.
  intros Hc Hm Hd Hp Hn Ht. unfold diagnose_system, aggregate.
  rewrite (diagnose_loop_no_fault state (diag_funcs net cfg)
             [("cpu", hc); ("memory", hm); ("disk", hd); ("processes", hp);
              ("network", hn); ("temperature", ht)]).
  - reflexivity.
  - unfold diag_funcs.
    repeat (constructor;
            [split; [reflexivity |]; split; [assumption |];
             eapply (status_level_of_checks net cfg state);
               [| eassumption]; unfold diag_funcs; cbn [fst];
               repeat (first [apply list_elem_of_here | apply list_elem_of_further]) |]).
    constructor.
  - by left.
Qed.

Lemma diagnose_system_without_faults_witness :
  let state : gmap string pyval :=
    list_to_map [("cpu", cpu_at_99); ("memory", VDict (list_to_map [("virtual_percent", vfloat 10)]))] in
  (diagnose_system quiet_host default_config state).1
    = aggregate
        [("cpu", mk_health "CRITICAL"
                   [mk_issue "HIGH_CPU" (Some (vfloat 99))
                      [FLit "> "; FNum (NFloat (FFin 85)); FLit "%"]]);
         ("memory", mk_health "NOMINAL" []);
         ("disk", mk_health "ERROR" [mk_issue "MISSING" (Some (VInt 0)) [FLit "Disk data"]]);
         ("processes", mk_health "ERROR" [mk_issue "MISSING" (Some (VInt 0)) [FLit "Proc data"]]);
         ("network", mk_health "ERROR"
                       [mk_issue "MISSING" (Some (VInt 0)) [FLit "Net data(Collection Error)"]]);
         ("temperature", mk_health "ERROR"
                           [mk_issue "MISSING" (Some (VInt 0)) [FLit "Temp data(Collection Error)"]])].
Proof.
  intros state.
  apply (diagnose_system_without_faults quiet_host default_config state); reflexivity.
Defined.

(** C1 at the failing input.  The cpu reading of [faulty_snapshot] is not a
    number, so the cpu check raises and the [except] clause records ERROR for
    cpu; that clause does not [break], so the five later domains are still
    evaluated, and the CRITICAL memory result then replaces the overall
    status ERROR by CRITICAL. *)
Theorem faulting_check_does_not_short_circuit :
  let d := (diagnose_system quiet_host default_config faulty_snapshot).1 in
  _diagnose_cpu default_config (dict_get faulty_snapshot "cpu") = Raise TypeError /\
  status_of d <$> domains
    = [Some "ERROR"; Some "CRITICAL"; Some "NOMINAL"; Some "NOMINAL"; Some "NOMINAL";
       Some "NOMINAL"] /\
  overall_status d = "CRITICAL".
Proof. repeat split; vm_compute; reflexivity. Qed.

(** The same snapshot with a check that returns ERROR instead: the loop
    stops at once. *)
Example returned_error_short_circuits :
  let d := (diagnose_system quiet_host default_config (delete "cpu" faulty_snapshot)).1 in
  status_of d <$> domains = [Some "ERROR"; None; None; None; None; None] /\
  overall_status d = "ERROR".
Proof. repeat split; vm_compute; reflexivity. Qed.

(** ** Data collection *)

(** The keys of a snapshot never include ["network"] or ["temperature"];
    a snapshot without ["error"] carries non-empty cpu, memory, disk and
    processes readings. *)
Lemma collect_keys t last last_time :
  let state := (collect t last last_time).1 in
  state !! "network" = None /\ state !! "temperature" = None /\
  (state !! "error" = None ->
   truthy (dict_get state "cpu") = true /\ truthy (dict_get state "memory") = true /\
   truthy (dict_get state "disk") = true /\ truthy (dict_get state "processes") = true).
Proof.
  unfold collect, on_reading, with_error.
  assert (Hdone : forall state : gmap string pyval,
             state !! "network" = None -> state !! "temperature" = None ->
             is_Some (state !! "error") ->
             state !! "network" = None /\ state !! "temperature" = None /\
             (state !! "error" = None ->
              truthy (dict_get state "cpu") = true /\
              truthy (dict_get state "memory") = true /\
              truthy (dict_get state "disk") = true /\
              truthy (dict_get state "processes") = true)).
  { intros state Hn Ht [x Hx]. split; [exact Hn |]. split; [exact Ht |].
    intros He. rewrite He in Hx. discriminate Hx. }
  destruct (t_cpu_percent t); cbn [fst]; [| by apply Hdone | by apply Hdone].
  destruct (t_cpu_details t); cbn [fst]; [| by apply Hdone | by apply Hdone].
  destruct (t_memory t); cbn [fst]; [| by apply Hdone | by apply Hdone].
  destruct (t_disk t); cbn [fst]; [| by apply Hdone | by apply Hdone].
  destruct (t_net_io t); cbn [fst]; [| by apply Hdone | by apply Hdone].
  destruct (t_pids t); cbn [fst]; [| by apply Hdone | by apply Hdone].
  destruct (t_zombies t); cbn [fst]; [| | by apply Hdone].
  - destruct (t_uptime t); cbn [fst]; [| by apply Hdone | by apply Hdone].
    repeat split; reflexivity.
  - destruct (t_uptime t); cbn [fst]; [| by apply Hdone | by apply Hdone].
    repeat split; reflexivity.
Qed.

(** Once some check of the list returns ERROR, the overall status is ERROR,
    and only the checks up to that one can have left an entry. *)
Lemma diagnose_loop_hits_error state pre key func post h :
  func (dict_get state key) = Ok h -> status h = "ERROR" ->
  forall d b,
    let r := diagnose_loop state (pre ++ (key, func) :: post) d b in
    overall_status r.1 = "ERROR" /\ r.2 = true /\
    (forall k, k ∉ pre.*1 -> k <> key -> checks r.1 !! k = checks d !! k).
Proof.
  intros Hf Hs. induction pre as [| [k1 f1] pre IH]; intros d b.
  - simpl. rewrite Hf, Hs. simpl. repeat split. intros k _ Hk. by apply lookup_insert_ne.
  - cbn [app diagnose_loop].
    assert (Hkeep : forall d1 b1 h1, checks d1 = <[k1 := h1]> (checks d) ->
              let r := diagnose_loop state (pre ++ (key, func) :: post) d1 b1 in
              overall_status r.1 = "ERROR" /\ r.2 = true /\
              (forall k, k ∉ ((k1, f1) :: pre).*1 -> k <> key ->
                 checks r.1 !! k = checks d !! k)).
    { intros d1 b1 h1 Hd1. destruct (IH d1 b1) as (Ho & Hb & Hk).
      repeat split; [exact Ho | exact Hb |].
      intros k Hnot Hne. rewrite fmap_cons in Hnot.
      apply not_elem_of_cons in Hnot as [Hk1 Hpre]. simpl in Hk1.
      rewrite (Hk k Hpre Hne), Hd1. by apply lookup_insert_ne. }
    destruct (f1 (dict_get state k1)) as [h1 | e1].
    + destruct (String.eqb (status h1) "ERROR").
      * cbn [fst snd overall_status checks]. repeat split. intros k Hnot _.
        rewrite fmap_cons in Hnot. apply not_elem_of_cons in Hnot as [Hk1 _].
        by apply lookup_insert_ne.
      * destruct (String.eqb (status h1) "CRITICAL"); [| destruct (_ && _)%bool];
          by eapply Hkeep.
    + by eapply Hkeep.
Qed.

(** Whatever was collected, the diagnosis of a snapshot of
    [get_system_state] ends in ERROR without evaluating temperature. *)
Lemma collected_snapshot_ends_in_error net cfg t last last_time :
  let d := (diagnose_system net cfg (collect t last last_time).1).1 in
  overall_status d = "ERROR" /\ checks d !! "temperature" = None.
Proof.
  destruct (collect_keys t last last_time) as (Hnet & _ & _).
  set (state := (collect t last last_time).1) in *.
  pose proof (diagnose_loop_hits_error state
                [("cpu", _diagnose_cpu cfg); ("memory", _diagnose_memory cfg);
                 ("disk", _diagnose_disk cfg); ("processes", _diagnose_processes cfg)]
                "network" (_diagnose_network net cfg)
                [("temperature", _diagnose_temperature net cfg)]
                (mk_health "ERROR"
                   [mk_issue "MISSING" (Some (VInt 0)) [FLit "Net data(Collection Error)"]]))
    as Hhit.
  unfold dict_get in Hhit at 1. rewrite Hnet in Hhit.
  destruct (Hhit eq_refl eq_refl (mk_diagnostics "NOMINAL" ∅) false) as (Ho & _ & Hk).
  split; [exact Ho |]. unfold diagnose_system, diag_funcs.
  cbn [app] in Hk. rewrite Hk; [reflexivity | | discriminate].
  cbn [fmap list_fmap fst]. intros Hin.
  repeat (apply elem_of_cons in Hin as [Hin | Hin]; [discriminate Hin |]).
  by apply elem_of_nil in Hin.
Qed.

(** A completed collection (no ["error"] key) gives the network check
    nothing: it records ERROR with a MISSING issue and ends the diagnosis. *)
Lemma complete_snapshot_network_check net cfg t last last_time :
  let state := (collect t last last_time).1 in
  state !! "error" = None ->
  let d := (diagnose_system net cfg state).1 in
  state !! "network" = None /\ state !! "temperature" = None /\
  dict_get state "network" = VNone /\
  checks d !! "network"
    = Some (mk_health "ERROR"
              [mk_issue "MISSING" (Some (VInt 0)) [FLit "Net data(Collection Error)"]]) /\
  overall_status d = "ERROR" /\
  checks d !! "temperature" = None.
Proof.
  intros state Herr d.
  destruct (collect_keys t last last_time) as (Hnet & Htemp & Hfull).
  fold state in Hnet, Htemp, Hfull.
  destruct (Hfull Herr) as (Hc & Hm & Hd & Hp).
  destruct (collected_snapshot_ends_in_error net cfg t last last_time) as (Ho & Hno).
  fold state in Ho, Hno. fold d in Ho, Hno.
  repeat split; try assumption; [by unfold dict_get; rewrite Hnet |].
  assert (Hne : never_error state
                  [("cpu", _diagnose_cpu cfg); ("memory", _diagnose_memory cfg);
                   ("disk", _diagnose_disk cfg); ("processes", _diagnose_processes cfg)]).
  { repeat constructor; cbn [fst snd]; intros h Hh; apply below_error_not_error.
    - apply diagnose_cpu_status in Hh. by rewrite Hc in Hh.
    - apply diagnose_memory_status in Hh. by rewrite Hm in Hh.
    - apply diagnose_disk_status in Hh. by rewrite Hd in Hh.
    - apply diagnose_processes_status in Hh. by rewrite Hp in Hh. }
  destruct (diagnose_loop_app state _
              [("network", _diagnose_network net cfg);
               ("temperature", _diagnose_temperature net cfg)]
              (mk_diagnostics "NOMINAL" ∅) false Hne) as (d' & b' & Hrun & _).
  subst d. unfold diagnose_system, diag_funcs. cbn [app] in Hrun. rewrite Hrun.
  cbn [diagnose_loop]. unfold dict_get at 1. rewrite Hnet. cbn [default].
  cbn [_diagnose_network]. cbn [fst checks]. apply lookup_insert_eq.
Qed.

(** The entry of a domain whose check returns ERROR is that result, unless
    the loop stopped before it. *)
Lemma diagnose_loop_entry_at_error state pre key func post h :
  func (dict_get state key) = Ok h -> status h = "ERROR" ->
  key ∉ pre.*1 ->
  forall d b,
    let r := diagnose_loop state (pre ++ (key, func) :: post) d b in
    checks r.1 !! key = Some h \/ checks r.1 !! key = checks d !! key.
Proof.
  intros Hf Hs. induction pre as [| [k1 f1] pre IH]; intros Hfresh d b.
  - left. simpl. rewrite Hf, Hs. simpl. apply lookup_insert_eq.
  - rewrite fmap_cons in Hfresh. apply not_elem_of_cons in Hfresh as [Hk1 Hpre].
    cbn [fst] in Hk1. cbn [app diagnose_loop].
    assert (Hkeep : forall d1 b1 h1, checks d1 = <[k1 := h1]> (checks d) ->
              let r := diagnose_loop state (pre ++ (key, func) :: post) d1 b1 in
              checks r.1 !! key = Some h \/ checks r.1 !! key = checks d !! key).
    { intros d1 b1 h1 Hd1. destruct (IH Hpre d1 b1) as [Hsome | Hsame]; [by left |].
      right. rewrite Hsame, Hd1. by apply lookup_insert_ne. }
    destruct (f1 (dict_get state k1)) as [h1 | e1].
    + destruct (String.eqb (status h1) "ERROR").
      * right. cbn [fst checks]. by apply lookup_insert_ne.
      * destruct (String.eqb (status h1) "CRITICAL"); [| destruct (_ && _)%bool];
          by eapply Hkeep.
    + by eapply Hkeep.
Qed.

(** C4 (amended).  Every snapshot that [get_system_state] returns has no key
    ["network"] and no key ["temperature"]: the network check is handed
    [None], for which it records ERROR with a MISSING issue; the overall
    status of the diagnosis is ERROR and the temperature check is not
    evaluated.  The network entry of the diagnosis is that ERROR result
    whenever the snapshot is complete (no ["error"] key, the snapshots the
    loop hands to [diagnose_system]); for a snapshot cut short by a collection
    error the diagnosis may stop at an earlier domain, and the network check
    is then not evaluated at all. *)
Theorem network_check_receives_nothing (env : host) (net : probes) (cfg : config)
    (w w' : world) (state : gmap string pyval) :
  get_system_state env w = (Ok state, w') ->
  let d := (diagnose_system net cfg state).1 in
  let missing :=
    mk_health "ERROR"
      [mk_issue "MISSING" (Some (VInt 0)) [FLit "Net data(Collection Error)"]] in
  state !! "network" = None /\ state !! "temperature" = None /\
  dict_get state "network" = VNone /\
  _diagnose_network net cfg (dict_get state "network") = Ok missing /\
  overall_status d = "ERROR" /\
  checks d !! "temperature" = None /\
  (checks d !! "network" = Some missing \/ checks d !! "network" = None) /\
  (state !! "error" = None -> checks d !! "network" = Some missing).
Proof.
  unfold get_system_state. intros Hget. injection Hget as <- _.
  set (t := sample env (w_tick w)).
  set (last := last_net_io_counters w). set (last_time := last_net_collection_time w).
  destruct (collect_keys t last last_time) as (Hnet & Htemp & _).
  destruct (collected_snapshot_ends_in_error net cfg t last last_time) as (Ho & Hno).
  assert (Hget : dict_get (collect t last last_time).1 "network" = VNone)
    by (unfold dict_get; by rewrite Hnet).
  cbv zeta.
  split; [exact Hnet |]. split; [exact Htemp |]. split; [exact Hget |].
  split; [by rewrite Hget |]. split; [exact Ho |]. split; [exact Hno |]. split.
  - pose proof (diagnose_loop_entry_at_error (collect t last last_time).1
                  [("cpu", _diagnose_cpu cfg); ("memory", _diagnose_memory cfg);
                   ("disk", _diagnose_disk cfg); ("processes", _diagnose_processes cfg)]
                  "network" (_diagnose_network net cfg)
                  [("temperature", _diagnose_temperature net cfg)]
                  (mk_health "ERROR"
                     [mk_issue "MISSING" (Some (VInt 0)) [FLit "Net data(Collection Error)"]]))
      as Hentry.
    rewrite Hget in Hentry.
    assert (Hfresh : "network" ∉ ["cpu"; "memory"; "disk"; "processes"]).
    { intros Hin.
      repeat (apply elem_of_cons in Hin as [Hin | Hin]; [discriminate Hin |]).
      by apply elem_of_nil in Hin. }
    destruct (Hentry eq_refl eq_refl Hfresh (mk_diagnostics "NOMINAL" ∅) false)
      as [Hsome | Hsame]; [by left |].
    right. unfold diagnose_system, diag_funcs. cbn [app] in Hsame. rewrite Hsame.
    apply lookup_empty.
  - intros Herr.
    by destruct (complete_snapshot_network_check net cfg t last last_time Herr)
      as (_ & _ & _ & Hentry & _).
Qed.

Lemma network_check_receives_nothing_witness :
  let env := host_with (fun _ => Exited 0 "" "") ("", "") [] calm_telemetry in
  let state := (collect calm_telemetry None None).1 in
  let d := (diagnose_system quiet_host default_config state).1 in
  let missing :=
    mk_health "ERROR"
      [mk_issue "MISSING" (Some (VInt 0)) [FLit "Net data(Collection Error)"]] in
  state !! "network" = None /\ state !! "temperature" = None /\
  dict_get state "network" = VNone /\
  _diagnose_network quiet_host default_config (dict_get state "network") = Ok missing /\
  overall_status d = "ERROR" /\
  checks d !! "temperature" = None /\
  (checks d !! "network" = Some missing \/ checks d !! "network" = None) /\
  (state !! "error" = None -> checks d !! "network" = Some missing).
Proof.
  intros env state.
  apply (network_check_receives_nothing env quiet_host default_config initial_world
           (get_system_state env initial_world).2 state).
  reflexivity.
Defined.

(** C4 as worded fails for a snapshot cut short by a collection error: on a
    host whose first [psutil] call fails the snapshot holds the timestamp and
    the error only, the cpu check reports ERROR for the missing cpu data, the
    loop stops there, and the network check is never evaluated: the network
    domain has no entry at all. *)
Lemma failed_collection_skips_network_check :
  let state := (collect failing_telemetry None None).1 in
  let d := (diagnose_system quiet_host default_config state).1 in
  (get_system_state failing_host initial_world).1 = Ok state /\
  state !! "error" = Some (VStr "psutil error: no such process") /\
  status_of d <$> domains = [Some "ERROR"; None; None; None; None; None] /\
  checks d !! "network" = None /\
  overall_status d = "ERROR".
Proof. repeat split; vm_compute; reflexivity. Qed.

(** On a calm host every reading is healthy, and the verdict is still ERROR. *)
Example calm_host_diagnosis :
  let d := (diagnose_system quiet_host default_config
              (collect calm_telemetry None None).1).1 in
  status_of d <$> domains
    = [Some "NOMINAL"; Some "NOMINAL"; Some "NOMINAL"; Some "NOMINAL"; Some "ERROR"; None] /\
  overall_status d = "ERROR".
Proof. split; vm_compute; reflexivity. Qed.

(** ** Self-healing orchestrator *)

Section orchestrator.
Context (env : host) (cfg : config).





Lemma bind_ok {A B} (m : M A) (f : A -> M B) w a w' :
  m w = (Ok a, w') -> (m ≫= f) w = f a w'.
Proof. intros H. unfold mbind, M_bind. by rewrite H. Qed.


Lemma abnormal_present checks key h w :
  checks !! key = Some h ->
  abnormal checks key w
    = (Ok (if String.eqb (status h) "NOMINAL" then None else Some h), w).
Proof. intros H. unfold abnormal, dict_item. rewrite H. reflexivity. Qed.




End orchestrator.

Lemma diag_error_none_typed e : none_typed "HIGH_CPU_USAGE" (diag_error e).
Proof. repeat constructor. Qed.






(** On an empty snapshot the cpu check reports ERROR, the diagnosis stops
    there, and healing fails on [checks["memory"]]. *)
Example empty_snapshot_healing :
  let d := (diagnose_system quiet_host default_config ∅).1 in
  status_of d <$> domains = [Some "ERROR"; None; None; None; None; None] /\
  (perform_self_healing busy_host default_config d initial_world).1
    = Raise (KeyError "memory").
Proof. split; vm_compute; reflexivity. Qed.


(** The guard of [perform_self_healing] holds for every configuration with
    self-healing switched off, whatever the diagnosis: nothing is indexed and
    nothing is raised. *)
Lemma healing_off_returns_at_guard env cfg d w :
  self_healing_enabled cfg = false -> perform_self_healing env cfg d w = (Ok None, w).
Proof. intros Hoff. unfold perform_self_healing. by rewrite Hoff. Qed.

(** ** Doubles *)

Lemma pow2_pos e : (0 < pow2 e)%Q.
Proof.
  destruct e as [| p | p]; unfold pow2, Qlt; cbn [Qnum Qden inject_Z]; lia.
Qed.

Lemma Qround_half_even_le q k : (q <= inject_Z k)%Q -> Qround_half_even q <= k.
Proof.
  intros Hq. unfold Qround_half_even.
  assert (Hfl : Qfloor q <= k).
  { rewrite <- (Qfloor_Z k). by apply Qfloor_resp_le. }
  destruct (Z.eq_dec (Qfloor q) k) as [Heq | Hne].
  - assert (Hlt : (q - inject_Z (Qfloor q) < 1 # 2)%Q).
    { rewrite Heq. apply Qle_lt_trans with (y := 0%Q); [| reflexivity].
      unfold Qminus. rewrite <- (Qplus_opp_r (inject_Z k)).
      by apply Qplus_le_l. }
    destruct (Qcompare_spec (q - inject_Z (Qfloor q)) (1 # 2)) as [He | _ | Hgt]; [| lia |].
    + rewrite He in Hlt. by apply Qlt_irrefl in Hlt.
    + exfalso. apply (Qlt_irrefl (1 # 2)). by apply Qlt_trans with (y := (q - inject_Z (Qfloor q))%Q).
  - destruct (_ ?= _)%Q; [destruct (Z.even _) | |]; lia.
Qed.

Lemma Qround_half_even_nonneg q : (0 <= q)%Q -> 0 <= Qround_half_even q.
Proof.
  intros Hq. unfold Qround_half_even.
  assert (Hfl : 0 <= Qfloor q).
  { change 0 with (Qfloor 0). by apply Qfloor_resp_le. }
  destruct (_ ?= _)%Q; [destruct (Z.even _) | |]; lia.
Qed.

(** A positive rational below [2 ** 53] has a quantum of at most one. *)
Lemma floor_log2_small a :
  (0 < a)%Q -> (a < inject_Z (2 ^ 53))%Q -> floor_log2 a <= 52.
Proof.
  destruct a as [n d]. unfold Qlt. cbn [Qnum Qden inject_Z]. intros Hpos Hlt.
  assert (Hn : 0 < n) by lia.
  assert (He0 : Z.log2 n - Z.log2 (Zpos d) <= 53).
  { assert (Hle : Z.log2 n <= Z.log2 (Zpos d * 2 ^ 53)) by (apply Z.log2_le_mono; lia).
    rewrite Z.log2_mul_pow2 in Hle by lia. lia. }
  unfold floor_log2. cbn [Qnum Qden].
  destruct (Qle_bool (pow2 (Z.log2 n - Z.log2 (Z.pos d))) (n # d)) eqn:Htest; [| lia].
  destruct (Z.eq_dec (Z.log2 n - Z.log2 (Zpos d)) 53) as [Heq | Hne]; [| lia].
  rewrite Heq in Htest. apply Qle_bool_iff in Htest.
  unfold pow2, Qle in Htest. cbn [Qnum Qden inject_Z] in Htest. lia.
Qed.

(** Rounding to the quantum of a positive rational does not pass an integer
    below [2 ** 53] that the rational does not pass: such an integer is a
    multiple of the quantum. *)
Lemma round_to_quantum_le a z :
  (0 < a)%Q -> (a <= inject_Z z)%Q -> z < 2 ^ 53 ->
  (inject_Z (Qround_half_even (a / pow2 (Z.max (floor_log2 a - 52) (-1074))))
   * pow2 (Z.max (floor_log2 a - 52) (-1074)) <= inject_Z z)%Q.
Proof.
  intros Hpos Hle Hz.
  assert (Hfl : floor_log2 a <= 52).
  { apply floor_log2_small; [exact Hpos |].
    apply Qle_lt_trans with (y := inject_Z z); [exact Hle |].
    unfold Qlt. cbn [Qnum Qden inject_Z]. lia. }
  destruct (Z.max (floor_log2 a - 52) (-1074)) as [| p | p] eqn:He; [| lia |].
  - cbn [pow2].
    assert (Hm : Qround_half_even (a / 1) <= z).
    { apply Qround_half_even_le.
      assert (Hdiv : (a / 1 == a)%Q) by (unfold Qdiv, Qinv; cbn [Qnum Qden]; apply Qmult_1_r).
      by rewrite Hdiv. }
    rewrite Qmult_1_r, <- Zle_Qle. exact Hm.
  - cbn [pow2].
    assert (Hdiv : (a / (1 # 2 ^ p) == a * inject_Z (Zpos (2 ^ p)))%Q).
    { unfold Qdiv, Qinv. cbn [Qnum Qden]. reflexivity. }
    assert (Hm : Qround_half_even (a / (1 # 2 ^ p)) <= z * Zpos (2 ^ p)).
    { apply Qround_half_even_le. rewrite Hdiv, inject_Z_mult.
      apply Qmult_le_compat_r; [exact Hle |]. unfold Qle. cbn [Qnum Qden inject_Z]. lia. }
    unfold Qle. cbn [Qnum Qden inject_Z Qmult]. lia.
Qed.

Lemma round_to_quantum_nonneg a e :
  (0 <= a)%Q -> (0 <= inject_Z (Qround_half_even (a / pow2 e)) * pow2 e)%Q.
Proof.
  intros Ha. apply Qmult_le_0_compat; [| apply Qlt_le_weak, pow2_pos].
  change 0%Q with (inject_Z 0). rewrite <- Zle_Qle. apply Qround_half_even_nonneg.
  apply Qle_shift_div_l; [apply pow2_pos |]. by rewrite Qmult_0_l.
Qed.

(** The double nearest to a rational does not pass an integer below
    [2 ** 53] that the rational does not pass. *)
Lemma to_double_le_small x z :
  0 <= z < 2 ^ 53 -> (x <= inject_Z z)%Q ->
  float_lt (FFin (inject_Z z)) (to_double x) = false.
Proof.
  intros [Hz0 Hz] Hle. unfold to_double.
  assert (Hzq : (0 <= inject_Z z)%Q) by (unfold Qle; cbn [Qnum Qden inject_Z]; lia).
  assert (Hnot : forall y, (y <= inject_Z z)%Q -> Qlt_bool (inject_Z z) (Qred y) = false).
  { intros y Hy. unfold Qlt_bool. apply negb_false_iff, Qle_bool_iff. by rewrite Qred_correct. }
  destruct (Qeq_bool x 0) eqn:H0.
  { cbn [float_lt]. apply (Hnot 0%Q Hzq). }
  set (e := Z.max (floor_log2 (Qabs x) - 52) (-1074)).
  pose proof (round_to_quantum_nonneg (Qabs x) e (Qabs_nonneg x)) as Hr0.
  destruct (Qlt_bool x 0) eqn:Hneg.
  - destruct (Qle_bool _ _); cbn [float_lt negb]; [reflexivity |].
    apply Hnot. apply Qle_trans with (y := 0%Q); [| exact Hzq].
    change 0%Q with (- 0)%Q. by apply Qopp_le_compat.
  - assert (Hx0 : (0 <= x)%Q).
    { unfold Qlt_bool in Hneg. apply negb_false_iff in Hneg. by apply Qle_bool_iff. }
    assert (Hxpos : (0 < x)%Q).
    { apply Qle_lteq in Hx0 as [Hlt | Heq]; [exact Hlt |].
      symmetry in Heq. apply Qeq_bool_iff in Heq. congruence. }
    assert (Habs : (Qabs x == x)%Q) by (by apply Qabs_pos).
    assert (Hr : (inject_Z (Qround_half_even (Qabs x / pow2 e)) * pow2 e <= inject_Z z)%Q).
    { subst e. apply round_to_quantum_le; [by rewrite Habs | by rewrite Habs | exact Hz]. }
    destruct (Qle_bool (pow2 1024) _) eqn:Hov; cbn [float_lt negb]; [| by apply Hnot].
    exfalso. apply Qle_bool_iff in Hov.
    assert (Hbig : (pow2 1024 <= inject_Z z)%Q) by (by apply Qle_trans with (y := (inject_Z (Qround_half_even (Qabs x / pow2 e)) * pow2 e)%Q)).
    unfold pow2, Qle in Hbig. cbn [Qnum Qden inject_Z] in Hbig.
    assert (2 ^ 53 <= 2 ^ 1024) by (apply Z.pow_le_mono_r; lia). lia.
Qed.



(** The sleep that ends a turn, for an integer interval below [2 ** 53] and a
    turn that took a non-negative time: between one second and the
    interval. *)
Lemma end_of_cycle_sleep_bound cfg interval duration :
  monitor_interval cfg = NInt interval -> 1 <= interval < 2 ^ 53 -> (0 <= duration)%Q ->
  exists s,
    end_of_cycle_sleep cfg (FFin duration) = Ok (FFin s) /\
    (1 <= s)%Q /\ (s <= inject_Z interval)%Q.
Proof.
  intros Hi [H1 Hz] H0. unfold end_of_cycle_sleep. rewrite Hi. cbn [float_of_num].
  unfold float_of_int.
  pose proof (to_double_le_small (inject_Z interval) interval) as Hconv.
  destruct (to_double (inject_Z interval)) as [| neg | r] eqn:Hr.
  { unfold to_double in Hr. destruct (Qeq_bool _ _); [discriminate Hr |].
    destruct (Qle_bool _ _); discriminate Hr. }
  { exfalso. unfold to_double in Hr. destruct (Qeq_bool _ _); [discriminate Hr |].
    destruct (Qle_bool _ _); [| discriminate Hr]. injection Hr as <-.
    assert (Hpos : Qlt_bool (inject_Z interval) 0 = false).
    { unfold Qlt_bool. apply negb_false_iff, Qle_bool_iff.
      unfold Qle. cbn [Qnum Qden inject_Z]. lia. }
    rewrite Hpos in Hconv. cbn [float_lt negb] in Hconv.
    assert (Hf : true = false) by (apply Hconv; [lia | apply Qle_refl]). discriminate Hf. }
  assert (Hrle : (r <= inject_Z interval)%Q).
  { cbn [float_lt] in Hconv. unfold Qlt_bool in Hconv.
    apply Qle_bool_iff. apply negb_false_iff. apply Hconv; [lia | apply Qle_refl]. }
  unbind. cbn [double_sub float_sub].
  pose proof (to_double_le_small (r - duration) interval) as Hsub.
  assert (Hle : (r - duration <= inject_Z interval)%Q).
  { apply Qle_trans with (y := r); [| exact Hrle].
    rewrite <- (Qplus_0_r r) at 2. unfold Qminus.
    apply Qplus_le_r. change 0%Q with (- 0)%Q. by apply Qopp_le_compat. }
  specialize (Hsub ltac:(lia) Hle).
  assert (H1q : (1 <= inject_Z interval)%Q) by (unfold Qle; cbn [Qnum Qden inject_Z]; lia).
  unfold float_max.
  destruct (to_double (r - duration)) as [| neg | y]; cbn [float_lt] in *.
  - exists 1%Q. split; [reflexivity |]. split; [apply Qle_refl | exact H1q].
  - destruct neg; cbn [negb] in *; [| discriminate Hsub].
    exists 1%Q. split; [reflexivity |]. split; [apply Qle_refl | exact H1q].
  - assert (Hy : (y <= inject_Z interval)%Q).
    { unfold Qlt_bool in Hsub. apply Qle_bool_iff. by apply negb_false_iff. }
    unfold Qlt_bool. destruct (Qle_bool y 1) eqn:Hy1; cbn [negb].
    + exists 1%Q. split; [reflexivity |]. split; [apply Qle_refl | exact H1q].
    + exists y. split; [reflexivity |]. split; [| exact Hy].
      apply Qlt_le_weak, Qnot_le_lt. intros Hc. apply Qle_bool_iff in Hc. congruence.
Qed.

(** Beyond [2 ** 53] the conversion of the interval rounds, and the sleep
    can be longer than the interval; beyond the doubles it raises. *)
Example end_of_cycle_sleep_rounds :
  let cfg := set_interval (NInt (2 ^ 53 + 3)) default_config in
  end_of_cycle_sleep cfg (FFin 0) = Ok (FFin (inject_Z (2 ^ 53 + 4))).
Proof. vm_compute. reflexivity. Qed.

Example end_of_cycle_sleep_overflows :
  let cfg := set_interval (NInt (10 ^ 400)) default_config in
  end_of_cycle_sleep cfg (FFin 0) = Raise OverflowError.
Proof. vm_compute. reflexivity. Qed.

(** ** Supervisor loop *)

(** A snapshot with a collection error ends the turn at once: the error is
    logged, the loop sleeps for the whole [monitor_interval], and nothing else
    of the turn runs. *)
Lemma collection_error_skips_cycle env net cfg state msg w :
  state !! "error" = Some msg ->
  sleep_refused (monitor_interval cfg) = None ->
  exists w',
    after_collection env net cfg state w = (Ok true, w') /\
    w_events w' = (w_events w ++ [CollectionError msg;
                                  Slept (num_float (monitor_interval cfg))])%list.
Proof.
  intros Herr Hsleep. unfold after_collection, time_sleep. rewrite Herr, Hsleep. runM.
  eexists. split; [reflexivity |]. cbn [w_events]. by rewrite <- app_assoc.
Qed.


(** In the loop: when the collection of a turn reports an error and
    [time.sleep] accepts the interval, the turn consists of the error line
    and a sleep of the whole [monitor_interval]; no diagnosis, healing,
    maintenance or interruptible sleep follows. *)
Lemma run_cycle_on_collection_error env net cfg w state w1 msg :
  get_system_state env (ask (time_time env) w).2 = (Ok state, w1) ->
  state !! "error" = Some msg ->
  sleep_refused (monitor_interval cfg) = None ->
  exists w',
    run_cycle env net cfg w = (Ok tt, w') /\
    w_events w' = (w_events w ++ [CollectionError msg;
                                  Slept (num_float (monitor_interval cfg))])%list.
Proof.
  intros Hget Herr Hsleep. unfold run_cycle.
  destruct (collection_error_skips_cycle env net cfg state msg w1 Herr Hsleep)
    as (w2 & Hskip & Hev).
  assert (Htry : try_except
                   (system_state ← get_system_state env;
                    after_collection env net cfg system_state)
                   loop_handler (ask (time_time env) w).2 = (Ok true, w2)).
  { unfold try_except. erewrite bind_ok by exact Hget. by rewrite Hskip. }
  exists w2. split.
  - erewrite bind_ok by reflexivity. cbv beta.
    erewrite bind_ok by exact Htry. reflexivity.
  - rewrite Hev. f_equal. unfold get_system_state in Hget. injection Hget as _ <-.
    reflexivity.
Qed.

(** C6 at the failing input.  With the default interval of 60 seconds and a
    host whose first reading fails, the turn logs the collection error and
    then sleeps 60 seconds, the full interval and not less, skipping the rest
    of the turn. *)
Theorem collection_error_waits_full_interval :
  let r := run_cycle failing_host quiet_host default_config initial_world in
  r.1 = Ok tt /\
  w_events r.2
    = [CollectionError (VStr "psutil error: no such process"); Slept (FFin 60)] /\
  num_float (monitor_interval default_config) = FFin 60 /\
  float_lt (FFin 60) (num_float (monitor_interval default_config)) = false.
Proof. repeat split; vm_compute; reflexivity. Qed.

(** A normal turn on a calm host, for comparison: the verdict is raised as an
    alert, the man-db task runs, and the turn ends in an interruptible sleep
    (the whole interval here, since this host's clock stands still). *)
Example calm_cycle :
  let r := run_cycle (host_with (fun _ => Exited 0 "" "") ("", "") [] calm_telemetry)
             quiet_host healing_off_config initial_world in
  r.1 = Ok tt /\
  w_events r.2
    = [AlertRaised "ERROR";
       Launched (mk_launch ["/usr/bin/mandb"; "-q"] None false (NInt 60));
       InterruptibleSleep (FFin 60)].
Proof. split; vm_compute; reflexivity. Qed.

(** ** From the validated dict to the configuration the agent reads *)

Lemma schema_functional key s s' :
  (key, s) ∈ CONFIG_SCHEMA -> (key, s') ∈ CONFIG_SCHEMA -> s = s'.
Proof.
  intros H H'.
  apply (elem_of_list_to_map_1 (M := gmap string)) in H; [| apply CONFIG_SCHEMA_keys_NoDup].
  apply (elem_of_list_to_map_1 (M := gmap string)) in H'; [| apply CONFIG_SCHEMA_keys_NoDup].
  congruence.
Qed.

Lemma well_typed_insert c key s v :
  well_typed c -> (key, s) ∈ CONFIG_SCHEMA -> conforms s v ->
  well_typed (<[key := v]> c).
Proof.
  intros Hc Hin Hv k' s' Hin'. destruct (decide (key = k')) as [<- | Hne].
  - rewrite (schema_functional key s' s Hin' Hin). exists v.
    by rewrite lookup_insert_eq.
  - rewrite lookup_insert_ne by done. by apply Hc.
Qed.

Lemma conforms_flag b : conforms (sch TBool) (VBool b).
Proof.
  split; [left; constructor |]. split; [intros _ q _; split; intros m Hm; discriminate Hm |].
  split; [intros allowed Ha; discriminate Ha | intros Hl; discriminate Hl].
Qed.

Lemma conforms_strings l : conforms (sch TList) (vstrs l).
Proof.
  split; [left; constructor |]. split; [intros _ q Hq; discriminate Hq |].
  split; [intros allowed Ha; discriminate Ha | intros _; by exists l].
Qed.

Lemma validated_well_typed ollama_available f config :
  merged_config ollama_available f = Ok config ->
  exists vc log, validate_config ollama_available f = Ok (vc, log) /\ well_typed vc.
Proof.
  intros Hmerged.
  destruct (validate_config_field ollama_available f config "monitor_interval"
              (sch_min TInt 10) Hmerged)
    as (vc & log & Hrun & _); [apply list_elem_of_In; simpl; tauto |].
  exists vc, log. split; [exact Hrun |]. intros key s Hin.
  destruct (validate_config_field ollama_available f config key s Hmerged Hin)
    as (vc' & log' & Hrun' & v & Hv & Hconf & _).
  assert (vc' = vc) as -> by congruence. eauto.
Qed.

Lemma lower_all_vstrs l : lower_all (VStr <$> l) = Ok (VStr <$> (lower <$> l)).
Proof.
  induction l as [| x l IH]; [reflexivity |].
  rewrite !fmap_cons. cbn [lower_all]. rewrite IH. reflexivity.
Qed.

Lemma typed_bool c key :
  well_typed c -> (key, sch TBool) ∈ CONFIG_SCHEMA -> exists b, c !! key = Some (VBool b).
Proof.
  intros Hc Hin. destruct (Hc key _ Hin) as (v & Hv & [Hty | [Hty _]] & _);
    [| discriminate Hty]. inversion Hty; subst. eauto.
Qed.

Lemma typed_str c key :
  well_typed c -> (key, sch TStr) ∈ CONFIG_SCHEMA -> exists x, c !! key = Some (VStr x).
Proof.
  intros Hc Hin. destruct (Hc key _ Hin) as (v & Hv & [Hty | [Hty _]] & _);
    [| discriminate Hty]. inversion Hty; subst. eauto.
Qed.

Lemma typed_strs c key :
  well_typed c -> (key, sch TList) ∈ CONFIG_SCHEMA -> exists l, c !! key = Some (vstrs l).
Proof.
  intros Hc Hin. destruct (Hc key _ Hin) as (v & Hv & _ & _ & _ & Hl).
  destruct (Hl eq_refl) as [l ->]. eauto.
Qed.

Ltac in_schema := apply list_elem_of_In; simpl; tauto.

(** The post-validation adjustments never raise on a validated dict and keep
    it well typed. *)
Lemma post_validate_well_typed ollama_available vc :
  well_typed vc -> exists c, post_validate ollama_available vc = Ok c /\ well_typed c.
Proof.
  intros Hvc. unfold post_validate, dict_item.
  destruct (typed_bool vc "email_alerts_enabled" Hvc) as [alerts ->]; [in_schema |].
  destruct (typed_str vc "email_recipient" Hvc) as [recipient ->]; [in_schema |].
  unbind.
  set (no_recipient := if truthy (VBool alerts) then Ok (negb (truthy (VStr recipient)))
                       else Ok false).
  assert (Hnr : exists b : bool, no_recipient = Ok b) by (subst no_recipient; destruct alerts; eauto).
  destruct Hnr as [b1 ->].
  set (c1 := if b1 then <["email_alerts_enabled" := VBool false]> vc else vc).
  assert (Hc1 : well_typed c1).
  { subst c1. destruct b1; [| exact Hvc].
    apply (well_typed_insert _ _ (sch TBool)); [exact Hvc | in_schema | apply conforms_flag]. }
  destruct (typed_bool c1 "ollama_enabled" Hc1) as [ollama Ho]; [in_schema |].
  rewrite Ho.
  set (unusable := if negb ollama_available then Ok (truthy (VBool ollama)) else Ok false).
  assert (Hun : exists b : bool, unusable = Ok b)
    by (subst unusable; destruct ollama_available; simpl; eauto).
  destruct Hun as [b2 ->].
  set (c2 := if b2 then <["ollama_enabled" := VBool false]> c1 else c1).
  assert (Hc2 : well_typed c2).
  { subst c2. destruct b2; [| exact Hc1].
    apply (well_typed_insert _ _ (sch TBool)); [exact Hc1 | in_schema | apply conforms_flag]. }
  destruct (typed_strs c2 "self_heal_cpu_exclude_procs" Hc2) as [l Hl]; [in_schema |].
  unfold dict_get. rewrite Hl. unfold vstrs. cbv [default from_option id]. unbind.
  rewrite lower_all_vstrs. unbind.
  eexists. split; [reflexivity |].
  apply (well_typed_insert _ _ (sch TList)); [exact Hc2 | in_schema |].
  apply (conforms_strings (lower <$> l)).
Qed.

Lemma get_num_typed c key s :
  well_typed c -> (key, s) ∈ CONFIG_SCHEMA -> f_type s = TInt \/ f_type s = TFloat ->
  exists n, get_num c key = Some n.
Proof.
  intros Hc Hin Ht. destruct (Hc key s Hin) as (v & Hv & Hty & _).
  unfold get_num. rewrite Hv. cbn [mbind option_bind].
  destruct Hty as [Hty | [_ Hty]]; inversion Hty; subst; cbn [to_num]; eauto;
    destruct Ht as [Ht | Ht]; congruence.
Qed.

Lemma get_bool_typed c key :
  well_typed c -> (key, sch TBool) ∈ CONFIG_SCHEMA -> exists b, get_bool c key = Some b.
Proof.
  intros Hc Hin. destruct (typed_bool c key Hc Hin) as [b Hb].
  unfold get_bool. rewrite Hb. eauto.
Qed.

Lemma get_str_typed c key :
  well_typed c -> (key, sch TStr) ∈ CONFIG_SCHEMA -> exists x, get_str c key = Some x.
Proof.
  intros Hc Hin. destruct (typed_str c key Hc Hin) as [x Hx].
  unfold get_str. rewrite Hx. eauto.
Qed.

Lemma strs_of_vstrs l : strs_of (VStr <$> l) = Some l.
Proof.
  induction l as [| x l IH]; [reflexivity |].
  rewrite fmap_cons. cbn [strs_of]. rewrite IH. reflexivity.
Qed.

Lemma get_strs_typed c key :
  well_typed c -> (key, sch TList) ∈ CONFIG_SCHEMA -> exists l, get_strs c key = Some l.
Proof.
  intros Hc Hin. destruct (typed_strs c key Hc Hin) as [l Hl].
  unfold get_strs. rewrite Hl. cbn [mbind option_bind]. unfold vstrs.
  rewrite strs_of_vstrs. eauto.
Qed.

Ltac read_field lem key :=
  let x := fresh "x" in
  let H := fresh "H" in
  first
    [ destruct (lem _ key ltac:(eassumption) ltac:(in_schema)) as [x H]
    | match goal with
      | Hc : well_typed ?c |- _ =>
          let s := eval vm_compute in (default (sch TStr) (list_to_map (M := gmap string field_schema) CONFIG_SCHEMA !! key)) in
          destruct (lem c key s Hc ltac:(in_schema)
                      ltac:(first [left; reflexivity | right; reflexivity]))
            as [x H]
      end ];
  rewrite H; clear H; cbn [mbind option_bind].

(** A well-typed dict has everything [config_of] reads. *)
Lemma config_of_well_typed c : well_typed c -> is_Some (config_of c).
Proof.
  intros Hc. unfold config_of.
  read_field get_num_typed "monitor_interval".
  read_field get_num_typed "cpu_threshold".
  read_field get_num_typed "memory_threshold".
  read_field get_num_typed "disk_threshold".
  read_field get_num_typed "swap_threshold".
  read_field get_num_typed "zombie_threshold".
  read_field get_num_typed "temp_alert_threshold".
  read_field get_str_typed "network_connectivity_host".
  read_field get_num_typed "network_connectivity_port".
  read_field get_num_typed "network_connectivity_timeout".
  read_field get_bool_typed "self_healing_enabled".
  read_field get_bool_typed "self_heal_cpu_enabled".
  read_field get_num_typed "self_heal_cpu_threshold".
  read_field get_num_typed "self_heal_cpu_kill_limit".
  read_field get_strs_typed "self_heal_cpu_exclude_procs".
  read_field get_bool_typed "self_heal_memory_enabled".
  read_field get_bool_typed "self_heal_memory_clear_caches".
  read_field get_bool_typed "self_heal_processes_enabled".
  read_field get_bool_typed "self_heal_processes_cleanup_zombies".
  read_field get_bool_typed "self_heal_disk_enabled".
  read_field get_str_typed "self_heal_disk_log_path".
  read_field get_num_typed "self_heal_disk_log_max_age_days".
  read_field get_str_typed "self_heal_disk_tmp_path".
  read_field get_num_typed "self_heal_disk_tmp_max_age_days".
  read_field get_bool_typed "self_heal_network_enabled".
  read_field get_strs_typed "self_heal_network_service_names".
  read_field get_num_typed "cpu_permit_man_update".
  read_field get_num_typed "mandb_min_interval_hours".
  eauto.
Qed.


(** ** The loaded configuration *)

(** What the post-validation adjustments return on a validated dict. *)
Lemma post_validate_eq oa vc al rc ol l :
  vc !! "email_alerts_enabled" = Some (VBool al) ->
  vc !! "email_recipient" = Some (VStr rc) ->
  vc !! "ollama_enabled" = Some (VBool ol) ->
  vc !! "self_heal_cpu_exclude_procs" = Some (vstrs l) ->
  post_validate oa vc
    = Ok (<["self_heal_cpu_exclude_procs" := vstrs (lower <$> l)]>
            ((if (negb oa && ol)%bool then <["ollama_enabled" := VBool false]> else id)
               ((if (al && String.eqb rc "")%bool
                 then <["email_alerts_enabled" := VBool false]> else id) vc))).
Proof.
  intros Hal Hrc Hol Hl. unfold post_validate, dict_item, dict_get.
  rewrite Hal, Hrc. unbind. cbn [truthy].
  destruct al, (String.eqb rc ""); cbn [negb andb id]; unbind;
    rewrite ?lookup_insert_ne by done; rewrite Hol; unbind; cbn [truthy];
    destruct oa, ol; cbn [negb andb id]; unbind;
    rewrite ?lookup_insert_ne by done; rewrite Hl;
    unfold vstrs; cbv [default from_option id]; unbind;
    rewrite lower_all_vstrs; reflexivity.
Qed.

(** The two stages of loading, with the four fields the second stage reads. *)
Lemma load_stages oa f config :
  merged_config oa f = Ok config ->
  exists vc log al rc ol l,
    validate_config oa f = Ok (vc, log) /\
    well_typed vc /\
    (forall key, key ∉ CONFIG_SCHEMA.*1 -> vc !! key = None) /\
    vc !! "email_alerts_enabled" = Some (VBool al) /\
    vc !! "email_recipient" = Some (VStr rc) /\
    vc !! "ollama_enabled" = Some (VBool ol) /\
    vc !! "self_heal_cpu_exclude_procs" = Some (vstrs l) /\
    _load_and_validate_config oa f
      = Ok (<["self_heal_cpu_exclude_procs" := vstrs (lower <$> l)]>
              ((if (negb oa && ol)%bool then <["ollama_enabled" := VBool false]> else id)
                 ((if (al && String.eqb rc "")%bool
                   then <["email_alerts_enabled" := VBool false]> else id) vc))).
Proof.
  intros Hmerged.
  destruct (validated_well_typed oa f config Hmerged) as (vc & log & Hrun & Hvc).
  destruct (validate_fields_spec (defaults oa) config CONFIG_SCHEMA
              CONFIG_SCHEMA_wf CONFIG_SCHEMA_keys_NoDup ∅ [])
    as (vc' & log' & Hrun' & _ & Hother & _).
  unfold validate_config in Hrun. rewrite Hmerged in Hrun. unbind.
  rewrite Hrun in Hrun'. injection Hrun' as <- <-.
  destruct (typed_bool vc "email_alerts_enabled" Hvc) as [al Hal]; [in_schema |].
  destruct (typed_str vc "email_recipient" Hvc) as [rc Hrc]; [in_schema |].
  destruct (typed_bool vc "ollama_enabled" Hvc) as [ol Hol]; [in_schema |].
  destruct (typed_strs vc "self_heal_cpu_exclude_procs" Hvc) as [l Hl]; [in_schema |].
  exists vc, log, al, rc, ol, l.
  assert (Hval : validate_config oa f = Ok (vc, log))
    by (unfold validate_config; rewrite Hmerged; exact Hrun).
  split; [exact Hval |]. split; [exact Hvc |].
  split; [intros key Hkey; by rewrite (Hother key Hkey) |].
  repeat (split; [assumption |]).
  unfold _load_and_validate_config. rewrite Hval. unbind.
  cbn [fst]. by apply post_validate_eq.
Qed.

(** The configuration the agent runs with has the keys of the schema and no
    other: a key of the file that the schema does not know is dropped.  This
    holds whenever the file is merged into the defaults, as it is for a
    missing file, a load error and every JSON object. *)
Theorem loaded_config_keys (ollama_available : bool) (f : load_outcome)
    (config : gmap string pyval) :
  merged_config ollama_available f = Ok config ->
  exists c,
    _load_and_validate_config ollama_available f = Ok c /\
    forall key, is_Some (c !! key) <-> key ∈ CONFIG_SCHEMA.*1.
Proof.
  intros Hmerged.
  destruct (load_stages ollama_available f config Hmerged)
    as (vc & log & al & rc & ol & l & _ & Hvc & Hother & Hal & Hrc & Hol & Hl & ->).
  eexists. split; [reflexivity |]. intros key.
  assert (Hvckey : is_Some (vc !! key) <-> key ∈ CONFIG_SCHEMA.*1).
  { split.
    - intros Hsome. destruct (decide (key ∈ CONFIG_SCHEMA.*1)) as [| Hno]; [done |].
      rewrite (Hother key Hno) in Hsome. by destruct Hsome.
    - intros Hin. apply list_elem_of_fmap in Hin as ([k s] & -> & Hin).
      cbn [fst]. destruct (Hvc k s Hin) as (v & -> & _). by eexists. }
  destruct (decide (key = "self_heal_cpu_exclude_procs")) as [-> | H1].
  { rewrite lookup_insert_eq. split; [intros _; in_schema | by eexists]. }
  rewrite lookup_insert_ne by done.
  destruct (negb ollama_available && ol)%bool; cbn [id].
  - destruct (decide (key = "ollama_enabled")) as [-> | H2].
    { rewrite lookup_insert_eq. split; [intros _; in_schema | by eexists]. }
    rewrite lookup_insert_ne by done.
    destruct (al && String.eqb rc "")%bool; cbn [id]; [| exact Hvckey].
    destruct (decide (key = "email_alerts_enabled")) as [-> | H3].
    { rewrite lookup_insert_eq. split; [intros _; in_schema | by eexists]. }
    by rewrite lookup_insert_ne.
  - destruct (al && String.eqb rc "")%bool; cbn [id]; [| exact Hvckey].
    destruct (decide (key = "email_alerts_enabled")) as [-> | H3].
    { rewrite lookup_insert_eq. split; [intros _; in_schema | by eexists]. }
    by rewrite lookup_insert_ne.
Qed.

Lemma loaded_config_keys_witness :
  exists c,
    _load_and_validate_config true (Loaded {["colour" := VStr "red"]}) = Ok c /\
    forall key, is_Some (c !! key) <-> key ∈ CONFIG_SCHEMA.*1.
Proof.
  apply (loaded_config_keys true (Loaded {["colour" := VStr "red"]})
           ({["colour" := VStr "red"]} ∪ defaults true)).
  reflexivity.
Defined.

(** The post-validation adjustments leave no feature enabled that cannot
    work: in the loaded configuration e-mail alerts are enabled only with a
    recipient that is not empty, and the AI features only if the [ollama]
    library is available. *)
Theorem loaded_features_are_usable (ollama_available : bool) (f : load_outcome)
    (config : gmap string pyval) :
  merged_config ollama_available f = Ok config ->
  exists c alerts recipient ollama,
    _load_and_validate_config ollama_available f = Ok c /\
    c !! "email_alerts_enabled" = Some (VBool alerts) /\
    c !! "email_recipient" = Some (VStr recipient) /\
    c !! "ollama_enabled" = Some (VBool ollama) /\
    (alerts = true -> recipient <> "") /\
    (ollama = true -> ollama_available = true).
Proof.
  intros Hmerged.
  destruct (load_stages ollama_available f config Hmerged)
    as (vc & log & al & rc & ol & l & _ & _ & _ & Hal & Hrc & Hol & Hl & ->).
  eexists _, (al && negb (String.eqb rc ""))%bool, rc, (ollama_available && ol)%bool.
  split; [reflexivity |]. rewrite !lookup_insert_ne by done.
  split; [| split; [| split; [| split]]].
  - destruct (negb ollama_available && ol)%bool; cbn [id];
      rewrite ?lookup_insert_ne by done;
      destruct al, (String.eqb rc ""); cbn [andb negb id];
      rewrite ?lookup_insert_eq; done.
  - destruct (negb ollama_available && ol)%bool; cbn [id];
      rewrite ?lookup_insert_ne by done;
      destruct (al && String.eqb rc "")%bool; cbn [id];
      rewrite ?lookup_insert_ne by done; done.
  - destruct ollama_available, ol; cbn [negb andb id];
      rewrite ?lookup_insert_eq; try done;
      destruct (al && String.eqb rc "")%bool; cbn [id];
      rewrite ?lookup_insert_ne by done; done.
  - intros H. apply andb_true_iff in H as [_ H].
    intros ->. discriminate H.
  - intros H. by apply andb_true_iff in H as [? _].
Qed.

Lemma loaded_features_are_usable_witness :
  exists c alerts recipient ollama,
    _load_and_validate_config false
      (Loaded {["email_alerts_enabled" := VBool true; "ollama_enabled" := VBool true]})
      = Ok c /\
    c !! "email_alerts_enabled" = Some (VBool alerts) /\
    c !! "email_recipient" = Some (VStr recipient) /\
    c !! "ollama_enabled" = Some (VBool ollama) /\
    (alerts = true -> recipient <> "") /\
    (ollama = true -> false = true).
Proof.
  apply (loaded_features_are_usable false
           (Loaded {["email_alerts_enabled" := VBool true; "ollama_enabled" := VBool true]})
           ({["email_alerts_enabled" := VBool true; "ollama_enabled" := VBool true]}
              ∪ defaults false)).
  reflexivity.
Defined.

(** Loading returns a dict that the agent reads as a [config]. *)
Lemma load_typed oa f config :
  merged_config oa f = Ok config ->
  exists c cfg, _load_and_validate_config oa f = Ok c /\ well_typed c /\ config_of c = Some cfg.
Proof.
  intros Hmerged.
  destruct (validated_well_typed oa f config Hmerged) as (vc & log & Hrun & Hvc).
  destruct (post_validate_well_typed oa vc Hvc) as (c & Hpost & Hc).
  destruct (config_of_well_typed c Hc) as [cfg Hcfg].
  exists c, cfg. split; [| by split].
  unfold _load_and_validate_config. rewrite Hrun. unbind. exact Hpost.
Qed.

(** An exception of the merge is the exception of the loader. *)
Lemma load_raises oa f e :
  merged_config oa f = Raise e -> _load_and_validate_config oa f = Raise e.
Proof.
  intros Hmerged. unfold _load_and_validate_config, validate_config.
  rewrite Hmerged. reflexivity.
Qed.

(** The loader raises exactly when reading the file and merging it into the
    defaults raises, and with that exception: the validation loop and the
    post-validation adjustments never raise.  Reading and merging return for
    a missing file, for a load error that the loader catches and for every
    JSON object; they raise for a top-level value such as a number, and for an
    exception of the read that the [except] clause does not name.  Whenever
    the loader returns, every field of the schema is present with a value
    that conforms to its entry in the sense of [conforms] (the declared type,
    an integer being accepted for a real; the bounds for a finite number of
    the declared type itself, so not for an integer given for a real, nor for
    NaN; an enumerated string up to case; a list of strings), and the agent
    reads the result as a [config]. *)
Theorem loaded_config_is_typed (ollama_available : bool) (f : load_outcome) :
  (forall e, _load_and_validate_config ollama_available f = Raise e <->
             merged_config ollama_available f = Raise e) /\
  (forall c, _load_and_validate_config ollama_available f = Ok c ->
             well_typed c /\ is_Some (config_of c)) /\
  (f = FileMissing \/ f = LoadFailed \/ (exists loaded_config, f = Loaded loaded_config) ->
   is_Ok (_load_and_validate_config ollama_available f)) /\
  (forall z, f = LoadedOther (VInt z) ->
             _load_and_validate_config ollama_available f = Raise TypeError) /\
  (forall msg, f = LoadRaised msg ->
               _load_and_validate_config ollama_available f = Raise (OtherError msg)).
Proof.
  assert (Hcases : forall config, merged_config ollama_available f = Ok config ->
            exists c cfg, _load_and_validate_config ollama_available f = Ok c /\
                          well_typed c /\ config_of c = Some cfg)
    by (intros config; apply load_typed).
  split; [| split; [| split; [| split]]].
  - intros e. split; [| apply load_raises].
    destruct (merged_config ollama_available f) as [config | e'] eqn:Hmerged.
    + destruct (Hcases config eq_refl) as (c & cfg & Hc & _). rewrite Hc. discriminate.
    + rewrite (load_raises _ _ e' Hmerged). by intros [= ->].
  - intros c Hc.
    destruct (merged_config ollama_available f) as [config | e'] eqn:Hmerged.
    + destruct (Hcases config eq_refl) as (c' & cfg & Hc' & Htyped & Hcfg).
      rewrite Hc in Hc'. injection Hc' as <-. split; [exact Htyped | by eexists].
    + rewrite (load_raises _ _ e' Hmerged) in Hc. discriminate Hc.
  - intros Hf. destruct (merged_config_returns ollama_available f Hf) as [config Hmerged].
    destruct (load_typed ollama_available f config Hmerged) as (c & _ & Hc & _).
    by exists c.
  - intros z ->. by apply load_raises.
  - intros msg ->. by apply load_raises.
Qed.

Lemma lower_ascii_idemp c : lower_ascii (lower_ascii c) = lower_ascii c.
Proof. destruct c as [[] [] [] [] [] [] [] []]; reflexivity. Qed.

Lemma lower_idemp s : lower (lower s) = lower s.
Proof.
  induction s as [| c s IH]; [reflexivity |].
  cbn [lower]. by rewrite lower_ascii_idemp, IH.
Qed.

(** The fields of the typed configuration are the entries of the dict. *)
Lemma config_of_fields c cfg :
  config_of c = Some cfg ->
  get_num c "monitor_interval" = Some (monitor_interval cfg) /\
  get_strs c "self_heal_cpu_exclude_procs" = Some (self_heal_cpu_exclude_procs cfg) /\
  get_num c "self_heal_cpu_kill_limit" = Some (self_heal_cpu_kill_limit cfg).
Proof.
  unfold config_of. intros H.
  repeat match type of H with
         | (?m ≫= _) = Some _ =>
             let x := fresh "x" in
             destruct m as [x |] eqn:?; cbn [mbind option_bind] in H; [| discriminate H]
         end.
  injection H as <-. repeat split.
Qed.

(** The exclusion list the agent compares process names against is lower
    case: it is the validated list with every entry lower-cased, so each
    entry is its own lower-casing. *)
Theorem loaded_exclusions_are_lower_case (ollama_available : bool) (f : load_outcome)
    (config : gmap string pyval) :
  merged_config ollama_available f = Ok config ->
  exists vc log validated c cfg,
    validate_config ollama_available f = Ok (vc, log) /\
    vc !! "self_heal_cpu_exclude_procs" = Some (vstrs validated) /\
    _load_and_validate_config ollama_available f = Ok c /\
    config_of c = Some cfg /\
    self_heal_cpu_exclude_procs cfg = lower <$> validated /\
    Forall (fun entry => lower entry = entry) (self_heal_cpu_exclude_procs cfg).
Proof.
  intros Hmerged.
  destruct (load_stages ollama_available f config Hmerged)
    as (vc & log & al & rc & ol & l & Hrun & _ & _ & Hal & Hrc & Hol & Hl & Hload).
  destruct (load_typed ollama_available f config Hmerged) as (c & cfg & Hc & _ & Hcfg).
  exists vc, log, l, c, cfg.
  split; [exact Hrun |]. split; [exact Hl |]. split; [exact Hc |]. split; [exact Hcfg |].
  assert (Hex : self_heal_cpu_exclude_procs cfg = lower <$> l).
  { apply config_of_fields in Hcfg as (_ & Hcfg & _). rewrite Hload in Hc. injection Hc as <-.
    unfold get_strs in Hcfg. rewrite lookup_insert_eq in Hcfg.
    cbn [mbind option_bind] in Hcfg. unfold vstrs in Hcfg.
    rewrite strs_of_vstrs in Hcfg. by injection Hcfg as <-. }
  split; [exact Hex |]. rewrite Hex. apply Forall_fmap, Forall_forall.
  intros x _. cbn. apply lower_idemp.
Qed.

Lemma loaded_exclusions_are_lower_case_witness :
  exists vc log validated c cfg,
    validate_config true (Loaded {["self_heal_cpu_exclude_procs" := vstrs ["SSHD"]]})
      = Ok (vc, log) /\
    vc !! "self_heal_cpu_exclude_procs" = Some (vstrs validated) /\
    _load_and_validate_config true
      (Loaded {["self_heal_cpu_exclude_procs" := vstrs ["SSHD"]]}) = Ok c /\
    config_of c = Some cfg /\
    self_heal_cpu_exclude_procs cfg = lower <$> validated /\
    Forall (fun entry => lower entry = entry) (self_heal_cpu_exclude_procs cfg).
Proof.
  apply (loaded_exclusions_are_lower_case true
           (Loaded {["self_heal_cpu_exclude_procs" := vstrs ["SSHD"]]})
           ({["self_heal_cpu_exclude_procs" := vstrs ["SSHD"]]} ∪ defaults true)).
  reflexivity.
Defined.

(** Every warning of the loop comes from the check of one schema field. *)
Lemma validate_fields_log dflt config schema :
  forall validated log vc log',
    validate_fields dflt config schema validated log = Ok (vc, log') ->
    forall w, w ∈ log' <->
      w ∈ log \/
      exists key s r, (key, s) ∈ schema /\
        validate_field dflt config key s = Ok r /\ w ∈ r.2.
Proof.
  induction schema as [| [k sk] rest IH]; intros validated log vc log' H w.
  - injection H as <- <-. split; [by left |].
    intros [Hw | (key & s & r & Hin & _)]; [done | by apply elem_of_nil in Hin].
  - cbn [validate_fields] in H. unbind.
    destruct (validate_field dflt config k sk) as [r |] eqn:Hr; [| discriminate H].
    rewrite (IH _ _ _ _ H w). rewrite elem_of_app. split.
    + intros [[Hw | Hw] | (key & s & r' & Hin & Hr' & Hw)].
      * by left.
      * right. exists k, sk, r. split; [apply list_elem_of_here | by split].
      * right. exists key, s, r'. split; [by apply list_elem_of_further | by split].
    + intros [Hw | (key & s & r' & Hin & Hr' & Hw)]; [left; by left |].
      apply elem_of_cons in Hin as [Heq | Hin].
      * injection Heq as -> ->. rewrite Hr in Hr'. injection Hr' as <-.
        left. by right.
      * right. by exists key, s, r'.
Qed.

(** The warnings of one field: none for a value that passes, one otherwise. *)
Lemma validate_field_log dflt config key s r w :
  validate_field dflt config key s = Ok r ->
  w ∈ r.2 <->
  exists why, check_field s (examined dflt config key) = Ok (Some why) /\
              w = (key, examined dflt config key, why).
Proof.
  unfold validate_field. intros H.
  destruct (check_field s (examined dflt config key)) as [[why |] |]; unbind;
    [| | discriminate H]; injection H as <-; cbn [snd].
  - rewrite list_elem_of_singleton. split.
    + intros ->. by exists why.
    + intros (why' & Heq & ->). by injection Heq as <-.
  - split; [intros Hw; by apply elem_of_nil in Hw | intros (why & Heq & _); discriminate Heq].
Qed.

(** A logged warning names a schema field and the reason its examined value
    failed. *)
Lemma logged_warning oa f config key value why :
  merged_config oa f = Ok config ->
  (key, value, why) ∈ validation_log oa f ->
  exists s, (key, s) ∈ CONFIG_SCHEMA /\
    value = examined (defaults oa) config key /\
    check_field s value = Ok (Some why).
Proof.
  intros Hmerged.
  destruct (validated_well_typed oa f config Hmerged) as (vc & log & Hrun & _).
  unfold validation_log. rewrite Hrun. cbn [snd].
  unfold validate_config in Hrun. rewrite Hmerged in Hrun. unbind.
  rewrite (validate_fields_log _ _ _ _ _ _ _ Hrun).
  intros [Hw | (k & s & r & Hin & Hr & Hw)]; [by apply elem_of_nil in Hw |].
  apply (validate_field_log _ _ _ _ _ _ Hr) in Hw as (why' & Hc & Heq).
  injection Heq as -> -> ->. by exists s.
Qed.

(** The warnings logged during validation are exactly the rejections: a
    warning names a key, the value examined for it and a reason if and only
    if the key is a schema field whose examined value fails the checks of the
    field with that reason.  The examined value is read from the merged
    configuration, which exists whenever the loader reaches the loop. *)
Theorem validation_log_exact (ollama_available : bool) (f : load_outcome)
    (config : gmap string pyval) (key : string) (value : pyval) (why : reason) :
  merged_config ollama_available f = Ok config ->
  (key, value, why) ∈ validation_log ollama_available f <->
  exists s, (key, s) ∈ CONFIG_SCHEMA /\
    value = examined (defaults ollama_available) config key /\
    check_field s value = Ok (Some why).
Proof.
  intros Hmerged. split; [by apply logged_warning |].
  intros (s & Hin & -> & Hc).
  destruct (validated_well_typed ollama_available f config Hmerged) as (vc & log & Hrun & _).
  unfold validation_log. rewrite Hrun. cbn [snd].
  unfold validate_config in Hrun. rewrite Hmerged in Hrun. unbind.
  rewrite (validate_fields_log _ _ _ _ _ _ _ Hrun). right.
  assert (Hwf : schema_wf s = true).
  { pose proof CONFIG_SCHEMA_wf as Hall. rewrite Forall_forall in Hall.
    exact (Hall (key, s) Hin). }
  destruct (validate_field_total (defaults ollama_available) config key s Hwf) as [r Hr].
  exists key, s, r. split; [exact Hin |]. split; [exact Hr |].
  apply (validate_field_log _ _ _ _ _ _ Hr). by exists why.
Qed.

Lemma validation_log_exact_witness :
  (("cpu_threshold", vfloat 500, GreaterThanMax) : warning)
    ∈ validation_log true (Loaded {["cpu_threshold" := vfloat 500]}) <->
  exists s, ("cpu_threshold", s) ∈ CONFIG_SCHEMA /\
    vfloat 500 = examined (defaults true)
                   ({["cpu_threshold" := vfloat 500]} ∪ defaults true) "cpu_threshold" /\
    check_field s (vfloat 500) = Ok (Some GreaterThanMax).
Proof.
  apply (validation_log_exact true (Loaded {["cpu_threshold" := vfloat 500]})
           ({["cpu_threshold" := vfloat 500]} ∪ defaults true)
           "cpu_threshold" (vfloat 500) GreaterThanMax).
  reflexivity.
Defined.

(** The default of a schema field, and that it passes the checks. *)
Lemma default_passes oa key s :
  (key, s) ∈ CONFIG_SCHEMA ->
  exists d, defaults oa !! key = Some d /\ d <> VNone /\ check_field s d = Ok None.
Proof.
  intros Hin. pose proof (defaults_ok oa (key, s) Hin) as Hd.
  unfold default_ok in Hd. cbn [fst snd] in Hd.
  destruct (defaults oa !! key) as [d |] eqn:Hdk; [| discriminate Hd].
  destruct (check_field s d) as [[why |] |] eqn:Hc; try discriminate Hd.
  exists d. split; [reflexivity |]. split; [| exact Hc].
  intros ->. discriminate Hd.
Qed.

(** A schema key with no value in the file, or with the value [null], takes
    its default, and nothing is logged about it. *)
Theorem null_setting_takes_default (ollama_available : bool)
    (loaded_config : gmap string pyval) (key : string) (s : field_schema) :
  (key, s) ∈ CONFIG_SCHEMA ->
  dict_get loaded_config key = VNone ->
  validated_value ollama_available (Loaded loaded_config) key
    = defaults ollama_available !! key /\
  forall value why,
    (key, value, why) ∉ validation_log ollama_available (Loaded loaded_config).
Proof.
  intros Hin Hnull.
  destruct (default_passes ollama_available key s Hin) as (d & Hd & Hdn & Hcheck).
  assert (Hex : examined (defaults ollama_available)
                  (loaded_config ∪ defaults ollama_available) key = d).
  { unfold examined, dict_get in *. rewrite lookup_union.
    rewrite Hd. destruct (loaded_config !! key) as [v |]; cbn in *.
    - subst v. reflexivity.
    - by destruct d. }
  split.
  - destruct (validate_config_field ollama_available (Loaded loaded_config)
                (loaded_config ∪ defaults ollama_available) key s eq_refl Hin)
      as (vc & log & Hrun & v & Hv & _ & Hkeep & _).
    unfold validated_value. rewrite Hrun. cbn [fst]. rewrite Hv, Hd.
    cbn zeta in Hkeep. rewrite Hex in Hkeep. by rewrite (Hkeep Hcheck).
  - intros value why Hw.
    apply (logged_warning _ _ (loaded_config ∪ defaults ollama_available)) in Hw
      as (s' & Hin' & -> & Hc); [| reflexivity].
    rewrite Hex in Hc. rewrite (schema_functional _ _ _ Hin' Hin) in Hc. congruence.
Qed.

Lemma null_setting_takes_default_witness :
  validated_value true (Loaded {["cpu_threshold" := VNone]}) "cpu_threshold"
    = defaults true !! "cpu_threshold" /\
  forall value why,
    (("cpu_threshold", value, why) : warning)
      ∉ validation_log true (Loaded {["cpu_threshold" := VNone]}).
Proof.
  apply (null_setting_takes_default true {["cpu_threshold" := VNone]}
           "cpu_threshold" (sch_rng TFloat 0 100)); [in_schema | reflexivity].
Defined.

(** A value of the file that passes the checks of its field reaches the
    configuration the agent runs with unchanged, for every field that the
    post-validation adjustments do not touch. *)
Theorem valid_setting_is_kept (ollama_available : bool)
    (loaded_config : gmap string pyval) (key : string) (s : field_schema)
    (value : pyval) :
  (key, s) ∈ CONFIG_SCHEMA ->
  loaded_config !! key = Some value ->
  value <> VNone ->
  check_field s value = Ok None ->
  key <> "email_alerts_enabled" ->
  key <> "ollama_enabled" ->
  key <> "self_heal_cpu_exclude_procs" ->
  exists c,
    _load_and_validate_config ollama_available (Loaded loaded_config) = Ok c /\
    c !! key = Some value.
Proof.
  intros Hin Hfile Hnn Hcheck H1 H2 H3.
  destruct (load_stages ollama_available (Loaded loaded_config)
              (loaded_config ∪ defaults ollama_available) eq_refl)
    as (vc & log & al & rc & ol & l & Hrun & _ & _ & _ & _ & _ & _ & ->).
  eexists. split; [reflexivity |].
  assert (Hvc : vc !! key = Some value).
  { destruct (validate_config_field ollama_available (Loaded loaded_config)
                (loaded_config ∪ defaults ollama_available) key s eq_refl Hin)
      as (vc' & log' & Hrun' & v & Hv & _ & Hkeep & _).
    rewrite Hrun in Hrun'. injection Hrun' as <- <-.
    assert (Hex : examined (defaults ollama_available)
                    (loaded_config ∪ defaults ollama_available) key = value).
    { unfold examined, dict_get. rewrite lookup_union, Hfile.
      destruct (defaults ollama_available !! key); cbn; by destruct value. }
    cbn zeta in Hkeep. rewrite Hex in Hkeep. by rewrite Hv, (Hkeep Hcheck). }
  rewrite lookup_insert_ne by done.
  destruct (negb ollama_available && ol)%bool, (al && String.eqb rc "")%bool; cbn [id];
    rewrite ?lookup_insert_ne by done; exact Hvc.
Qed.

Lemma valid_setting_is_kept_witness :
  exists c,
    _load_and_validate_config true (Loaded {["monitor_interval" := VInt 15]}) = Ok c /\
    c !! "monitor_interval" = Some (VInt 15).
Proof.
  apply (valid_setting_is_kept true {["monitor_interval" := VInt 15]}
           "monitor_interval" (sch_min TInt 10) (VInt 15));
    [in_schema | reflexivity | discriminate | reflexivity
     | discriminate | discriminate | discriminate].
Defined.

(** Whenever the file is merged into the defaults, the monitoring interval
    the agent runs with is an integer of at least 10 seconds.  If it is below
    [2 ** 53], so that its conversion to a double is exact, the sleep computed
    at the end of a turn that took a non-negative time lasts at least one
    second and at most the interval. *)
Theorem loaded_interval_bounds_sleep (ollama_available : bool) (f : load_outcome)
    (config : gmap string pyval) (cycle_duration : Q) :
  merged_config ollama_available f = Ok config ->
  (0 <= cycle_duration)%Q ->
  exists c cfg interval,
    _load_and_validate_config ollama_available f = Ok c /\
    config_of c = Some cfg /\
    monitor_interval cfg = NInt interval /\ 10 <= interval /\
    (interval < 2 ^ 53 ->
     exists sleep_duration,
       end_of_cycle_sleep cfg (FFin cycle_duration) = Ok (FFin sleep_duration) /\
       (1 <= sleep_duration)%Q /\ (sleep_duration <= inject_Z interval)%Q).
Proof.
  intros Hmerged H0.
  destruct (load_typed ollama_available f config Hmerged) as (c & cfg & Hc & Htyped & Hcfg).
  destruct (Htyped "monitor_interval" (sch_min TInt 10)) as (v & Hv & Hty & Hbound & _);
    [in_schema |].
  assert (Hint : exists z, v = VInt z /\ 10 <= z).
  { destruct Hty as [Hty | [Hf _]]; [| discriminate Hf].
    cbn [f_type sch_min] in *. inversion Hty; subst.
    - destruct (Hbound Hty (inject_Z z) eq_refl) as [Hmin _].
      exists z. split; [reflexivity |].
      specialize (Hmin 10 eq_refl). unfold Qle in Hmin. cbn in Hmin. lia.
    - destruct (Hbound Hty (inject_Z (Z.b2z b)) eq_refl) as [Hmin _].
      specialize (Hmin 10 eq_refl). unfold Qle in Hmin. destruct b; cbn in Hmin; lia. }
  destruct Hint as (z & -> & Hz).
  assert (Hmi : monitor_interval cfg = NInt z).
  { apply config_of_fields in Hcfg as (Hget & _). unfold get_num in Hget.
    rewrite Hv in Hget. cbn in Hget. by injection Hget as <-. }
  exists c, cfg, z. split; [exact Hc |]. split; [exact Hcfg |].
  split; [exact Hmi |]. split; [exact Hz |].
  intros Hsmall. apply end_of_cycle_sleep_bound; [exact Hmi | lia | exact H0].
Qed.

Lemma loaded_interval_bounds_sleep_witness :
  exists c cfg interval,
    _load_and_validate_config true (Loaded {["monitor_interval" := VInt 3]}) = Ok c /\
    config_of c = Some cfg /\
    monitor_interval cfg = NInt interval /\ 10 <= interval /\
    (interval < 2 ^ 53 ->
     exists sleep_duration,
       end_of_cycle_sleep cfg (FFin 2) = Ok (FFin sleep_duration) /\
       (1 <= sleep_duration)%Q /\ (sleep_duration <= inject_Z interval)%Q).
Proof.
  apply (loaded_interval_bounds_sleep true (Loaded {["monitor_interval" := VInt 3]})
           ({["monitor_interval" := VInt 3]} ∪ defaults true) 2).
  - reflexivity.
  - unfold Qle. simpl. lia.
Defined.

(** ** Severity of a health result *)

Lemma sev_rank_cases s :
  (sev_rank s = 0 /\ s <> "WARNING" /\ s <> "CRITICAL" /\ s <> "ERROR") \/
  (sev_rank s = 1 /\ s = "WARNING") \/
  (sev_rank s = 2 /\ s = "CRITICAL") \/
  (sev_rank s = 3 /\ s = "ERROR").
Proof.
  destruct (decide (s = "WARNING")) as [-> | Hw]; [right; left; by split |].
  destruct (decide (s = "CRITICAL")) as [-> | Hc]; [right; right; left; by split |].
  destruct (decide (s = "ERROR")) as [-> | He]; [right; right; right; by split |].
  left. split; [| done].
  destruct (decide (s = "NOMINAL")) as [-> | Hn]; [reflexivity |].
  unfold sev_rank, sev_map. cbn [list_to_map foldr uncurry].
  by rewrite !lookup_insert_ne, lookup_empty by done.
Qed.

Lemma sev_rank_nonneg s : 0 <= sev_rank s.
Proof. destruct (sev_rank_cases s) as [[-> _] | [[-> _] | [[-> _] | [-> _]]]]; lia. Qed.

(** A severity that is not one of WARNING, CRITICAL and ERROR (NOMINAL, a
    lower-case spelling, any other text) ranks 0: the issue is appended and
    the status stays as it was. *)
Theorem unranked_severity_keeps_status (h : health) (type : string) (val : pyval)
    (desc : list fpart) (sev : string) :
  sev <> "WARNING" -> sev <> "CRITICAL" -> sev <> "ERROR" ->
  _add_issue h type val desc sev
    = mk_health (status h) (issues h ++ [mk_issue type (Some val) desc]).
Proof.
  intros Hw Hc He. unfold _add_issue.
  destruct (sev_rank_cases sev) as [[Hr _] | [[_ ?] | [[_ ?] | [_ ?]]]]; try done.
  rewrite Hr. pose proof (sev_rank_nonneg (status h)) as Hn.
  destruct (0 >? sev_rank (status h)) eqn:Hgt; [| reflexivity].
  apply Z.gtb_lt in Hgt. lia.
Qed.

Lemma unranked_severity_keeps_status_witness :
  _add_issue (mk_health "WARNING" []) "HIGH_CPU" (VInt 99) [] "critical"
    = mk_health (status (mk_health "WARNING" []))
        (issues (mk_health "WARNING" []) ++ [mk_issue "HIGH_CPU" (Some (VInt 99)) []]).
Proof.
  apply (unranked_severity_keeps_status (mk_health "WARNING" []) "HIGH_CPU" (VInt 99) []
           "critical"); discriminate.
Defined.

Lemma foldr_max_start x y ranks :
  foldr Z.max (Z.max x y) ranks = Z.max y (foldr Z.max x ranks).
Proof. induction ranks as [| r ranks IH]; cbn [foldr]; [lia | rewrite IH; lia]. Qed.

(** After any series of appended issues the rank of the status is the
    largest of the rank it started from and the ranks of the severities
    given, whatever their order, and the issues are the old ones followed by
    the new ones in the order given. *)
Theorem add_issues_rank (h : health) (l : list issue_args) :
  sev_rank (status (add_issues h l))
    = foldr Z.max (sev_rank (status h)) ((fun a => sev_rank a.2) <$> l) /\
  issues (add_issues h l)
    = (issues h ++ ((fun a => mk_issue a.1.1.1 (Some a.1.1.2) a.1.2) <$> l))%list.
Proof.
  revert h. induction l as [| a l IH]; intros h.
  - cbn. by rewrite app_nil_r.
  - cbn [add_issues foldl]. fold (add_issues (_add_issue h a.1.1.1 a.1.1.2 a.1.2 a.2) l).
    destruct (IH (_add_issue h a.1.1.1 a.1.1.2 a.1.2 a.2)) as [Hr Hi].
    rewrite Hr, Hi, add_issue_rank, add_issue_issues, !fmap_cons. cbn [foldr].
    split; [| by rewrite <- app_assoc].
    apply foldr_max_start.
Qed.

(** ** Domain checks on the data the collector builds *)

Section checks_on_data.
Context (net : probes) (cfg : config).

(** A check reports ERROR exactly when it is handed no data: a falsy value
    (nothing, or an empty dict) for cpu, memory, disk and processes; nothing
    at all for network and temperature, which accept an empty dict. *)
Theorem check_error_iff_missing (key : string) (func : pyval -> result health)
    (s : pyval) (h : health) :
  (key, func) ∈ diag_funcs net cfg ->
  func s = Ok h ->
  (status h = "ERROR" <->
   if str_in key ["network"; "temperature"] then s = VNone else truthy s = false).
Proof.
  intros Hin Hrun. unfold diag_funcs in Hin.
  repeat (apply elem_of_cons in Hin as [Hin | Hin]; [injection Hin as -> -> |]);
    [.. | by apply elem_of_nil in Hin]; cbn [str_in existsb String.eqb Ascii.eqb Bool.eqb orb].
  - apply diagnose_cpu_status in Hrun. destruct (truthy s).
    + split; [intros He; by apply below_error_not_error in Hrun | discriminate].
    + by subst h.
  - apply diagnose_memory_status in Hrun. destruct (truthy s).
    + split; [intros He; by apply below_error_not_error in Hrun | discriminate].
    + by subst h.
  - apply diagnose_disk_status in Hrun. destruct (truthy s).
    + split; [intros He; by apply below_error_not_error in Hrun | discriminate].
    + by subst h.
  - apply diagnose_processes_status in Hrun. destruct (truthy s).
    + split; [intros He; by apply below_error_not_error in Hrun | discriminate].
    + by subst h.
  - apply diagnose_network_status in Hrun.
    destruct s; try (split; [intros He; by apply below_error_not_error in Hrun | discriminate]).
    by subst h.
  - apply diagnose_temperature_status in Hrun.
    destruct s; try (split; [intros He; by apply below_error_not_error in Hrun | discriminate]).
    by subst h.
Qed.

(** On the cpu entry of a snapshot the cpu check returns: CRITICAL with a
    HIGH_CPU issue if the utilisation is above [cpu_threshold]; otherwise
    WARNING if the one-minute load is above 1.5 times a known, non-zero
    number of logical cores; otherwise NOMINAL.  A HIGH_LOAD issue is
    recorded in the overloaded case whatever the utilisation. *)
Theorem cpu_check_on_collected (percent : Q) (cd : cpu_details) :
  let high := num_gt (NFloat (FFin percent)) (cpu_threshold cfg) in
  let overloaded :=
    match cd_cores_logical cd with
    | Some c => (negb (c =? 0) && Qlt_bool (inject_Z c * (3 # 2)) (cd_loadavg cd).1.1)%bool
    | None => false
    end in
  exists h,
    _diagnose_cpu cfg (VDict (cpu_dict percent cd)) = Ok h /\
    status h = (if high then "CRITICAL" else if overloaded then "WARNING" else "NOMINAL") /\
    i_type <$> issues h
      = ((if high then ["HIGH_CPU"] else []) ++ (if overloaded then ["HIGH_LOAD"] else []))%list.
Proof.
  intros high overloaded. unfold _diagnose_cpu.
  change (truthy (VDict (cpu_dict percent cd))) with true. cbn [negb].
  change (py_get (VDict (cpu_dict percent cd)) "percent" (VInt 0)) with (Ok (vfloat percent)).
  change (py_item (VDict (cpu_dict percent cd)) "percent") with (Ok (vfloat percent)).
  change (py_get (VDict (cpu_dict percent cd)) "cores_logical" VNone)
    with (Ok (vopt_int (cd_cores_logical cd))).
  change (py_get (VDict (cpu_dict percent cd)) "load_avg_1m_5m_15m" (VList [VInt 0]))
    with (Ok (VList [vfloat (cd_loadavg cd).1.1; vfloat (cd_loadavg cd).1.2;
                     vfloat (cd_loadavg cd).2])).
  unbind. cbn [py_gt_num to_num vfloat py_index0].
  fold high. subst overloaded.
  destruct (cd_cores_logical cd) as [c |]; cbn [vopt_int truthy].
  - destruct (c =? 0); cbn [negb andb]; unbind.
    + destruct high; eexists; repeat split; reflexivity.
    + cbn [py_mul_float to_num num_float float_mul py_gt_num num_gt num_lt float_lt as_number].
      unbind. destruct high, (Qlt_bool _ _); eexists; repeat split; reflexivity.
  - destruct high; eexists; repeat split; reflexivity.
Qed.

(** On the memory, disk and processes entries of a snapshot the three
    checks return.  The memory check reports CRITICAL if the virtual memory
    in use is above [memory_threshold], otherwise WARNING if the swap in use
    is above [swap_threshold]; the disk check reports CRITICAL when the usage
    of [/] is above [disk_threshold]; the process check reports WARNING when
    the zombie count is above [zombie_threshold]; each reports NOMINAL
    otherwise. *)
Theorem data_checks_on_collected (m : mem_reading) (d : disk_reading) (total zombie : Z) :
  let high := num_gt (NFloat (FFin (mem_percent m))) (memory_threshold cfg) in
  let swapping := num_gt (NFloat (FFin (swap_percent m))) (swap_threshold cfg) in
  let full := num_gt (NFloat (FFin (disk_percent d))) (disk_threshold cfg) in
  let many := num_gt (NInt zombie) (zombie_threshold cfg) in
  (exists h,
     _diagnose_memory cfg (VDict (memory_dict m)) = Ok h /\
     status h = (if high then "CRITICAL" else if swapping then "WARNING" else "NOMINAL") /\
     i_type <$> issues h
       = ((if high then ["HIGH_MEM"] else []) ++ (if swapping then ["HIGH_SWAP"] else []))%list) /\
  (exists h,
     _diagnose_disk cfg (VDict (disk_dict d)) = Ok h /\
     status h = (if full then "CRITICAL" else "NOMINAL") /\
     i_type <$> issues h = (if full then ["LOW_DISK"] else [])) /\
  (exists h,
     _diagnose_processes cfg (processes_dict total zombie) = Ok h /\
     status h = (if many then "WARNING" else "NOMINAL") /\
     i_type <$> issues h = (if many then ["ZOMBIES"] else [])).
Proof.
  intros high swapping full many. split; [| split].
  - unfold _diagnose_memory.
    change (truthy (VDict (memory_dict m))) with true. cbn [negb].
    change (py_get (VDict (memory_dict m)) "virtual_percent" (VInt 0))
      with (Ok (vfloat (mem_percent m))).
    change (py_item (VDict (memory_dict m)) "virtual_percent")
      with (Ok (vfloat (mem_percent m))).
    change (py_get (VDict (memory_dict m)) "swap_percent" (VInt 0))
      with (Ok (vfloat (swap_percent m))).
    change (py_item (VDict (memory_dict m)) "swap_percent")
      with (Ok (vfloat (swap_percent m))).
    unbind. cbn [py_gt_num to_num vfloat]. fold high swapping.
    destruct high, swapping; eexists; repeat split; reflexivity.
  - unfold _diagnose_disk.
    change (truthy (VDict (disk_dict d))) with true. cbn [negb].
    change (py_get (VDict (disk_dict d)) "percent" (VInt 0)) with (Ok (vfloat (disk_percent d))).
    change (py_item (VDict (disk_dict d)) "percent") with (Ok (vfloat (disk_percent d))).
    change (py_get (VDict (disk_dict d)) "path" (VStr "?")) with (Ok (VStr "/")).
    unbind. cbn [py_gt_num to_num vfloat]. fold full.
    destruct full; eexists; repeat split; reflexivity.
  - unfold _diagnose_processes.
    change (truthy (processes_dict total zombie)) with true. cbn [negb].
    change (py_get (processes_dict total zombie) "zombie" (VInt 0)) with (Ok (VInt zombie)).
    change (py_item (processes_dict total zombie) "zombie") with (Ok (VInt zombie)).
    unbind. cbn [py_gt_num to_num]. fold many.
    destruct many; eexists; repeat split; reflexivity.
Qed.

End checks_on_data.

Lemma check_error_iff_missing_witness :
  status (mk_health "ERROR" [mk_issue "MISSING" (Some (VInt 0)) [FLit "Disk data"]]) = "ERROR"
  <-> (if str_in "disk" ["network"; "temperature"]
       then VDict ∅ = VNone else truthy (VDict ∅) = false).
Proof.
  apply (check_error_iff_missing quiet_host default_config "disk"
           (_diagnose_disk default_config) (VDict ∅)); [| reflexivity].
  apply list_elem_of_In. simpl. tauto.
Defined.

(** ** The verdict of the diagnostic engine *)

(** The loop leaves alone the entries of the domains it does not run. *)
Lemma diagnose_loop_untouched state funcs :
  forall d b k, k ∉ funcs.*1 ->
    checks (diagnose_loop state funcs d b).1 !! k = checks d !! k.
Proof.
  induction funcs as [| [key func] rest IH]; intros d b k Hk; [reflexivity |].
  rewrite fmap_cons in Hk. apply not_elem_of_cons in Hk as [Hne Hk]. cbn [fst] in Hne.
  cbn [diagnose_loop].
  destruct (func (dict_get state key)) as [h | e].
  - destruct (String.eqb (status h) "ERROR");
      [cbn [fst checks]; by apply lookup_insert_ne |].
    destruct (String.eqb (status h) "CRITICAL");
      [rewrite IH by done; cbn [checks]; by apply lookup_insert_ne |].
    destruct (_ && _)%bool; rewrite IH by done; cbn [checks]; by apply lookup_insert_ne.
  - rewrite IH by done. cbn [checks]. by apply lookup_insert_ne.
Qed.

(** The [issues] flag and the overall status move together. *)
Lemma diagnose_loop_flag state funcs :
  forall d b,
    level (overall_status d) ->
    (b = true <-> overall_status d <> "NOMINAL") ->
    level (overall_status (diagnose_loop state funcs d b).1) /\
    ((diagnose_loop state funcs d b).2 = true
     <-> overall_status (diagnose_loop state funcs d b).1 <> "NOMINAL").
Proof.
  induction funcs as [| [key func] rest IH]; intros d b Hl Hb; [by split |].
  cbn [diagnose_loop].
  destruct (func (dict_get state key)) as [h | e].
  - destruct (String.eqb (status h) "ERROR").
    { cbn [fst snd overall_status]. split; [unfold level; tauto | by split]. }
    destruct (String.eqb (status h) "CRITICAL").
    { apply IH; cbn [overall_status]; [unfold level; tauto | by split]. }
    destruct (_ && _)%bool.
    { apply IH; cbn [overall_status]; [unfold level; tauto | by split]. }
    by apply IH.
  - apply IH; cbn [overall_status]; [unfold level; tauto | by split].
Qed.

(** The diagnosis raises its [issues] flag, which logs the details and
    calls the alerting, exactly when the overall status is not NOMINAL; the
    overall status is always one of the four severity names. *)
Theorem issues_flag_iff_not_nominal (net : probes) (cfg : config)
    (state : gmap string pyval) :
  level (overall_status (diagnose_system net cfg state).1) /\
  ((diagnose_system net cfg state).2 = true
   <-> overall_status (diagnose_system net cfg state).1 <> "NOMINAL").
Proof.
  unfold diagnose_system. apply diagnose_loop_flag; cbn [overall_status].
  - by left.
  - split; [discriminate | done].
Qed.

(** Once the overall status has left NOMINAL it does not come back. *)
Lemma diagnose_loop_nominal_start state funcs :
  forall d b,
    overall_status (diagnose_loop state funcs d b).1 = "NOMINAL" ->
    overall_status d = "NOMINAL".
Proof.
  induction funcs as [| [key func] rest IH]; intros d b H; [exact H |].
  cbn [diagnose_loop] in H.
  destruct (func (dict_get state key)) as [h | e].
  - destruct (String.eqb (status h) "ERROR"); [discriminate H |].
    destruct (String.eqb (status h) "CRITICAL"); [by apply IH in H |].
    destruct (_ && _)%bool; [by apply IH in H |].
    by apply IH in H.
  - by apply IH in H.
Qed.

Lemma diagnose_loop_nominal_entries state funcs :
  Forall (fun e => forall h, e.2 (dict_get state e.1) = Ok h -> level (status h)) funcs ->
  forall d b,
    overall_status (diagnose_loop state funcs d b).1 = "NOMINAL" ->
    forall k,
      (exists h, checks d !! k = Some h /\ status h = "NOMINAL") \/ k ∈ funcs.*1 ->
      exists h, checks (diagnose_loop state funcs d b).1 !! k = Some h /\
                status h = "NOMINAL".
Proof.
  induction 1 as [| [key func] rest Hhead Hrest IH]; intros d b H k Hk.
  - destruct Hk as [Hk | Hk]; [exact Hk | by apply elem_of_nil in Hk].
  - cbn [fst snd] in Hhead.
    pose proof (diagnose_loop_nominal_start _ _ _ _ H) as Hd.
    cbn [diagnose_loop] in H |- *.
    destruct (func (dict_get state key)) as [h | e] eqn:Hf.
    + specialize (Hhead h eq_refl).
      destruct (String.eqb (status h) "ERROR") eqn:He; [discriminate H |].
      destruct (String.eqb (status h) "CRITICAL") eqn:Hc.
      { apply diagnose_loop_nominal_start in H. discriminate H. }
      destruct (String.eqb (status h) "WARNING" && String.eqb (overall_status d) "NOMINAL")%bool
        eqn:Hw.
      { apply diagnose_loop_nominal_start in H. discriminate H. }
      assert (Hnom : status h = "NOMINAL").
      { rewrite Hd in Hw. cbn [String.eqb Ascii.eqb Bool.eqb andb] in Hw.
        rewrite andb_true_r in Hw.
        destruct Hhead as [Hs | [Hs | [Hs | Hs]]]; [exact Hs | ..];
          rewrite Hs in *; discriminate. }
      apply (IH _ _ H). cbn [checks].
      destruct (decide (k = key)) as [-> | Hne].
      * left. exists h. by rewrite lookup_insert_eq.
      * destruct Hk as [(h' & Hh' & Hs') | Hk].
        -- left. exists h'. by rewrite lookup_insert_ne.
        -- right. rewrite fmap_cons in Hk. apply elem_of_cons in Hk as [Hk | Hk]; done.
    + apply diagnose_loop_nominal_start in H. discriminate H.
Qed.

Lemma diagnose_loop_all_nominal state funcs :
  NoDup funcs.*1 ->
  forall d b,
    overall_status d = "NOMINAL" ->
    (forall k, k ∈ funcs.*1 ->
       exists h, checks (diagnose_loop state funcs d b).1 !! k = Some h /\
                 status h = "NOMINAL") ->
    overall_status (diagnose_loop state funcs d b).1 = "NOMINAL".
Proof.
  induction funcs as [| [key func] rest IH]; intros Hnd d b Hd Hall; [exact Hd |].
  rewrite fmap_cons in Hnd. apply NoDup_cons in Hnd as [Hfresh Hnd]. cbn [fst] in Hfresh.
  destruct (Hall key) as (h0 & Hlook & Hs0); [rewrite fmap_cons; apply list_elem_of_here |].
  assert (Hrest : forall k, k ∈ rest.*1 ->
            exists h, checks (diagnose_loop state ((key, func) :: rest) d b).1 !! k = Some h /\
                      status h = "NOMINAL").
  { intros k Hk. apply Hall. rewrite fmap_cons. by apply list_elem_of_further. }
  cbn [diagnose_loop] in Hlook, Hrest |- *.
  destruct (func (dict_get state key)) as [h | e].
  - destruct (String.eqb (status h) "ERROR") eqn:He.
    { cbn [fst checks] in Hlook. rewrite lookup_insert_eq in Hlook. injection Hlook as ->.
      rewrite Hs0 in He. discriminate He. }
    destruct (String.eqb (status h) "CRITICAL") eqn:Hc.
    { rewrite diagnose_loop_untouched in Hlook by done. cbn [checks] in Hlook.
      rewrite lookup_insert_eq in Hlook. injection Hlook as ->.
      rewrite Hs0 in Hc. discriminate Hc. }
    destruct (String.eqb (status h) "WARNING" && String.eqb (overall_status d) "NOMINAL")%bool
      eqn:Hw.
    { rewrite diagnose_loop_untouched in Hlook by done. cbn [checks] in Hlook.
      rewrite lookup_insert_eq in Hlook. injection Hlook as ->.
      rewrite Hs0 in Hw. discriminate Hw. }
    apply IH; [exact Hnd | exact Hd | exact Hrest].
  - rewrite diagnose_loop_untouched in Hlook by done. cbn [checks] in Hlook.
    rewrite lookup_insert_eq in Hlook. injection Hlook as <-. discriminate Hs0.
Qed.

Lemma domains_NoDup : NoDup domains.
Proof. apply (bool_decide_unpack _). vm_compute. reflexivity. Qed.

(** The overall status is NOMINAL exactly when all six domains were
    evaluated and each was recorded NOMINAL. *)
Theorem nominal_iff_all_domains_nominal (net : probes) (cfg : config)
    (state : gmap string pyval) :
  overall_status (diagnose_system net cfg state).1 = "NOMINAL" <->
  forall key, key ∈ domains ->
    exists h, checks (diagnose_system net cfg state).1 !! key = Some h /\
              status h = "NOMINAL".
Proof.
  unfold diagnose_system. split.
  - intros H key Hkey.
    apply (diagnose_loop_nominal_entries state (diag_funcs net cfg)); [| exact H | by right].
    apply Forall_forall. intros [k func] Hin h Hh. cbn [fst snd] in Hh.
    by apply (status_level_of_checks net cfg state k func).
  - intros Hall. apply diagnose_loop_all_nominal; [| reflexivity | exact Hall].
    rewrite diag_funcs_order. apply domains_NoDup.
Qed.

(** The domains the loop has entries for are the first [n] of its list. *)
Lemma diagnose_loop_prefix state funcs :
  NoDup funcs.*1 ->
  forall d b,
    (forall k, k ∈ funcs.*1 -> checks d !! k = None) ->
    exists n,
      (n <= length funcs)%nat /\ (funcs <> [] -> (1 <= n)%nat) /\
      (forall i k, funcs.*1 !! i = Some k ->
         is_Some (checks (diagnose_loop state funcs d b).1 !! k) <-> (i < n)%nat) /\
      ((n < length funcs)%nat ->
       overall_status (diagnose_loop state funcs d b).1 = "ERROR").
Proof.
  induction funcs as [| [key func] rest IH]; intros Hnd d b Hnone.
  - exists 0%nat. split; [done |]. split; [done |]. split; [| cbn; lia].
    intros i k Hi. by destruct i.
  - rewrite fmap_cons in Hnd. apply NoDup_cons in Hnd as [Hfresh Hnd]. cbn [fst] in Hfresh.
    assert (Hstop : forall h,
              let r := (mk_diagnostics "ERROR" (<[key := h]> (checks d)), true) in
              exists n,
                (n <= length ((key, func) :: rest))%nat /\
                ((key, func) :: rest <> [] -> (1 <= n)%nat) /\
                (forall i k, ((key, func) :: rest).*1 !! i = Some k ->
                   is_Some (checks r.1 !! k) <-> (i < n)%nat) /\
                ((n < length ((key, func) :: rest))%nat -> overall_status r.1 = "ERROR")).
    { intros h r. exists 1%nat. cbn [length]. split; [lia |]. split; [done |].
      split; [| done]. intros i k Hi. subst r. cbn [fst checks].
      destruct i as [| i]; cbn in Hi.
      - injection Hi as <-. rewrite lookup_insert_eq. split; [lia | by eexists].
      - assert (Hk : k ∈ rest.*1) by (by eapply list_elem_of_lookup_2).
        rewrite lookup_insert_ne by (intros ->; done).
        rewrite Hnone by (rewrite fmap_cons; by apply list_elem_of_further).
        split; [by intros [] | lia]. }
    assert (Hgo : forall h o b',
              let d' := mk_diagnostics o (<[key := h]> (checks d)) in
              exists n,
                (n <= length ((key, func) :: rest))%nat /\
                ((key, func) :: rest <> [] -> (1 <= n)%nat) /\
                (forall i k, ((key, func) :: rest).*1 !! i = Some k ->
                   is_Some (checks (diagnose_loop state rest d' b').1 !! k) <-> (i < n)%nat) /\
                ((n < length ((key, func) :: rest))%nat ->
                 overall_status (diagnose_loop state rest d' b').1 = "ERROR")).
    { intros h o b' d'.
      destruct (IH Hnd d' b') as (n & Hle & _ & Hiff & Hshort).
      { intros k Hk. subst d'. cbn [checks].
        rewrite lookup_insert_ne by (intros ->; done).
        apply Hnone. rewrite fmap_cons. by apply list_elem_of_further. }
      exists (S n). cbn [length]. split; [lia |]. split; [lia |]. split.
      - intros i k Hi. destruct i as [| i]; cbn in Hi.
        + injection Hi as <-. rewrite diagnose_loop_untouched by done.
          subst d'. cbn [checks]. rewrite lookup_insert_eq. split; [lia | by eexists].
        + rewrite (Hiff i k Hi). lia.
      - intros Hlt. apply Hshort. lia. }
    cbn [diagnose_loop].
    destruct (func (dict_get state key)) as [h | e].
    + destruct (String.eqb (status h) "ERROR"); [apply Hstop |].
      destruct (String.eqb (status h) "CRITICAL"); [apply Hgo |].
      destruct (_ && _)%bool; apply Hgo.
    + apply Hgo.
Qed.

(** The domains with an entry in the diagnosis are the first [n] of cpu,
    memory, disk, processes, network, temperature, for some [n] from 1 to 6:
    cpu always has an entry, no domain is skipped, and the evaluation stops
    early only with the overall status ERROR. *)
Theorem evaluated_domains_form_prefix (net : probes) (cfg : config)
    (state : gmap string pyval) :
  exists n,
    (1 <= n <= 6)%nat /\
    (forall i key, domains !! i = Some key ->
       is_Some (checks (diagnose_system net cfg state).1 !! key) <-> (i < n)%nat) /\
    ((n < 6)%nat -> overall_status (diagnose_system net cfg state).1 = "ERROR").
Proof.
  unfold diagnose_system.
  destruct (diagnose_loop_prefix state (diag_funcs net cfg)) with
    (d := mk_diagnostics "NOMINAL" ∅) (b := false) as (n & Hle & Hpos & Hiff & Hshort).
  - rewrite diag_funcs_order. apply domains_NoDup.
  - intros k _. apply lookup_empty.
  - exists n. split; [split; [by apply Hpos | exact Hle] |].
    split; [| exact Hshort]. intros i key Hi. apply Hiff. by rewrite diag_funcs_order.
Qed.

(** ** The command executor, seen from its callers *)

Section executor_calls.
Context (env : host).

(** What one call of the executor does to the host, in events.

    Nothing is launched exactly when the first word of the command line
    cannot be had: [sudo] is needed (asked for, and the agent is not root)
    but not found, or the command list is empty and no [sudo] is put in front
    of it, or no shell is asked for and [shutil.which] does not find the
    first word.

    Otherwise exactly one child is launched, with the caller's input, shell
    flag and timeout.  Its command line is the caller's, preceded by the path
    of [sudo] exactly when [sudo] is needed, and with its first word replaced
    by the full path unless a shell is asked for.  The child is killed
    exactly when it outlives the timeout, and nothing else happens. *)
Theorem executor_launches_at_most_once (command_list : list string)
    (check use_sudo shell : bool) (input_str : option string) (timeout_sec : num)
    (w : world) :
  let r := _run_subprocess env command_list check use_sudo shell input_str timeout_sec w in
  let sudo_needed := (use_sudo && negb (geteuid env =? 0))%bool in
  let first_word := if sudo_needed then which env "sudo" else head command_list in
  exists new,
    w_events r.2 = (w_events w ++ new)%list /\
    (new = [] <->
     match first_word with
     | None => True
     | Some c => shell = false /\ which env c = None
     end) /\
    (new <> [] ->
     exists l c c0 args,
       first_word = Some c /\
       (if sudo_needed then args = command_list else command_list = c :: args) /\
       (if shell then c0 = c else which env c = Some c0) /\
       l = mk_launch (c0 :: args) input_str shell timeout_sec /\
       new = Launched l :: match popen env (w_tick w) l with
                           | TimedOut => [ChildKilled l]
                           | _ => []
                           end).
Proof.
  intros r sudo_needed first_word. subst r first_word.
  remember (use_sudo && negb (geteuid env =? 0))%bool as needed eqn:Hneeded.
  subst sudo_needed.
  assert (Hrun : forall c c0 args (refused : Prop),
            ~ refused ->
            (if needed then args = command_list else command_list = c :: args) ->
            (if shell then c0 = c else which env c = Some c0) ->
            let l := mk_launch (c0 :: args) input_str shell timeout_sec in
            exists new,
              w_events (try_except (run_child env l check) (run_child_handler env l c0) w).2
                = (w_events w ++ new)%list /\
              (new = [] <-> refused) /\
              (new <> [] ->
               exists l' c' c0' args',
                 Some c = Some c' /\
                 (if needed then args' = command_list else command_list = c' :: args') /\
                 (if shell then c0' = c' else which env c' = Some c0') /\
                 l' = mk_launch (c0' :: args') input_str shell timeout_sec /\
                 new = Launched l' :: match popen env (w_tick w) l' with
                                      | TimedOut => [ChildKilled l']
                                      | _ => []
                                      end)).
  { intros c c0 args refused Hnot Hargs Hc0 l.
    exists (Launched l :: match popen env (w_tick w) l with
                          | TimedOut => [ChildKilled l]
                          | _ => []
                          end).
    split; [| split].
    - unfold run_child, communicate, run_child_handler. runM.
      destruct (popen env (w_tick w) l) as [rc out err | | |]; runM.
      + destruct (rc =? 0); [| destruct check]; runM; reflexivity.
      + by rewrite <- app_assoc.
      + reflexivity.
      + reflexivity.
    - split; [discriminate | by intros H%Hnot].
    - intros _. by exists l, c, c0, args. }
  unfold _run_subprocess, prepare. rewrite <- Hneeded. clear Hneeded.
  destruct needed.
  - destruct (which env "sudo") as [sudo_path |] eqn:Hwhich; runM.
    2: { exists []. rewrite app_nil_r. by repeat split. }
    destruct (which env sudo_path) as [cmd_path |] eqn:Hcmd, shell eqn:Hshell; runM.
    + apply (Hrun sudo_path sudo_path command_list); [by intros [? ?] | done | done].
    + apply (Hrun sudo_path cmd_path command_list); [by intros [? ?] | done | done].
    + apply (Hrun sudo_path sudo_path command_list); [by intros [? ?] | done | done].
    + exists []. rewrite app_nil_r. by repeat split.
  - destruct command_list as [| c args]; runM.
    { exists []. rewrite app_nil_r. by repeat split. }
    cbn [head].
    destruct (which env c) as [cmd_path |] eqn:Hcmd, shell eqn:Hshell; runM.
    + apply (Hrun c c args); [by intros [? ?] | done | done].
    + apply (Hrun c cmd_path args); [by intros [? ?] | done | done].
    + apply (Hrun c c args); [by intros [? ?] | done | done].
    + exists []. rewrite app_nil_r. by repeat split.
Qed.

(** The executor answers success only for a child that was launched and
    exited with code 0; the text returned is then the stripped standard
    output and standard error, joined by a newline and stripped again. *)
Theorem executor_success_means_exit_zero (command_list : list string)
    (check use_sudo shell : bool) (input_str : option string) (timeout_sec : num)
    (w w' : world) (output : string) :
  _run_subprocess env command_list check use_sudo shell input_str timeout_sec w
    = (Ok (true, output), w') ->
  exists c0 args stdout_output stderr_output,
    prepare env command_list use_sudo shell = Ok (Ready c0 args) /\
    popen env (w_tick w) (mk_launch (c0 :: args) input_str shell timeout_sec)
      = Exited 0 stdout_output stderr_output /\
    output = strip (strip stdout_output ++ newline ++ strip stderr_output) /\
    w_events w'
      = (w_events w ++ [Launched (mk_launch (c0 :: args) input_str shell timeout_sec)])%list.
Proof.
  unfold _run_subprocess.
  destruct (prepare env command_list use_sudo shell) as [[msg | c0 args] | e]; runM;
    intros H; try discriminate H.
  unfold run_child, communicate in H. runM.
  destruct (popen _ _ _) as [rc out err | | |] eqn:Hp; runM.
  - destruct (rc =? 0) eqn:Hrc; [| destruct check]; runM; try discriminate H.
    apply Z.eqb_eq in Hrc. subst rc. injection H as <- <-.
    exists c0, args, out, err. by repeat split.
  - unfold run_child_handler in H. runM. discriminate H.
  - discriminate H.
  - discriminate H.
Qed.



End executor_calls.

Lemma executor_success_means_exit_zero_witness :
  exists c0 args stdout_output stderr_output,
    prepare quiet_root_host ["true"] false false = Ok (Ready c0 args) /\
    popen quiet_root_host (w_tick initial_world) (mk_launch (c0 :: args) None false (NInt 60))
      = Exited 0 stdout_output stderr_output /\
    "" = strip (strip stdout_output ++ newline ++ strip stderr_output) /\
    w_events (mk_world 1 [Launched (mk_launch ["/usr/bin/true"] None false (NInt 60))]
                None None 0)
      = (w_events initial_world
           ++ [Launched (mk_launch (c0 :: args) None false (NInt 60))])%list.
Proof.
  apply (executor_success_means_exit_zero quiet_root_host ["true"] false false false None
           (NInt 60) initial_world
           (mk_world 1 [Launched (mk_launch ["/usr/bin/true"] None false (NInt 60))]
              None None 0) "").
  reflexivity.
Defined.

(** ** CPU mitigation: who is chosen, and how many *)

Section mitigation_guards.
Context (env : host) (cfg : config).

Lemma eligible_guards exclude p w w' :
  eligible env cfg exclude p w = (Ok true, w') ->
  may_terminate env cfg p /\ w_events w' = w_events w.
Proof.
  unfold eligible, older_than_grace, may_terminate.
  destruct (num_gt _ _); cbn [andb]; [| runM; congruence].
  destruct (str_in (pname p) exclude); cbn [negb andb]; [runM; congruence |].
  destruct (not_root p); runM; [| congruence].
  destruct (create_time p) as [born |]; runM; intros H; [| congruence].
  injection H as Hold <-. split; [| reflexivity].
  repeat split. by exists (w_tick w), born.
Qed.

(** The events of the loop: those of the executor, the half-second pauses,
    and the choice of processes that passed the test. *)
Lemma heal_cpu_loop_adds exclude (P : event -> Prop) procs :
  (forall ev, process_event ev -> P ev) ->
  (forall s, P (Slept s)) ->
  (forall p w w', p ∈ procs -> eligible env cfg exclude p w = (Ok true, w') ->
     P (Selected p)) ->
  forall killed_pids killed_count w,
    adds P w (heal_cpu_loop env cfg exclude procs killed_pids killed_count w).2.
Proof.
  intros Hproc Hslept. induction procs as [| p rest IH]; intros Hsel killed_pids killed_count w;
    cbn [heal_cpu_loop].
  - apply adds_refl.
  - assert (IH' : forall pids n w0,
              adds P w0 (heal_cpu_loop env cfg exclude rest pids n w0).2).
    { apply IH. intros q w0 w0' Hq. apply Hsel. by apply list_elem_of_further. }
    destruct (num_ge _ _); [apply adds_refl |].
    unM. destruct (eligible env cfg exclude p w) as [[[|] | e] w1] eqn:Hel.
    + pose proof (Hsel p w w1 (list_elem_of_here _ _) Hel) as HP.
      apply eligible_true in Hel as [_ Hev].
      set (w2 := mk_world (w_tick w1) (w_events w1 ++ [Selected p])
                   (last_net_io_counters w1) (last_net_collection_time w1)
                   (last_mandb_run_time w1)).
      assert (H12 : adds P w w2).
      { exists [Selected p]. subst w2. cbn [w_events]. rewrite Hev.
        split; [reflexivity |]. by repeat constructor. }
      pose proof (run_subprocess_events env ["kill"; str_of_Z (pid p)]
                    false true false None (NInt 60) w2) as Hrun.
      apply (adds_weaken _ P) in Hrun; [| exact Hproc].
      destruct (_run_subprocess env _ false true false None (NInt 60) w2)
        as [[[ok out] | e] w3] eqn:Hr; cbn [fst snd] in *.
      * destruct ok; cbn [fst].
        -- eapply adds_trans; [exact H12 |]. eapply adds_trans; [exact Hrun |].
           eapply adds_trans; [| apply IH'].
           exists [Slept (FFin (1 # 2))]. split; [reflexivity |]. by repeat constructor.
        -- eapply adds_trans; [exact H12 |]. eapply adds_trans; [exact Hrun |]. apply IH'.
      * eapply adds_trans; [exact H12 | exact Hrun].
    + pose proof (eligible_events env cfg exclude p w) as Hev. rewrite Hel in Hev.
      eapply adds_trans; [| apply IH']. exists []. cbn [snd] in Hev.
      rewrite Hev, app_nil_r. by split.
    + pose proof (eligible_events env cfg exclude p w) as Hev. rewrite Hel in Hev.
      exists []. cbn [snd] in *. rewrite Hev, app_nil_r. by split.
Qed.

Lemma insert_desc_elem p q l : q ∈ insert_desc p l <-> q = p \/ q ∈ l.
Proof.
  induction l as [| x l IH]; cbn [insert_desc].
  - rewrite list_elem_of_singleton. split; [by left | intros [H | H]; [done | by apply elem_of_nil in H]].
  - destruct (Qlt_bool _ _).
    + rewrite !elem_of_cons, IH. tauto.
    + rewrite !elem_of_cons. tauto.
Qed.

Lemma sort_desc_elem q l : q ∈ sort_desc l <-> q ∈ l.
Proof.
  unfold sort_desc. induction l as [| x l IH]; cbn [foldr]; [done |].
  rewrite insert_desc_elem, IH, elem_of_cons. tauto.
Qed.

(** Every process that CPU mitigation chooses for termination is in the
    process table with a CPU reading, is busier than [cpu_threshold], is not
    owned by root, and was born more than ten seconds before the clock was
    read for it. *)
Theorem cpu_mitigation_guards (cpu_diag : health) (w : world) :
  exists new,
    w_events (_heal_cpu env cfg cpu_diag w).2 = (w_events w ++ new)%list /\
    forall p, Selected p ∈ new ->
      may_terminate env cfg p /\
      exists all, process_iter env (w_tick w) = Ok all /\ p ∈ all /\
                  is_Some (p_cpu_percent p).
Proof.
  set (P := fun ev => forall p, ev = Selected p ->
              may_terminate env cfg p /\
              exists all, process_iter env (w_tick w) = Ok all /\ p ∈ all /\
                          is_Some (p_cpu_percent p)).
  assert (Hadds : adds P w (_heal_cpu env cfg cpu_diag w).2).
  { unfold _heal_cpu. destruct (self_heal_cpu_enabled cfg); cbn [negb]; runM;
      [| apply adds_refl].
    destruct (first_value _ _) as [v |]; runM; [| apply adds_refl].
    destruct (py_lt_num _ _) as [[|] |]; runM; try apply adds_refl.
    destruct (process_iter env (w_tick w)) as [all | e] eqn:Hall; runM;
      [| exists []; cbn [w_events]; rewrite app_nil_r; by split].
    match goal with
    | |- context [heal_cpu_loop ?a ?b ?c ?d ?e ?f ?g] =>
        assert (Hloop : adds P g (heal_cpu_loop a b c d e f g).2);
        [| destruct (heal_cpu_loop a b c d e f g) as [[r | e'] w'] eqn:Hr]
    end.
    { apply heal_cpu_loop_adds.
      - intros ev Hev p ->. destruct Hev.
      - intros s p Hp. discriminate Hp.
      - intros p w0 w0' Hp Hel q Hq. injection Hq as <-.
        apply eligible_guards in Hel as [Hmay _]. split; [exact Hmay |].
        exists all. split; [reflexivity |].
        apply sort_desc_elem, list_elem_of_filter in Hp as [Hshare Hp].
        split; [exact Hp |]. unfold has_cpu_share in Hshare.
        destruct (p_cpu_percent p); [by eexists | discriminate Hshare]. }
    all: cbn [snd] in *; (eapply adds_trans; [| exact Hloop]); exists []; cbn [w_events];
      by rewrite app_nil_r. }
  destruct Hadds as (new & Hnew & Hall). exists new. split; [exact Hnew |].
  intros p Hp. rewrite Forall_forall in Hall. exact (Hall _ Hp p eq_refl).
Qed.

Lemma Qlt_bool_inject a b : Qlt_bool (inject_Z a) (inject_Z b) = (a <? b).
Proof.
  unfold Qlt_bool, Qle_bool. cbn. rewrite !Z.mul_1_r.
  destruct (Z.leb_spec b a), (Z.ltb_spec a b); cbn; lia || reflexivity.
Qed.

Lemma heal_cpu_loop_count exclude k procs :
  self_heal_cpu_kill_limit cfg = NInt k ->
  forall killed_pids killed_count w r w',
    heal_cpu_loop env cfg exclude procs killed_pids killed_count w = (Ok r, w') ->
    killed_count = Z.of_nat (length killed_pids) ->
    r.2 = Z.of_nat (length r.1) /\ r.2 <= Z.max killed_count k.
Proof.
  intros Hk. induction procs as [| p rest IH]; intros pids n w r w' H Hn;
    cbn [heal_cpu_loop] in H.
  - runM. injection H as <- _. cbn [fst snd]. split; [exact Hn | lia].
  - rewrite Hk in H. unfold num_ge in H. cbn [num_float float_lt] in H.
    rewrite Qlt_bool_inject in H.
    destruct (n <? k) eqn:Hlt; cbn [negb] in H.
    2: { runM. injection H as <- _. cbn [fst snd]. split; [exact Hn | lia]. }
    apply Z.ltb_lt in Hlt. unM.
    destruct (eligible env cfg exclude p w) as [[[|] | e] w1]; [| | discriminate H].
    + destruct (_run_subprocess env _ false true false None (NInt 60) _)
        as [[[ok out] | e] w3]; [| discriminate H].
      cbn [fst] in H. destruct ok.
      * apply IH in H as [Hlen Hle]; [| rewrite length_app; cbn [length]; lia].
        split; [exact Hlen | lia].
      * apply IH in H as [Hlen Hle]; [| exact Hn]. split; [exact Hlen | lia].
    + apply IH in H as [Hlen Hle]; [| exact Hn]. split; [exact Hlen | lia].
Qed.

(** CPU mitigation never reports more terminations than
    [self_heal_cpu_kill_limit]: the count it returns is the number of pids it
    lists, and is at most the limit (none for a limit of zero or less). *)
Theorem cpu_mitigation_respects_kill_limit (cpu_diag : health) (w : world)
    (limit : Z) (killed_pids : list Z) (killed_count : Z) :
  self_heal_cpu_kill_limit cfg = NInt limit ->
  (_heal_cpu env cfg cpu_diag w).1 = Ok (Some (MitigateCpu killed_pids killed_count)) ->
  killed_count = Z.of_nat (length killed_pids) /\ killed_count <= Z.max 0 limit.
Proof.
  intros Hk. unfold _heal_cpu. destruct (self_heal_cpu_enabled cfg); cbn [negb]; runM;
    [| discriminate].
  destruct (first_value _ _) as [v |]; runM; [| discriminate].
  destruct (py_lt_num _ _) as [[|] |]; runM; try discriminate.
  destruct (process_iter env (w_tick w)) as [all | e]; runM; [| discriminate].
  match goal with
  | |- context [heal_cpu_loop ?a ?b ?c ?d ?e ?f ?g] =>
      destruct (heal_cpu_loop a b c d e f g) as [[r | e'] w'] eqn:Hr
  end; cbn [fst]; intros H; [| discriminate H].
  injection H as <- <-.
  by apply (heal_cpu_loop_count _ limit _ Hk _ _ _ _ _ Hr).
Qed.

End mitigation_guards.

Lemma cpu_mitigation_respects_kill_limit_witness :
  1 = Z.of_nat (length [301]) /\ 1 <= Z.max 0 2.
Proof.
  apply (cpu_mitigation_respects_kill_limit busy_host cpu_healing_config legacy_cpu_diag
           initial_world 2 [301] 1); reflexivity.
Defined.

Lemma heal_cpu_idle_on_diagnosed_witness :
  _heal_cpu busy_host cpu_healing_config
    (mk_health "CRITICAL"
       [mk_issue "HIGH_CPU" (Some (vfloat 99))
          [FLit "> "; FNum (NFloat (FFin 85)); FLit "%"]])
    initial_world
    = (Ok None, initial_world).
Proof.
  apply (heal_cpu_idle_on_diagnosed busy_host cpu_healing_config cpu_at_99); reflexivity.
Defined.

(** ** The other healers and the orchestrator *)

Section healers.
Context (env : host) (cfg : config).





Lemma heal_disk_item_spec path age kind tf w :
  exists detail ok w',
    heal_disk_item env path age kind tf w = (Ok (detail, ok), w') /\
    dd_path detail = path /\ dd_age_days detail = age /\ dd_success detail = ok /\
    (ok = true -> isdir env path = true).
Proof.
  unfold heal_disk_item. destruct (isdir env path).
  - destruct (run_subprocess_returns env
                ["find"; path; "-type"; "f"; tf; "+" ++ age; "-print"; "-delete"]
                false true false None (NInt 60) w) as ([ok out] & w1 & Hrun); [done |].
    erewrite bind_ok by exact Hrun. cbn [fst snd].
    eexists _, ok, w1. split; [reflexivity |]. by repeat split.
  - eexists _, false, w. split; [reflexivity |]. by repeat split.
Qed.

(** Disk healing always reports on both directories, the log path first and
    the temporary path second, and never raises.  It reports SUCCESS exactly
    when both clean-ups succeeded, which requires both directories to exist;
    otherwise it reports PARTIAL_FAILURE. *)
Theorem disk_heal_reports_both_paths (w : world) :
  self_heal_disk_enabled cfg = true ->
  exists log_detail tmp_detail w',
    _heal_disk env cfg w
      = (Ok (Some (ManageDiskSpace
                     (if (dd_success log_detail && dd_success tmp_detail)%bool
                      then "SUCCESS" else "PARTIAL_FAILURE")
                     [log_detail; tmp_detail])), w') /\
    dd_path log_detail = self_heal_disk_log_path cfg /\
    dd_path tmp_detail = self_heal_disk_tmp_path cfg /\
    (dd_success log_detail = true -> isdir env (self_heal_disk_log_path cfg) = true) /\
    (dd_success tmp_detail = true -> isdir env (self_heal_disk_tmp_path cfg) = true).
Proof.
  intros Hon. unfold _heal_disk. rewrite Hon. cbn [negb]. unfold try_except.
  destruct (heal_disk_item_spec (self_heal_disk_log_path cfg)
              (str_of_num (self_heal_disk_log_max_age_days cfg)) "log" "-mtime" w)
    as (a & oka & wa & Ha & Hpa & _ & Hsa & Hda).
  destruct (heal_disk_item_spec (self_heal_disk_tmp_path cfg)
              (str_of_num (self_heal_disk_tmp_max_age_days cfg)) "tmp" "-atime" wa)
    as (b & okb & wb & Hb & Hpb & _ & Hsb & Hdb).
  erewrite bind_ok by exact Ha. erewrite bind_ok by exact Hb. cbn [fst snd].
  exists a, b, wb. rewrite Hsa, Hsb. split; [reflexivity |]. by repeat split.
Qed.

(** When the five domains that have a healer are all recorded NOMINAL, the
    orchestrator does nothing: no healer runs, nothing is launched, and the
    list of actions is empty.  A temperature alarm alone therefore never
    triggers a healing action. *)
Theorem healing_skips_nominal_domains (d : diagnostics) (w : world) :
  (forall key, key ∈ ["cpu"; "memory"; "processes"; "disk"; "network"] ->
     exists h, checks d !! key = Some h /\ status h = "NOMINAL") ->
  perform_self_healing env cfg d w
    = (Ok (if self_healing_enabled cfg then Some [] else None), w).
Proof.
  intros Hall. unfold perform_self_healing.
  destruct (self_healing_enabled cfg); cbn [negb]; [| reflexivity].
  assert (Hkey : forall key w0,
            key ∈ ["cpu"; "memory"; "processes"; "disk"; "network"] ->
            abnormal (checks d) key w0 = (Ok None, w0)).
  { intros key w0 Hin. destruct (Hall key Hin) as (h & Hh & Hs).
    rewrite (abnormal_present _ _ h) by exact Hh. by rewrite Hs. }
  erewrite bind_ok by (apply Hkey; apply list_elem_of_In; simpl; tauto).
  erewrite bind_ok by reflexivity.
  erewrite bind_ok by (apply Hkey; apply list_elem_of_In; simpl; tauto).
  erewrite bind_ok by reflexivity.
  erewrite bind_ok by (apply Hkey; apply list_elem_of_In; simpl; tauto).
  erewrite bind_ok by reflexivity.
  erewrite bind_ok by (apply Hkey; apply list_elem_of_In; simpl; tauto).
  erewrite bind_ok by reflexivity.
  erewrite bind_ok by (apply Hkey; apply list_elem_of_In; simpl; tauto).
  erewrite bind_ok by reflexivity.
  reflexivity.
Qed.


End healers.

(** The entry of the first domain of the loop is what its check returned,
    or the error recorded for the exception it raised. *)
Lemma diagnose_loop_first state key func rest d b h :
  key ∉ rest.*1 ->
  checks (diagnose_loop state ((key, func) :: rest) d b).1 !! key = Some h ->
  func (dict_get state key) = Ok h \/
  exists e, func (dict_get state key) = Raise e /\ h = diag_error e.
Proof.
  intros Hfresh. cbn [diagnose_loop].
  destruct (func (dict_get state key)) as [hc | e].
  - destruct (String.eqb (status hc) "ERROR").
    { cbn [fst checks]. rewrite lookup_insert_eq. intros [= <-]. by left. }
    destruct (String.eqb (status hc) "CRITICAL").
    { rewrite diagnose_loop_untouched by exact Hfresh. cbn [checks].
      rewrite lookup_insert_eq. intros [= <-]. by left. }
    destruct (_ && _)%bool; rewrite diagnose_loop_untouched by exact Hfresh; cbn [checks];
      rewrite lookup_insert_eq; intros [= <-]; by left.
  - rewrite diagnose_loop_untouched by exact Hfresh. cbn [checks].
    rewrite lookup_insert_eq. intros [= <-]. right. by exists e.
Qed.

(** The cpu entry of a diagnosis never carries an issue of the type that
    [_heal_cpu] searches for. *)
Lemma cpu_entry_none_typed net cfg state h :
  checks (diagnose_system net cfg state).1 !! "cpu" = Some h ->
  none_typed "HIGH_CPU_USAGE" h.
Proof.
  unfold diagnose_system, diag_funcs. intros H.
  apply diagnose_loop_first in H as [Hc | (e & _ & ->)].
  - by apply diagnose_cpu_no_legacy_type in Hc.
  - apply diag_error_none_typed.
  - cbn [fmap list_fmap fst]. intros Hin.
    repeat (apply elem_of_cons in Hin as [Hin | Hin]; [discriminate Hin |]).
    by apply elem_of_nil in Hin.
Qed.



Lemma disk_heal_reports_both_paths_witness :
  exists log_detail tmp_detail w',
    _heal_disk quiet_root_host default_config initial_world
      = (Ok (Some (ManageDiskSpace
                     (if (dd_success log_detail && dd_success tmp_detail)%bool
                      then "SUCCESS" else "PARTIAL_FAILURE")
                     [log_detail; tmp_detail])), w') /\
    dd_path log_detail = self_heal_disk_log_path default_config /\
    dd_path tmp_detail = self_heal_disk_tmp_path default_config /\
    (dd_success log_detail = true ->
     isdir quiet_root_host (self_heal_disk_log_path default_config) = true) /\
    (dd_success tmp_detail = true ->
     isdir quiet_root_host (self_heal_disk_tmp_path default_config) = true).
Proof.
  apply (disk_heal_reports_both_paths quiet_root_host default_config initial_world).
  reflexivity.
Defined.

Lemma healing_skips_nominal_domains_witness :
  overall_status (diagnose_system quiet_host default_config overheated_state).1 = "CRITICAL" /\
  perform_self_healing busy_host default_config
    (diagnose_system quiet_host default_config overheated_state).1 initial_world
    = (Ok (if self_healing_enabled default_config then Some [] else None), initial_world).
Proof.
  split; [vm_compute; reflexivity |].
  apply (healing_skips_nominal_domains busy_host default_config
           (diagnose_system quiet_host default_config overheated_state).1 initial_world).
  intros key Hin.
  repeat (apply elem_of_cons in Hin as [-> | Hin];
          [eexists; split; vm_compute; reflexivity |]).
  by apply elem_of_nil in Hin.
Defined.


(** ** Snapshots *)

Lemma collect_complete_iff t last last_time :
  (collect t last last_time).1 !! "error" = None <->
  exists percent cd m d n total uptime,
    t_cpu_percent t = Got percent /\ t_cpu_details t = Got cd /\
    t_memory t = Got m /\ t_disk t = Got d /\ t_net_io t = Got n /\
    t_pids t = Got total /\ t_uptime t = Got uptime /\
    forall msg, t_zombies t <> OtherFailure msg.
Proof.
  unfold collect, on_reading, with_error.
  assert (Hstop : forall (state : gmap string pyval) x (P : Prop),
            (P -> False) -> <["error" := x]> state !! "error" = None <-> P).
  { intros state x P HP. rewrite lookup_insert_eq. split; [discriminate | by intros H%HP]. }
  destruct (t_cpu_percent t) as [percent | |]; cbn [fst];
    [| apply Hstop; intros (? & ? & ? & ? & ? & ? & ? & H & _); discriminate H ..].
  destruct (t_cpu_details t) as [cd | |]; cbn [fst];
    [| apply Hstop; intros (? & ? & ? & ? & ? & ? & ? & _ & H & _); discriminate H ..].
  destruct (t_memory t) as [m | |]; cbn [fst];
    [| apply Hstop; intros (? & ? & ? & ? & ? & ? & ? & _ & _ & H & _); discriminate H ..].
  destruct (t_disk t) as [d | |]; cbn [fst];
    [| apply Hstop; intros (? & ? & ? & ? & ? & ? & ? & _ & _ & _ & H & _); discriminate H ..].
  destruct (t_net_io t) as [n | |]; cbn [fst];
    [| apply Hstop; intros (? & ? & ? & ? & ? & ? & ? & _ & _ & _ & _ & H & _);
       discriminate H ..].
  destruct (t_pids t) as [total | |]; cbn [fst];
    [| apply Hstop; intros (? & ? & ? & ? & ? & ? & ? & _ & _ & _ & _ & _ & H & _);
       discriminate H ..].
  destruct (t_zombies t) as [z | msg | msg]; cbn [fst];
    [| | apply Hstop; intros (? & ? & ? & ? & ? & ? & ? & _ & _ & _ & _ & _ & _ & _ & H);
         by apply (H msg)].
  - destruct (t_uptime t) as [uptime | |]; cbn [fst];
      [| apply Hstop; intros (? & ? & ? & ? & ? & ? & ? & _ & _ & _ & _ & _ & _ & H & _);
         discriminate H ..].
    split; [intros _ | reflexivity].
    exists percent, cd, m, d, n, total, uptime. by repeat split.
  - destruct (t_uptime t) as [uptime | |]; cbn [fst];
      [| apply Hstop; intros (? & ? & ? & ? & ? & ? & ? & _ & _ & _ & _ & _ & _ & H & _);
         discriminate H ..].
    split; [intros _ | reflexivity].
    exists percent, cd, m, d, n, total, uptime. by repeat split.
Qed.

Lemma collect_complete_keys t last last_time key :
  (collect t last last_time).1 !! "error" = None ->
  is_Some ((collect t last last_time).1 !! key) <-> key ∈ snapshot_keys.
Proof.
  intros Hc. pose proof Hc as Hr.
  apply collect_complete_iff in Hr
    as (percent & cd & m & d & n & total & uptime & H1 & H2 & H3 & H4 & H5 & H6 & H7 & Hz).
  revert Hc. unfold collect, on_reading. rewrite H1, H2, H3, H4, H5, H6, H7.
  assert (Hin : forall k, k ∈ snapshot_keys -> key = k -> key ∈ snapshot_keys)
    by (by intros k Hk ->).
  destruct (t_zombies t) as [z | msg | msg]; [| | by destruct (Hz msg)]; cbn [fst]; intros _;
    unfold snapshot_keys;
    repeat (match goal with
            | |- is_Some (<[?k := _]> _ !! key) <-> _ =>
                destruct (decide (key = k)) as [-> | ?];
                [rewrite lookup_insert_eq; split; [intros _; apply list_elem_of_In; simpl; tauto
                                                  | by eexists]
                | rewrite lookup_insert_ne by done]
            end);
    (destruct (decide (key = "timestamp")) as [-> | ?];
     [rewrite lookup_singleton_eq; split; [intros _; apply list_elem_of_In; simpl; tauto
                                          | by eexists]
     | rewrite lookup_singleton_ne by done]);
    (split; [by intros [] |]); intros Hk;
    repeat (apply elem_of_cons in Hk as [Hk | Hk]; [done |]); by apply elem_of_nil in Hk.
Qed.

(** What a completed collection holds under the keys whose readings may
    fail without ending it. *)
Lemma collect_complete_entries t last last_time :
  (collect t last last_time).1 !! "error" = None ->
  (collect t last last_time).1 !! "network_connections"
    = Some (connections_dict (t_net_connections t)) /\
  (collect t last last_time).1 !! "temperature_celsius" = Some (VDict (t_temperatures t)) /\
  exists total,
    t_pids t = Got total /\
    (collect t last last_time).1 !! "processes"
      = Some (processes_dict total (match t_zombies t with Got z => z | _ => 0 end)).
Proof.
  intros Hc. pose proof Hc as Hr.
  apply collect_complete_iff in Hr
    as (percent & cd & m & d & n & total & uptime & H1 & H2 & H3 & H4 & H5 & H6 & H7 & Hz).
  revert Hc. unfold collect, on_reading. rewrite H1, H2, H3, H4, H5, H6, H7.
  destruct (t_zombies t) as [z | msg | msg]; [| | by destruct (Hz msg)]; cbn [fst]; intros _;
    (split; [by rewrite !lookup_insert_ne by done; rewrite lookup_insert_eq |]);
    (split; [by rewrite !lookup_insert_ne by done; rewrite lookup_insert_eq |]);
    exists total; (split; [reflexivity |]);
    rewrite !lookup_insert_ne by done; by rewrite lookup_insert_eq.
Qed.

(** The collector returns a snapshot without the ["error"] key exactly when
    the readings of the cpu, the memory, the disk, the network counters, the
    process list and the uptime succeeded and the count of zombies raised
    nothing but a [psutil] error.  Three failures do not end the collection:
    a failure to list the connections, which is stored under
    ["network_connections"] as an error entry; a [psutil] error while
    counting zombies, which leaves the count at 0; and a failure to read the
    temperatures, which [_get_temperatures] catches itself, returning an
    empty dict.  A snapshot without the ["error"] key has the ten keys of
    [snapshot_keys] and no other. *)
Theorem snapshot_complete_iff_readings (env : host) (w : world) :
  let t := sample env (w_tick w) in
  exists state,
    (get_system_state env w).1 = Ok state /\
    (state !! "error" = None <->
     exists percent cd m d n total uptime,
       t_cpu_percent t = Got percent /\ t_cpu_details t = Got cd /\
       t_memory t = Got m /\ t_disk t = Got d /\ t_net_io t = Got n /\
       t_pids t = Got total /\ t_uptime t = Got uptime /\
       forall msg, t_zombies t <> OtherFailure msg) /\
    (state !! "error" = None ->
     (forall key, is_Some (state !! key) <-> key ∈ snapshot_keys) /\
     state !! "network_connections" = Some (connections_dict (t_net_connections t)) /\
     state !! "temperature_celsius" = Some (VDict (t_temperatures t)) /\
     exists total,
       t_pids t = Got total /\
       state !! "processes"
         = Some (processes_dict total (match t_zombies t with Got z => z | _ => 0 end))) /\
    (forall supported msg,
       _get_temperatures supported (PsutilError msg) = ∅ /\
       _get_temperatures supported (OtherFailure msg) = ∅).
Proof.
  intros t. unfold get_system_state. cbn [fst]. eexists. split; [reflexivity |].
  split; [apply collect_complete_iff |].
  split; [| intros supported msg; by destruct supported].
  intros Hc. split; [intros key; by apply collect_complete_keys |].
  by apply collect_complete_entries.
Qed.

Lemma collect_carries t last last_time :
  (collect t last last_time).1 !! "error" = None ->
  exists n,
    t_net_io t = Got n /\
    (collect t last last_time).2 = Some (n, t_monotonic t) /\
    (collect t last last_time).1 !! "network_rate_kBs"
      = Some (network_rate last last_time (t_monotonic t) n).
Proof.
  intros Hc. pose proof Hc as Hr.
  apply collect_complete_iff in Hr
    as (percent & cd & m & d & n & total & uptime & H1 & H2 & H3 & H4 & H5 & H6 & H7 & Hz).
  exists n. split; [exact H5 |]. clear Hc.
  unfold collect, on_reading. rewrite H1, H2, H3, H4, H5, H6, H7.
  destruct (t_zombies t) as [z | msg | msg]; [| | by destruct (Hz msg)]; cbn [fst snd];
    (split; [reflexivity |]); by rewrite !lookup_insert_ne, lookup_insert_eq by done.
Qed.

(** The network rate of a snapshot is computed from the counters and the
    clock of the snapshot before it: over two consecutive complete
    snapshots, the second reports the bytes sent and received since the
    first, per second and in kB, rounded to two decimals, provided the clock
    advanced and the first clock reading was not zero; otherwise it reports
    zero. *)
Theorem network_rate_spans_two_snapshots (env : host) (w : world) :
  let first := get_system_state env w in
  let second := get_system_state env first.2 in
  let t1 := sample env (w_tick w) in
  let t2 := sample env (S (w_tick w)) in
  snapshot_of first !! "error" = None ->
  snapshot_of second !! "error" = None ->
  exists n1 n2,
    t_net_io t1 = Got n1 /\ t_net_io t2 = Got n2 /\
    let interval := (t_monotonic t2 - t_monotonic t1)%Q in
    snapshot_of second !! "network_rate_kBs"
      = Some (if (negb (Qeq_bool (t_monotonic t1) 0) && Qlt_bool 0 interval)%bool
              then rate_dict
                     (Qround2 (inject_Z (bytes_sent n2 - bytes_sent n1) / interval / 1024))
                     (Qround2 (inject_Z (bytes_recv n2 - bytes_recv n1) / interval / 1024))
              else rate_dict 0 0).
Proof.
  intros first second t1 t2. subst first second t1 t2.
  unfold snapshot_of, get_system_state.
  cbn [fst snd w_tick last_net_io_counters last_net_collection_time].
  intros H1 H2.
  destruct (collect_carries _ _ _ H1) as (n1 & Hn1 & Hcarry & _).
  rewrite Hcarry in H2 |- *. cbn [fst snd] in H2 |- *.
  destruct (collect_carries _ _ _ H2) as (n2 & Hn2 & _ & Hrate).
  exists n1, n2. split; [exact Hn1 |]. split; [exact Hn2 |].
  cbn zeta. rewrite Hrate. reflexivity.
Qed.

Lemma network_rate_spans_two_snapshots_witness :
  exists n1 n2,
    t_net_io (sample ticking_host (w_tick initial_world)) = Got n1 /\
    t_net_io (sample ticking_host (S (w_tick initial_world))) = Got n2 /\
    let interval := (t_monotonic (sample ticking_host (S (w_tick initial_world)))
                     - t_monotonic (sample ticking_host (w_tick initial_world)))%Q in
    snapshot_of (get_system_state ticking_host
                   (get_system_state ticking_host initial_world).2)
      !! "network_rate_kBs"
      = Some (if (negb (Qeq_bool (t_monotonic (sample ticking_host (w_tick initial_world))) 0)
                  && Qlt_bool 0 interval)%bool
              then rate_dict
                     (Qround2 (inject_Z (bytes_sent n2 - bytes_sent n1) / interval / 1024))
                     (Qround2 (inject_Z (bytes_recv n2 - bytes_recv n1) / interval / 1024))
              else rate_dict 0 0).
Proof.
  apply (network_rate_spans_two_snapshots ticking_host initial_world); reflexivity.
Defined.

(** ** The supervisor loop and the periodic task *)

Section supervisor.
Context (env : host) (net : probes) (cfg : config).




(** The man-db update never raises and is rate limited: it launches a
    child or moves the time of the last run only if the configured number of
    hours has passed since the last successful run and the CPU utilisation
    read for it is below [cpu_permit_man_update]; whatever it does to the
    host is done through the command executor. *)
Theorem man_db_update_is_rate_limited (w : world) :
  let r := _update_man_db_if_needed env cfg w in
  let interval := float_mul (FFin 3600) (num_float (mandb_min_interval_hours cfg)) in
  r.1 = Ok tt /\
  adds process_event w r.2 /\
  (w_events r.2 <> w_events w \/ last_mandb_run_time r.2 <> last_mandb_run_time w ->
   float_lt (FFin (time_time env (w_tick w) - last_mandb_run_time w)) interval = false /\
   exists cpu_usage,
     cpu_percent_now env (S (w_tick w)) = Got cpu_usage /\
     num_lt (NFloat (FFin cpu_usage)) (cpu_permit_man_update cfg) = true).
Proof.
  intros r interval. subst r interval. unfold _update_man_db_if_needed. runM.
  assert (Hidle : forall w1 : world,
            w_events w1 = w_events w -> last_mandb_run_time w1 = last_mandb_run_time w ->
            forall P : Prop,
              adds process_event w w1 /\
              (w_events w1 <> w_events w \/ last_mandb_run_time w1 <> last_mandb_run_time w
               -> P)).
  { intros w1 Hev Hlast P. split; [exists []; by rewrite Hev, app_nil_r |].
    intros [H | H]; by destruct H. }
  destruct (float_lt _ _) eqn:Hint; runM; cbn [fst snd].
  { split; [reflexivity |].
    match goal with |- adds _ _ ?w1 /\ _ => apply (Hidle w1 eq_refl eq_refl) end. }
  destruct (cpu_percent_now env (S (w_tick w))) as [cpu_usage | msg | msg] eqn:Hcpu;
    runM; cbn [fst snd];
    [| split; [reflexivity |];
       match goal with |- adds _ _ ?w1 /\ _ => apply (Hidle w1 eq_refl eq_refl) end ..].
  destruct (num_lt _ _) eqn:Hlow; runM; cbn [fst snd].
  2: { split; [reflexivity |].
       match goal with |- adds _ _ ?w1 /\ _ => apply (Hidle w1 eq_refl eq_refl) end. }
  match goal with
  | |- context [_run_subprocess ?a ?b ?c ?d ?e ?f ?g ?w0] =>
      pose proof (run_subprocess_events a b c d e f g w0) as Hev;
      destruct (run_subprocess_returns a b c d e f g w0) as ([ok out] & w1 & Hrun); [done |]
  end.
  rewrite Hrun in Hev |- *. cbn [fst snd] in *.
  assert (Hadds : adds process_event w w1).
  { destruct Hev as (new & Hnew & Hall). exists new. by split. }
  destruct ok; runM; (split; [reflexivity |]); (split; [exact Hadds |]);
    intros _; (split; [reflexivity |]); by exists cpu_usage.
Qed.

End supervisor.

(** ** Temperatures, from the sensors to the check *)

Lemma py_round1_num n : is_Some (to_num (py_round1 n)).
Proof. destruct n as [b | z | [| neg | q]]; by eexists. Qed.

Lemma sensor_entries_numeric name entries :
  forall i temps,
    map_Forall (fun _ v => is_Some (to_num v)) temps ->
    map_Forall (fun _ v => is_Some (to_num v)) (sensor_entries name i entries temps).
Proof.
  induction entries as [| entry rest IH]; intros i temps H; cbn [sensor_entries]; [exact H |].
  apply IH. destruct (to_num (se_current entry)); [| exact H].
  apply map_Forall_insert_2; [apply py_round1_num | exact H].
Qed.

(** Every value [_get_temperatures] returns is a number. *)
Lemma get_temperatures_numeric supported sensors :
  map_Forall (fun _ v => is_Some (to_num v)) (_get_temperatures supported sensors).
Proof.
  unfold _get_temperatures. destruct supported; cbn [negb]; [| apply map_Forall_empty].
  destruct sensors as [psutil_temps | |]; try apply map_Forall_empty.
  assert (H : forall temps : gmap string pyval,
            map_Forall (fun _ v => is_Some (to_num v)) temps ->
            map_Forall (fun _ v => is_Some (to_num v))
              (foldl (fun temps item => sensor_entries item.1 0 item.2 temps) temps
                 psutil_temps)).
  { induction psutil_temps as [| item rest IH]; intros temps Ht; cbn [foldl]; [exact Ht |].
    apply IH. by apply sensor_entries_numeric. }
  apply H, map_Forall_empty.
Qed.

Lemma hot_sensors_numeric items t :
  Forall (fun item => is_Some (to_num item.2)) items ->
  exists ht,
    hot_sensors items t = Ok ht /\
    (ht <> [] <-> exists key v n, (key, v) ∈ items /\ to_num v = Some n /\ num_gt n t = true).
Proof.
  induction 1 as [| [key v] items [n Hn] Hrest (ht & Hrun & Hiff)]; cbn [hot_sensors].
  - exists []. split; [reflexivity |]. split; [done |].
    intros (key & v & n & Hin & _). by apply elem_of_nil in Hin.
  - cbn [snd] in Hn. unfold py_gt_num. rewrite Hn, Hrun. unbind.
    destruct (num_gt n t) eqn:Hgt.
    + eexists. split; [reflexivity |]. split; [| done].
      intros _. exists key, v, n. split; [apply list_elem_of_here | by split].
    + exists ht. split; [reflexivity |]. rewrite Hiff. split.
      * intros (k & v' & n' & Hin & Hv & Hg). exists k, v', n'.
        split; [by apply list_elem_of_further | by split].
      * intros (k & v' & n' & Hin & Hv & Hg).
        apply elem_of_cons in Hin as [Heq | Hin]; [| by exists k, v', n'].
        injection Heq as -> ->. congruence.
Qed.

(** On the readings [_get_temperatures] returns, the temperature check
    never raises and never reports ERROR.  It reports CRITICAL exactly when
    some sensor reading, rounded to one decimal, is above
    [temp_alert_threshold], and WARNING exactly when no reading came back
    although the host supports temperature sensors. *)
Theorem temperature_check_on_collected (net : probes) (cfg : config)
    (sensors : reading (list (string * list sensor_entry))) :
  let temps := _get_temperatures (sensors_supported net) sensors in
  exists h,
    _diagnose_temperature net cfg (VDict temps) = Ok h /\
    status h <> "ERROR" /\
    (status h = "CRITICAL" <->
     exists key v n,
       temps !! key = Some v /\ to_num v = Some n /\
       num_gt n (temp_alert_threshold cfg) = true) /\
    (status h = "WARNING" <-> temps = ∅ /\ sensors_supported net = true).
Proof.
  intros temps. pose proof (get_temperatures_numeric (sensors_supported net) sensors) as Hnum.
  fold temps in Hnum. clearbody temps. unfold _diagnose_temperature. cbn [truthy].
  destruct (decide (temps = ∅)) as [-> | Hne].
  - change (size (∅ : gmap string pyval)) with 0%nat. cbn [Nat.eqb negb andb].
    destruct (sensors_supported net); eexists; (split; [reflexivity |]);
      (split; [discriminate |]); cbn [status _add_issue _create_health_result];
      (split; [split; [discriminate | intros (k & v & n & Hk & _); by rewrite lookup_empty in Hk]
              |]); split; try discriminate; try done. by intros [_ ?].
  - assert (Hsize : Nat.eqb (size temps) 0 = false).
    { apply Nat.eqb_neq. intros H0. by apply map_size_empty_iff in H0. }
    rewrite Hsize. cbn [negb andb py_items]. unbind.
    destruct (hot_sensors_numeric (map_to_list temps) (temp_alert_threshold cfg))
      as (ht & Hrun & Hiff).
    { apply Forall_forall. intros [k v] Hin. apply elem_of_map_to_list in Hin.
      exact (Hnum k v Hin). }
    rewrite Hrun.
    assert (Hhot : ht <> [] <->
              exists key v n, temps !! key = Some v /\ to_num v = Some n /\
                              num_gt n (temp_alert_threshold cfg) = true).
    { rewrite Hiff. split; intros (k & v & n & Hin & Hrest); exists k, v, n;
        (split; [by apply elem_of_map_to_list | exact Hrest]). }
    destruct ht as [| x ht].
    + eexists. split; [reflexivity |]. cbn [status _create_health_result].
      split; [discriminate |]. split.
      * split; [discriminate | intros H; by apply Hhot in H].
      * split; [discriminate | by intros [? _]].
    + eexists. split; [reflexivity |]. cbn [status _add_issue _create_health_result].
      change (sev_rank "CRITICAL" >? sev_rank "NOMINAL") with true. cbn [status].
      split; [discriminate |]. split.
      * split; [intros _; by apply Hhot | reflexivity].
      * split; [discriminate | by intros [? _]].
Qed.

(** ** Alerting and logging with the loaded configuration *)

(** With a loaded configuration the alerting never stops at the "enabled
    but no recipient" error and never raises: nothing is sent when the
    overall status is NOMINAL or alerts are off, and otherwise one message
    is handed to the mail server, addressed to the configured recipient
    (which is not empty) with the subject
    ["[AION Agent] System Status <overall status>"]; a failure to send is
    caught. *)
Theorem alerts_go_to_the_configured_recipient (ollama_available : bool)
    (f : load_outcome) (config : gmap string pyval) (hostname : string)
    (sendmail : pyval -> pyval -> email -> bool)
    (dumps : gmap string health -> string) (d : diagnostics) :
  merged_config ollama_available f = Ok config ->
  exists c alerts recipient outcome,
    _load_and_validate_config ollama_available f = Ok c /\
    c !! "email_alerts_enabled" = Some (VBool alerts) /\
    c !! "email_recipient" = Some (VStr recipient) /\
    _alert_if_needed c hostname sendmail dumps d = Ok outcome /\
    outcome <> Some NoRecipient /\
    (outcome = None <-> overall_status d = "NOMINAL") /\
    (outcome = Some AlertsOff <-> overall_status d <> "NOMINAL" /\ alerts = false) /\
    forall msg, outcome = Some (Sent msg) \/ outcome = Some (SendFailed msg) ->
      recipient <> "" /\ e_to msg = [recipient] /\
      e_subject msg = "[AION Agent] System Status " ++ overall_status d.
Proof.
  intros Hmerged.
  destruct (load_stages ollama_available f config Hmerged)
    as (vc & log & al & rc & ol & l & _ & Hvc & _ & Hal & Hrc & Hol & Hl & Hload).
  destruct (load_typed ollama_available f config Hmerged) as (c & cfg & Hc & Htyped & _).
  destruct (typed_str c "email_sender" Htyped) as [sender Hsender]; [in_schema |].
  assert (Halerts : c !! "email_alerts_enabled"
                    = Some (VBool (al && negb (String.eqb rc "")))).
  { rewrite Hload in Hc. injection Hc as <-. rewrite lookup_insert_ne by done.
    destruct (negb ollama_available && ol)%bool; cbn [id];
      rewrite ?lookup_insert_ne by done;
      destruct al, (String.eqb rc ""); cbn [andb negb id];
      rewrite ?lookup_insert_eq; done. }
  assert (Hrecipient : c !! "email_recipient" = Some (VStr rc)).
  { rewrite Hload in Hc. injection Hc as <-. rewrite lookup_insert_ne by done.
    destruct (negb ollama_available && ol)%bool; cbn [id];
      rewrite ?lookup_insert_ne by done;
      destruct (al && String.eqb rc "")%bool; cbn [id];
      rewrite ?lookup_insert_ne by done; done. }
  exists c, (al && negb (String.eqb rc ""))%bool, rc.
  unfold _alert_if_needed, _send_email_alert, dict_get.
  rewrite Halerts, Hrecipient, Hsender. cbn [default from_option id truthy].
  assert (Hfinish : forall (r : result (option mail_outcome)) (P : option mail_outcome -> Prop),
            (exists outcome, r = Ok outcome /\ P outcome) ->
            exists outcome,
              Ok c = Ok c /\
              Some (VBool (al && negb (String.eqb rc ""))) =
                Some (VBool (al && negb (String.eqb rc ""))) /\
              Some (VStr rc) = Some (VStr rc) /\ r = Ok outcome /\ P outcome).
  { intros r P (o & Hr & HP). by exists o. }
  rewrite Hc.
  apply (Hfinish _ (fun outcome =>
           outcome <> Some NoRecipient /\
           (outcome = None <-> overall_status d = "NOMINAL") /\
           (outcome = Some AlertsOff <->
            overall_status d <> "NOMINAL" /\ (al && negb (String.eqb rc ""))%bool = false) /\
           forall msg, outcome = Some (Sent msg) \/ outcome = Some (SendFailed msg) ->
             rc <> "" /\ e_to msg = [rc] /\
             e_subject msg = "[AION Agent] System Status " ++ overall_status d)).
  destruct (String.eqb (overall_status d) "NOMINAL") eqn:Hnom; cbn [negb].
  { apply String.eqb_eq in Hnom. exists None. split; [reflexivity |].
    split; [discriminate |]. split; [by split |].
    split; [split; [discriminate | by intros [? _]] |].
    intros msg [H | H]; discriminate H. }
  apply String.eqb_neq in Hnom.
  destruct al; cbn [andb negb]; unbind.
  2: { exists (Some AlertsOff). split; [reflexivity |].
       split; [discriminate |]. split; [split; [discriminate | done] |].
       split; [by split |]. intros msg [H | H]; discriminate H. }
  destruct (String.eqb rc "") eqn:Hrc0; cbn [negb]; unbind.
  { exists (Some AlertsOff). split; [reflexivity |].
    split; [discriminate |]. split; [split; [discriminate | done] |].
    split; [by split |]. intros msg [H | H]; discriminate H. }
  apply String.eqb_neq in Hrc0.
  eexists. split; [reflexivity |].
  split; [destruct (sendmail _ _ _); discriminate |].
  split; [split; [discriminate | done] |].
  split; [split; [destruct (sendmail _ _ _); discriminate | by intros [_ ?]] |].
  intros msg Hmsg.
  destruct (sendmail _ _ _); destruct Hmsg as [H | H]; try discriminate H;
    injection H as <-; by repeat split.
Qed.

Lemma alerts_go_to_the_configured_recipient_witness :
  let d := mk_diagnostics "ERROR" ∅ in
  exists c alerts recipient outcome,
    _load_and_validate_config true
      (Loaded {["email_alerts_enabled" := VBool true;
                "email_recipient" := VStr "ops@example.org"]}) = Ok c /\
    c !! "email_alerts_enabled" = Some (VBool alerts) /\
    c !! "email_recipient" = Some (VStr recipient) /\
    _alert_if_needed c "host" (fun _ _ _ => true) (fun _ => "{}") d = Ok outcome /\
    outcome <> Some NoRecipient /\
    (outcome = None <-> overall_status d = "NOMINAL") /\
    (outcome = Some AlertsOff <-> overall_status d <> "NOMINAL" /\ alerts = false) /\
    forall msg, outcome = Some (Sent msg) \/ outcome = Some (SendFailed msg) ->
      recipient <> "" /\ e_to msg = [recipient] /\
      e_subject msg = "[AION Agent] System Status " ++ overall_status d.
Proof.
  apply (alerts_go_to_the_configured_recipient true
           (Loaded {["email_alerts_enabled" := VBool true;
                     "email_recipient" := VStr "ops@example.org"]})
           ({["email_alerts_enabled" := VBool true;
              "email_recipient" := VStr "ops@example.org"]} ∪ defaults true)).
  reflexivity.
Defined.

Lemma upper_in_levels s :
  In (upper s) ["DEBUG"; "INFO"; "WARNING"; "ERROR"; "CRITICAL"] ->
  exists level, logging_level (upper s) = Ok level /\ In level [10; 20; 30; 40; 50].
Proof.
  intros Hin. cbn [In] in Hin.
  destruct Hin as [<- | [<- | [<- | [<- | [<- | []]]]]]; eexists;
    (split; [reflexivity | cbn [In]; tauto]).
Qed.

(** The logging level is always one of the five standard levels: the level
    named in a loaded configuration, upper-cased as [_configure_logging]
    does, is one of DEBUG, INFO, WARNING, ERROR and CRITICAL, also when the
    file spells it in lower case, so the fallback to INFO is never taken. *)
Theorem loaded_log_level_is_standard (ollama_available : bool) (f : load_outcome)
    (config : gmap string pyval) :
  merged_config ollama_available f = Ok config ->
  exists c name level,
    _load_and_validate_config ollama_available f = Ok c /\
    log_level_str c = Ok name /\
    In name ["DEBUG"; "INFO"; "WARNING"; "ERROR"; "CRITICAL"] /\
    logging_level name = Ok level /\
    In level [10; 20; 30; 40; 50].
Proof.
  intros Hmerged.
  destruct (load_typed ollama_available f config Hmerged) as (c & cfg & Hc & Htyped & _).
  destruct (Htyped "log_level"
              (mk_schema TStr None None
                 (Some ["DEBUG"; "INFO"; "WARNING"; "ERROR"; "CRITICAL"])))
    as (v & Hv & _ & _ & Henum & _); [in_schema |].
  destruct (Henum _ eq_refl) as (s & -> & Hin).
  destruct (upper_in_levels s Hin) as (level & Hlevel & Hstd).
  exists c, (upper s), level. split; [exact Hc |].
  unfold log_level_str. rewrite Hv. cbn [default from_option id].
  by repeat split.
Qed.

(** ** What a whole turn does to the host *)

Lemma adds_bind {A B} (P : event -> Prop) (m : M A) (k : A -> M B) w :
  adds P w (m w).2 ->
  (forall a w1, m w = (Ok a, w1) -> adds P w1 (k a w1).2) ->
  adds P w ((m ≫= k) w).2.
Proof.
  intros Hm Hk. unfold mbind, M_bind.
  destruct (m w) as [[a | e] w1] eqn:Hmw; cbn [snd] in Hm; [| exact Hm].
  eapply adds_trans; [exact Hm | by apply Hk].
Qed.

Lemma adds_try {A} (P : event -> Prop) (body : M A) (handler : exn -> M A) w :
  adds P w (body w).2 ->
  (forall e w1, body w = (Raise e, w1) -> adds P w1 (handler e w1).2) ->
  adds P w (try_except body handler w).2.
Proof.
  intros Hb Hh. unfold try_except.
  destruct (body w) as [[a | e] w1] eqn:Hbw; cbn [snd] in Hb; [exact Hb |].
  eapply adds_trans; [exact Hb | by apply Hh].
Qed.

Lemma adds_emit (P : event -> Prop) ev w : P ev -> adds P w (emit ev w).2.
Proof. intros H. exists [ev]. split; [reflexivity | by repeat constructor]. Qed.

Lemma adds_ask {A} (P : event -> Prop) (oracle : nat -> A) w : adds P w (ask oracle w).2.
Proof. exists []. cbn. by rewrite app_nil_r. Qed.

Section turn.
Context (env : host) (cfg : config) (P : event -> Prop).
Hypothesis process_events : forall ev, process_event ev -> P ev.

Lemma executor_adds command_list check use_sudo shell input_str timeout_sec w :
  adds P w (_run_subprocess env command_list check use_sudo shell input_str timeout_sec w).2.
Proof. eapply adds_weaken; [exact process_events | apply run_subprocess_events]. Qed.

Lemma heal_memory_adds w : adds P w (_heal_memory env cfg w).2.
Proof.
  unfold _heal_memory. destruct (_ || _)%bool; [apply adds_refl |].
  apply adds_bind; [apply executor_adds | intros; apply adds_refl].
Qed.

Lemma heal_processes_adds w : adds P w (_heal_processes env cfg w).2.
Proof.
  unfold _heal_processes. destruct (_ || _)%bool; [apply adds_refl |].
  apply adds_try; [| intros; apply adds_refl].
  apply adds_bind; [apply adds_ask | intros ps w1 _].
  apply adds_bind; [apply adds_refl | intros all w2 _].
  destruct (filter _ all); [apply adds_refl |].
  apply adds_bind; [apply executor_adds | intros; apply adds_refl].
Qed.

Lemma heal_disk_item_adds path age kind tf w :
  adds P w (heal_disk_item env path age kind tf w).2.
Proof.
  unfold heal_disk_item. destruct (isdir env path); [| apply adds_refl].
  apply adds_bind; [apply executor_adds | intros; apply adds_refl].
Qed.

Lemma heal_disk_adds w : adds P w (_heal_disk env cfg w).2.
Proof.
  unfold _heal_disk. destruct (self_heal_disk_enabled cfg); cbn [negb]; [| apply adds_refl].
  apply adds_try; [| intros; apply adds_refl].
  apply adds_bind; [apply heal_disk_item_adds | intros a w1 _].
  apply adds_bind; [apply heal_disk_item_adds | intros; apply adds_refl].
Qed.

Lemma restart_services_adds services :
  forall attempted last_error w,
    adds P w (restart_services env services attempted last_error w).2.
Proof.
  induction services as [| service rest IH]; intros attempted last_error w;
    cbn [restart_services]; [apply adds_refl |].
  apply adds_bind; [apply executor_adds | intros r w1 _].
  destruct r.1; [apply adds_refl | apply IH].
Qed.

Lemma heal_network_adds w : adds P w (_heal_network env cfg w).2.
Proof.
  unfold _heal_network. destruct (self_heal_network_enabled cfg); cbn [negb];
    [| apply adds_refl].
  destruct (self_heal_network_service_names cfg); [apply adds_refl |].
  apply adds_bind; [apply restart_services_adds | intros; apply adds_refl].
Qed.

Lemma abnormal_adds checks key w : adds P w (abnormal checks key w).2.
Proof.
  unfold abnormal. apply adds_bind; [apply adds_refl | intros; apply adds_refl].
Qed.

(** The orchestrator adds the events of the healers it calls. *)
Lemma perform_self_healing_adds d w :
  (forall h w0, checks d !! "cpu" = Some h -> adds P w0 (_heal_cpu env cfg h w0).2) ->
  adds P w (perform_self_healing env cfg d w).2.
Proof.
  intros Hcpu. unfold perform_self_healing.
  destruct (self_healing_enabled cfg); cbn [negb]; [| apply adds_refl].
  apply adds_bind; [apply abnormal_adds | intros cpu w1 Hab].
  apply adds_bind.
  { destruct cpu as [h |]; [| apply adds_refl]. apply Hcpu.
    unfold abnormal, dict_item in Hab.
    destruct (checks d !! "cpu") as [h' |]; [| discriminate Hab].
    unfold mbind, M_bind, lift, mret, M_ret in Hab.
    destruct (String.eqb (status h') "NOMINAL"); [discriminate Hab |].
    by injection Hab as <- _. }
  intros a1 w2 _.
  apply adds_bind; [apply abnormal_adds | intros memory w3 _].
  apply adds_bind; [destruct memory; [apply heal_memory_adds | apply adds_refl] |].
  intros a2 w4 _.
  apply adds_bind; [apply abnormal_adds | intros processes w5 _].
  apply adds_bind; [destruct processes; [apply heal_processes_adds | apply adds_refl] |].
  intros a3 w6 _.
  apply adds_bind; [apply abnormal_adds | intros disk w7 _].
  apply adds_bind; [destruct disk; [apply heal_disk_adds | apply adds_refl] |].
  intros a4 w8 _.
  apply adds_bind; [apply abnormal_adds | intros network w9 _].
  apply adds_bind; [destruct network; [apply heal_network_adds | apply adds_refl] |].
  intros a5 w10 _. apply adds_refl.
Qed.

Lemma update_man_db_adds w : adds P w (_update_man_db_if_needed env cfg w).2.
Proof.
  unfold _update_man_db_if_needed.
  apply adds_bind; [apply adds_ask | intros now w1 _].
  apply adds_bind; [apply adds_refl | intros last w2 _].
  destruct (float_lt _ _); [apply adds_refl |].
  apply adds_try; [| intros; apply adds_refl].
  apply adds_bind; [apply adds_ask | intros r w3 _].
  destruct r; try apply adds_refl.
  destruct (num_lt _ _); [| apply adds_refl].
  apply adds_bind; [apply executor_adds | intros out w4 _].
  destruct out.1; [| apply adds_refl].
  apply adds_bind; [apply adds_ask | intros now' w5 _].
  exists []. cbn. by rewrite app_nil_r.
Qed.

End turn.

Section whole_turn.
Context (env : host) (net : probes) (cfg : config) (P : event -> Prop).
Hypothesis process_events : forall ev, process_event ev -> P ev.
Hypothesis other_events :
  forall ev, (forall p, ev <> Selected p) -> (forall l, ev <> Launched l) ->
             (forall l, ev <> ChildKilled l) -> P ev.

(** What follows the diagnosis in the [try] block of the loop. *)
Lemma after_diagnosis_adds (d : diagnostics) w :
  (forall h w0, checks d !! "cpu" = Some h -> adds P w0 (_heal_cpu env cfg h w0).2) ->
  adds P w
    ((_ ← (if ollama_client env then emit AdviceRequested else mret tt);
      _ ← (if negb (String.eqb (overall_status d) "NOMINAL")
           then _ ← perform_self_healing env cfg d; mret tt
           else mret tt);
      _ ← _update_man_db_if_needed env cfg;
      mret false) w).2.
Proof.
  intros Hcpu.
  apply adds_bind.
  { destruct (ollama_client env); [| apply adds_refl].
    apply adds_emit, other_events; discriminate. }
  intros _ w1 _. apply adds_bind.
  { destruct (negb _); [| apply adds_refl].
    apply adds_bind; [by apply perform_self_healing_adds | intros; apply adds_refl]. }
  intros _ w2 _.
  apply adds_bind; [by apply update_man_db_adds | intros; apply adds_refl].
Qed.

Lemma after_collection_adds state w :
  (forall h w0, checks (diagnose_system net cfg state).1 !! "cpu" = Some h ->
     adds P w0 (_heal_cpu env cfg h w0).2) ->
  adds P w (after_collection env net cfg state w).2.
Proof.
  intros Hcpu. unfold after_collection. destruct (state !! "error") as [msg |].
  - apply adds_bind; [apply adds_emit, other_events; discriminate | intros _ w1 _].
    apply adds_bind; [| intros; apply adds_refl].
    unfold time_sleep. destruct (sleep_refused _); [apply adds_refl |].
    apply adds_emit, other_events; discriminate.
  - cbv zeta. apply adds_bind; [| intros _ w1 _; by apply after_diagnosis_adds].
    destruct (diagnose_system net cfg state).2; [| apply adds_refl].
    apply adds_emit, other_events; discriminate.
Qed.

Lemma get_system_state_adds w : adds P w (get_system_state env w).2.
Proof. exists []. cbn. by rewrite app_nil_r. Qed.

Lemma run_cycle_adds w :
  (forall state h w0, checks (diagnose_system net cfg state).1 !! "cpu" = Some h ->
     adds P w0 (_heal_cpu env cfg h w0).2) ->
  adds P w (run_cycle env net cfg w).2.
Proof.
  intros Hcpu. unfold run_cycle.
  apply adds_bind; [apply adds_ask | intros start_time w1 _].
  apply adds_bind.
  { apply adds_try.
    - apply adds_bind; [apply get_system_state_adds | intros state w2 _].
      apply after_collection_adds, Hcpu.
    - intros e w2 _. unfold loop_handler.
      apply adds_bind; [apply adds_emit, other_events; discriminate | intros; apply adds_refl]. }
  intros continued w2 _. destruct continued; [apply adds_refl |].
  apply adds_bind; [apply adds_ask | intros now w3 _]. cbv zeta.
  apply adds_bind; [apply adds_refl | intros sleep_duration w4 _].
  apply adds_emit, other_events; discriminate.
Qed.

End whole_turn.

(** Without an issue of the type it searches for, [_heal_cpu] does nothing
    when its threshold is positive. *)
Lemma heal_cpu_idle env cfg h w :
  none_typed "HIGH_CPU_USAGE" h ->
  num_lt (NInt 0) (self_heal_cpu_threshold cfg) = true ->
  _heal_cpu env cfg h w = (Ok None, w).
Proof.
  intros Hh Hpos. unfold _heal_cpu.
  destruct (self_heal_cpu_enabled cfg); cbn [negb]; [| reflexivity].
  rewrite (none_typed_first_value _ _ Hh).
  runM. unfold py_lt_num. cbn [to_num]. by rewrite Hpos.
Qed.

(** As the code stands, a turn of the loop never chooses a process for
    termination when [self_heal_cpu_threshold] is positive, whatever the
    host, the configuration and the load: the cpu entry of a diagnosis never
    carries the issue type CPU mitigation searches for, so the mitigation
    reads a utilisation of 0 and returns before ranking any process.  The
    other healers only launch commands. *)
Theorem no_process_is_ever_selected (env : host) (net : probes) (cfg : config)
    (w : world) :
  num_lt (NInt 0) (self_heal_cpu_threshold cfg) = true ->
  exists new,
    w_events (run_cycle env net cfg w).2 = (w_events w ++ new)%list /\
    forall p, Selected p ∉ new.
Proof.
  intros Hpos.
  destruct (run_cycle_adds env net cfg (fun ev => forall p, ev <> Selected p)) with (w := w)
    as (new & Hnew & Hall).
  - intros ev Hev p ->. destruct Hev.
  - intros ev Hev _ _. exact Hev.
  - intros state h w0 Hh.
    rewrite (heal_cpu_idle env cfg h w0); [apply adds_refl | | exact Hpos].
    by apply (cpu_entry_none_typed net cfg state).
  - exists new. split; [exact Hnew |]. intros p Hp. rewrite Forall_forall in Hall.
    by apply (Hall _ Hp p).
Qed.

Lemma no_process_is_ever_selected_witness :
  exists new,
    w_events (run_cycle busy_host quiet_host cpu_healing_config initial_world).2
      = (w_events initial_world ++ new)%list /\
    forall p, Selected p ∉ new.
Proof.
  apply (no_process_is_ever_selected busy_host quiet_host cpu_healing_config initial_world).
  reflexivity.
Defined.




